(** * OncoVisionX: data partitioning and training orchestration

    A shallow embedding of the preprocessing and training-control code of
    [ml_core/src] together with the properties its specification states.

    Conventions of the embedding:
    - Python [float] values are modelled by exact rationals ([Q]); every
      comparison and division of the source is performed on [Q].  Rounding
      error of IEEE doubles is therefore outside the model: where a sum, a
      product or a quotient of the source lands within rounding of a
      threshold the code can take the other branch.  The definitions say
      where that can happen, and the properties keep clear of it: they
      compare recorded values with each other, or leave a margin around
      the threshold that is far wider than the rounding.
    - A Python exception is a value of [exn]; code that can raise returns
      [Result].
    - [logger.info]/[logger.warning] calls that a property talks about are
      collected in an explicit list of log records. *)

From Stdlib Require Import ZArith QArith Qround Qabs Qpower Lia Lqa List Permutation Ascii String.
From stdpp Require Import base option list strings gmap sorting.
Import ListNotations.

Local Open Scope string_scope.
Local Open Scope Z_scope.

(** ** Python-level prelude *)

Module Py.

Inductive exn : Type :=
| ValueError (msg : string)
| FileNotFoundError (msg : string)
| KeyError (key : string)
| IndexError
| ZeroDivisionError.

Inductive Result (A : Type) : Type :=
| Ok (a : A)
| Raise (e : exn).
Arguments Ok {A} a.
Arguments Raise {A} e.

Definition bind {A B : Type} (r : Result A) (k : A -> Result B) : Result B :=
  match r with
  | Ok a => k a
  | Raise e => Raise e
  end.

Definition is_ok {A : Type} (r : Result A) : bool :=
  match r with Ok _ => true | Raise _ => false end.

Inductive level : Type := INFO | WARNING | ERROR.

Record log_record : Type := LogRecord { lvl : level; message : string }.

(** [x > y] and [x < y] on floats *)
Definition Qgtb (x y : Q) : bool := negb (Qle_bool x y).
Definition Qltb (x y : Q) : bool := negb (Qle_bool y x).

(** true division [a / b] of Python numbers *)
Definition truediv (a b : Q) : Result Q :=
  if Qeq_bool b 0 then Raise ZeroDivisionError else Ok (a / b)%Q.

End Py.

Import Py.

(** [Result] is used through stdpp's monad notation [x ← c; k]. *)
#[global] Instance Result_ret : MRet Result := fun A a => Ok a.
#[global] Instance Result_bind : MBind Result := fun A B k r => Py.bind r k.

(** ** pandas helpers *)

Module Pandas.

(** [Series.value_counts().to_dict()]: how often each value occurs. *)
Definition value_counts (values : list string) : gmap string nat :=
  foldr (fun v counts => <[v := S (default 0%nat (counts !! v))]> counts) ∅ values.

(** [str.lower()] on ASCII text *)
Definition lower_ascii (c : ascii) : ascii :=
  let n := nat_of_ascii c in
  if (Nat.leb 65 n && Nat.leb n 90)%bool then ascii_of_nat (n + 32) else c.

Fixpoint lower (s : string) : string :=
  match s with
  | EmptyString => EmptyString
  | String c rest => String (lower_ascii c) (lower rest)
  end.

End Pandas.

(** ** preprocessing/data_merger.py *)

Module DataMerger.

(** A row of the merged registry ([master_metadata.csv]). *)
Record Sample : Type := mkSample {
  image_id : string;
  dx : string;
  source : string
}.

(** A row of [HAM10000_metadata.csv]; [merge_datasets] keeps only the
    columns [image_id] and [dx] right after loading. *)
Record HamRow : Type := mkHamRow {
  ham_image_id : string;
  ham_dx : string
}.

(** [ISIC_2019_Training_GroundTruth.csv]: the id column (named [image] in
    the file, renamed to [image_id] on loading) and numeric columns; a row
    gives the number in each column.  Empty (NaN) cells are outside the
    model. *)
Record IsicRow : Type := mkIsicRow {
  isic_image_id : string;
  cells : string -> Q
}.

Record IsicFrame : Type := mkIsicFrame {
  isic_columns : list string;
  isic_rows : list IsicRow
}.

Definition label_columns : list string :=
  ["MEL"; "NV"; "BCC"; "AK"; "BKL"; "DF"; "VASC"; "SCC"].

(** [df[cols].idxmax(axis=1)] for one row: the first column holding the
    row's maximum. *)
Fixpoint idxmax_from (row : IsicRow) (best_col : string) (best_val : Q)
    (cols : list string) : string :=
  match cols with
  | [] => best_col
  | c :: rest =>
      if Qgtb (cells row c) best_val
      then idxmax_from row c (cells row c) rest
      else idxmax_from row best_col best_val rest
  end.

Definition idxmax (row : IsicRow) (cols : list string) : Result string :=
  match cols with
  | [] => Raise (ValueError "attempt to get argmax of an empty sequence")
  | c :: rest => Ok (idxmax_from row c (cells row c) rest)
  end.

(** [harmonize_isic_labels(self, df)]: every row paired with its new [dx]
    cell. *)
Definition harmonize_isic_labels (df : IsicFrame) : Result (list (IsicRow * string)) :=
  let missing_cols :=
    List.filter (fun c => negb (existsb (String.eqb c) (isic_columns df))) label_columns in
  match missing_cols with
  | _ :: _ => Raise (ValueError "Missing label columns in ISIC data")
  | [] =>
      mapM (fun row =>
              col ← idxmax row label_columns;
              let dx := Pandas.lower col in
              let dx := if String.eqb dx "ak" then "akiec" else dx in
              Ok (row, dx))
           (isic_rows df)
  end.

(** [remove_duplicates(self, ham_df, isic_df)] *)
Definition remove_duplicates (ham_df isic_df : list Sample) : list Sample :=
  let ham_image_ids : gset string := list_to_set (map image_id ham_df) in
  filter (fun r => image_id r ∉ ham_image_ids) isic_df.

Record Stats : Type := mkStats {
  total_images : nat;
  ham10000_count : nat;
  isic2019_count : nat;
  class_distribution : gmap string nat;
  source_distribution : gmap string nat
}.

(** Python's [max]/[min] of a sequence of counts *)
Definition py_max (l : list nat) : Result nat :=
  match l with
  | [] => Raise (ValueError "max() arg is an empty sequence")
  | x :: rest => Ok (foldr Nat.max x rest)
  end.

Definition py_min (l : list nat) : Result nat :=
  match l with
  | [] => Raise (ValueError "min() arg is an empty sequence")
  | x :: rest => Ok (foldr Nat.min x rest)
  end.

(** [merge_datasets(self)].  The two arguments are the contents of the two
    metadata files, [None] when the file does not exist. *)
Definition merge_datasets (ham_file : option (list HamRow)) (isic_file : option IsicFrame)
    : Result (list Sample * Stats) :=
  match ham_file with
  | None => Raise (FileNotFoundError "HAM10000 metadata not found")
  | Some ham_rows =>
      let ham_df := map (fun r => mkSample (ham_image_id r) (ham_dx r) "ham10000") ham_rows in
      match isic_file with
      | None => Raise (FileNotFoundError "ISIC 2019 metadata not found")
      | Some isic_raw =>
          harmonized ← harmonize_isic_labels isic_raw;
          let isic_df :=
            map (fun rd => mkSample (isic_image_id (fst rd)) (snd rd) "isic2019") harmonized in
          let isic_df := remove_duplicates ham_df isic_df in
          let master_df := (ham_df ++ isic_df)%list in
          let stats :=
            {| total_images := length master_df;
               ham10000_count := length ham_df;
               isic2019_count := length isic_df;
               class_distribution := Pandas.value_counts (map dx master_df);
               source_distribution := Pandas.value_counts (map source master_df) |} in
          let counts := map snd (map_to_list (class_distribution stats)) in
          max_class ← py_max counts;
          min_class ← py_min counts;
          _ ← truediv (inject_Z (Z.of_nat max_class)) (inject_Z (Z.of_nat min_class));
          Ok (master_df, stats)
      end
  end.

End DataMerger.

(** ** scikit-learn: [train_test_split] with [stratify]

    [split_data] is two calls of [sklearn.model_selection.train_test_split].
    The routine is modelled after the library's algorithm
    ([_validate_shuffle_split], [StratifiedShuffleSplit._iter_indices],
    [_approximate_mode]) on exact rationals.  The pseudo-random generator is
    a parameter: any generator whose [permutation] and [choice] do what
    numpy documents for them. *)

Module Sklearn.

Record RandomState : Type := mkRandomState {
  rs : Type;
  (** [np.random.RandomState(seed)] *)
  seed : Z -> rs;
  (** [rng.permutation(n)] for an integer [n] *)
  permutation : rs -> nat -> list nat * rs;
  (** [rng.choice(a, size=k, replace=False)] *)
  choice : rs -> list nat -> nat -> list nat * rs
}.

(** [rng.permutation(a)] for an array [a] *)
Definition permuted (G : RandomState) (st : rs G) (a : list nat) : list nat * rs G :=
  let '(p, st') := permutation G st (length a) in
  (map (fun j => nth j a 0%nat) p, st').

Definition sumZ (l : list Z) : Z := foldr Z.add 0 l.

Definition Qle_dec_rel (x y : Q) : Prop := Qle x y.

#[global] Instance Qle_dec_rel_dec (x y : Q) : Decision (Qle_dec_rel x y).
Proof.
  destruct (Qlt_le_dec y x) as [H|H]; [right | left; exact H].
  intros Hle. exact (Qlt_not_le _ _ H Hle).
Defined.

#[global] Instance Q_eq_dec : EqDecision Q.
Proof. solve_decision. Defined.

(** [np.sort(np.unique(a))] on floats: the distinct values in increasing
    order.  A rational is kept in lowest terms, so that equal numbers are
    one value. *)
Definition np_unique (a : list Q) : list Q :=
  merge_sort Qle_dec_rel (remove_dups (map Qred a)).

(** [np.where(a == value)]: the positions holding [value], counted from
    [k]. *)
Fixpoint np_where_from (k : nat) (value : Q) (a : list Q) : list nat :=
  match a with
  | [] => []
  | x :: rest =>
      if Qeq_bool x value then k :: np_where_from (S k) value rest
      else np_where_from (S k) value rest
  end.

Definition np_where (value : Q) (a : list Q) : list nat := np_where_from 0 value a.

(** [floored[inds] += 1] *)
Definition add_one_at (inds : list nat) (floored : list Z) : list Z :=
  foldr (fun i acc => alter Z.succ i acc) floored inds.

(** The [for value in values] loop of [_approximate_mode]. *)
Fixpoint add_loop (G : RandomState) (remainder : list Q) (values : list Q)
    (floored : list Z) (need_to_add : Z) (rng : rs G) : list Z * rs G :=
  match values with
  | [] => (floored, rng)
  | value :: rest =>
      let inds := np_where value remainder in
      let add_now := Z.min (Z.of_nat (length inds)) need_to_add in
      let '(inds, rng) := choice G rng inds (Z.to_nat add_now) in
      let floored := add_one_at inds floored in
      let need_to_add := need_to_add - add_now in
      if need_to_add =? 0 then (floored, rng)
      else add_loop G remainder rest floored need_to_add rng
  end.

(** [_approximate_mode(class_counts, n_draws, rng)] *)
Definition approximate_mode (G : RandomState) (class_counts : list Z) (n_draws : Z)
    (rng : rs G) : list Z * rs G :=
  let total := sumZ class_counts in
  let continuous :=
    map (fun c => (inject_Z c / inject_Z total * inject_Z n_draws)%Q) class_counts in
  let floored := map Qfloor continuous in
  let need_to_add := n_draws - sumZ floored in
  if 0 <? need_to_add then
    let remainder := map (fun x => (x - inject_Z (Qfloor x))%Q) continuous in
    let values := reverse (np_unique remainder) in
    add_loop G remainder values floored need_to_add rng
  else (floored, rng).

(** [_validate_shuffle_split(n_samples, test_size, train_size=None)] for a
    float [test_size]: the pair [(n_train, n_test)].  The product
    [test_size * n_samples] is exact here and rounded in the source: where
    it lies within rounding of an integer, [ceil] gives the source one row
    more or less than [n_test] here (0.2 + 0.1 on 20 rows: 7 against 6). *)
Definition validate_shuffle_split (n_samples : nat) (test_size : Q) : Result (Z * Z) :=
  if (Qle_bool test_size 0 || Qle_bool 1 test_size)%bool then
    Raise (ValueError "test_size should be a float in the (0, 1) range")
  else
    let n_test := Qceiling (test_size * inject_Z (Z.of_nat n_samples)) in
    let n_train := Z.of_nat n_samples - n_test in
    if n_train =? 0 then Raise (ValueError "the resulting train set will be empty")
    else Ok (n_train, n_test).

Definition String_le (a b : string) : Prop := String.leb a b = true.

#[global] Instance String_le_dec (a b : string) : Decision (String_le a b).
Proof. unfold String_le. solve_decision. Defined.

(** [np.unique(y)] on labels: the distinct labels, sorted. *)
Definition classes_of (y : list string) : list string :=
  merge_sort String_le (remove_dups y).

(** Positions of class [c] in [y], counted from [k], in increasing order
    (one block of the stable [argsort] of the class indices). *)
Fixpoint class_indices_from (k : nat) (c : string) (y : list string) : list nat :=
  match y with
  | [] => []
  | x :: rest =>
      if String.eqb x c then k :: class_indices_from (S k) c rest
      else class_indices_from (S k) c rest
  end.

Definition class_indices (c : string) (y : list string) : list nat :=
  class_indices_from 0 c y.

(** Python slice bounds: a negative bound counts from the end, and both are
    clamped to the length. *)
Definition slice_bound (len : nat) (i : Z) : nat :=
  if i <? 0 then Z.to_nat (Z.max 0 (Z.of_nat len + i))
  else Z.to_nat (Z.min i (Z.of_nat len)).

(** [a[i:j]] *)
Definition py_slice {A : Type} (a : list A) (i j : Z) : list A :=
  let i' := slice_bound (length a) i in
  let j' := slice_bound (length a) j in
  take (j' - i') (drop i' a).

(** [a.take(p, mode='clip')] *)
Definition take_clip (a : list nat) (p : list nat) : list nat :=
  map (fun j => nth (Nat.min j (length a - 1)) a 0%nat) p.

(** The [for i in range(n_classes)] loop of [_iter_indices]: [blocks] holds,
    per class, its positions and its entries of [n_i] and [t_i]. *)
Fixpoint assign_classes (G : RandomState) (blocks : list (list nat * (Z * Z)))
    (train test : list nat) (rng : rs G) : (list nat * list nat) * rs G :=
  match blocks with
  | [] => ((train, test), rng)
  | (indices, (n, t)) :: rest =>
      let '(p, rng) := permutation G rng (length indices) in
      let perm_indices_class_i := take_clip indices p in
      let train := (train ++ py_slice perm_indices_class_i 0 n)%list in
      let test := (test ++ py_slice perm_indices_class_i n (n + t))%list in
      assign_classes G rest train test rng
  end.

(** [next(StratifiedShuffleSplit(test_size=n_test, train_size=n_train,
    random_state=random_state).split(X, y))].  The splitter validates the
    two integer sizes once more; for sizes that [validate_shuffle_split]
    produced ([1 <= n_test], [1 <= n_train], summing to the number of rows)
    that check never raises and is left out. *)
Definition stratified_shuffle_split (G : RandomState) (y : list string)
    (n_train n_test : Z) (random_state : Z) : Result (list nat * list nat) :=
  let classes := classes_of y in
  let n_classes := Z.of_nat (length classes) in
  let class_indices := map (fun c => class_indices c y) classes in
  let class_counts := map (fun ix => Z.of_nat (length ix)) class_indices in
  if existsb (fun c => c <? 2) class_counts then
    Raise (ValueError "The least populated class in y has only 1 member, which is too few.")
  else if n_train <? n_classes then
    Raise (ValueError "The train_size should be greater or equal to the number of classes")
  else if n_test <? n_classes then
    Raise (ValueError "The test_size should be greater or equal to the number of classes")
  else
    let rng := seed G random_state in
    let '(n_i, rng) := approximate_mode G class_counts n_train rng in
    let class_counts_remaining := zip_with Z.sub class_counts n_i in
    let '(t_i, rng) := approximate_mode G class_counts_remaining n_test rng in
    let '((train, test), rng) :=
      assign_classes G (zip class_indices (zip n_i t_i)) [] [] rng in
    let '(train, rng) := permuted G rng train in
    let '(test, rng) := permuted G rng test in
    Ok (train, test).

(** [df.iloc[positions]] *)
Definition iloc {A : Type} (df : list A) (positions : list nat) : Result (list A) :=
  mapM (fun i => match df !! i with
                 | Some row => Ok row
                 | None => Raise IndexError
                 end) positions.

(** [train_test_split(df, test_size=test_size, stratify=stratify,
    random_state=random_state)] *)
Definition train_test_split {A : Type} (G : RandomState) (df : list A) (test_size : Q)
    (stratify : list string) (random_state : Z) : Result (list A * list A) :=
  '(n_train, n_test) ← validate_shuffle_split (length df) test_size;
  '(train, test) ← stratified_shuffle_split G stratify n_train n_test random_state;
  train_rows ← iloc df train;
  test_rows ← iloc df test;
  Ok (train_rows, test_rows).

End Sklearn.

(** ** preprocessing/data_splitter.py *)

Module DataSplitter.

Import DataMerger.

Record StratifiedDataSplitter : Type := mkSplitter {
  train_ratio : Q;
  val_ratio : Q;
  test_ratio : Q;
  random_state : Z
}.

(** [np.isclose(a, b)] with the default tolerances, [rtol = 1e-5] and
    [atol = 1e-8].  The source evaluates both sides on doubles: a
    difference within rounding of the tolerance can fall on the other
    side there. *)
Definition isclose (a b : Q) : bool :=
  Qle_bool (Qabs (a - b)) ((1 # 100000000) + (1 # 100000) * Qabs b)%Q.

(** [__init__]; [metadata_exists] tells whether [metadata_path] exists. *)
Definition StratifiedDataSplitter_init (metadata_exists : bool)
    (train_ratio val_ratio test_ratio : Q) (random_state : Z)
    : Result StratifiedDataSplitter :=
  if negb (isclose (train_ratio + val_ratio + test_ratio) 1) then
    Raise (ValueError "Ratios must sum to 1.0")
  else if negb metadata_exists then
    Raise (FileNotFoundError "Metadata not found")
  else
    Ok {| train_ratio := train_ratio; val_ratio := val_ratio;
          test_ratio := test_ratio; random_state := random_state |}.

(** [split_data(self)]; [df] is the content of the metadata file. *)
Definition split_data (G : Sklearn.RandomState) (self : StratifiedDataSplitter)
    (df : list Sample) : Result (list Sample * list Sample * list Sample) :=
  let temp_ratio := (val_ratio self + test_ratio self)%Q in
  '(train_df, temp_df) ←
    Sklearn.train_test_split G df temp_ratio (map dx df) (random_state self);
  '(val_df, test_df) ←
    Sklearn.train_test_split G temp_df (1 # 2)%Q (map dx temp_df) (random_state self);
  Ok (train_df, val_df, test_df).

End DataSplitter.

(** ** datasets/dataloader.py *)

Module Dataloader.

(** Position addressed by integer index [idx] in a numpy array of length
    [n]: negative indices count from the end, anything else out of range
    raises. *)
Definition np_index (n : nat) (idx : Z) : Result nat :=
  if ((0 <=? idx)%Z && (idx <? Z.of_nat n)%Z)%bool then Ok (Z.to_nat idx)
  else if ((- Z.of_nat n <=? idx)%Z && (idx <? 0)%Z)%bool then Ok (Z.to_nat (Z.of_nat n + idx))
  else Raise IndexError.

(** [a[idx] = v] *)
Definition np_setitem (a : list Q) (idx : Z) (v : Q) : Result (list Q) :=
  i ← np_index (length a) idx;
  Ok (<[i := v]> a).

Definition beta : Q := 9999 # 10000.

Definition zero_samples_warning (diagnosis : string) : log_record :=
  LogRecord WARNING ("Class '" ++ diagnosis ++ "' has 0 samples!").

(** The [for diagnosis, idx in class_to_idx.items()] loop of
    [compute_class_weights], threading the weights array and the warnings
    logged so far.  The weights are the exact values of the formulas; the
    source rounds them to doubles and returns them as [float32], so that
    weights that differ here can coincide there. *)
Fixpoint weights_loop (class_counts : gmap string nat) (total_samples num_classes : nat)
    (method : string) (items : list (string * Z)) (weights : list Q)
    (log : list log_record) : Result (list Q * list log_record) :=
  match items with
  | [] => Ok (weights, log)
  | (diagnosis, idx) :: rest =>
      let count := default 0%nat (class_counts !! diagnosis) in
      if Nat.eqb count 0 then
        weights' ← np_setitem weights idx 1%Q;
        weights_loop class_counts total_samples num_classes method rest weights'
          (log ++ [zero_samples_warning diagnosis])%list
      else if String.eqb method "inverse_frequency" then
        w ← truediv (inject_Z (Z.of_nat total_samples))
              (inject_Z (Z.of_nat num_classes * Z.of_nat count));
        weights' ← np_setitem weights idx w;
        weights_loop class_counts total_samples num_classes method rest weights' log
      else if String.eqb method "effective_number" then
        let effective_num := (1 - beta ^ Z.of_nat count)%Q in
        (* a numpy float divisor: a zero would give inf with a warning; the
           model is stricter and raises *)
        w ← truediv (1 - beta)%Q effective_num;
        weights' ← np_setitem weights idx w;
        weights_loop class_counts total_samples num_classes method rest weights' log
      else Raise (ValueError "Unknown weighting method")
  end.

(** [compute_class_weights(csv_path, class_to_idx, method)]: [df] is the
    content of the CSV file, [class_to_idx] the dictionary in iteration
    order.  The result is the weight tensor together with the warnings
    logged. *)
Definition compute_class_weights (df : list DataMerger.Sample)
    (class_to_idx : list (string * Z)) (method : string)
    : Result (list Q * list log_record) :=
  let total_samples := length df in
  let num_classes := length class_to_idx in
  let class_counts := Pandas.value_counts (map DataMerger.dx df) in
  let weights := replicate num_classes 0%Q in
  weights_loop class_counts total_samples num_classes method class_to_idx weights [].

(** [torch.utils.data.WeightedRandomSampler]: the object keeps its
    arguments. *)
Record WeightedRandomSampler : Type := mkWeightedRandomSampler {
  sampler_weights : list Q;
  num_samples : nat;
  replacement : bool
}.

(** [WeightedRandomSampler(weights, num_samples, replacement)]: torch
    refuses a sample count that is not positive. *)
Definition WeightedRandomSampler_init (weights : list Q) (num_samples : nat)
    (replacement : bool) : Result WeightedRandomSampler :=
  if Nat.eqb num_samples 0 then
    Raise (ValueError "num_samples should be a positive integer value")
  else Ok (mkWeightedRandomSampler weights num_samples replacement).

(** [create_weighted_sampler(csv_path, class_to_idx)]; [df] is the content
    of the CSV file. *)
Definition create_weighted_sampler (df : list DataMerger.Sample)
    (class_to_idx : list (string * Z)) : Result WeightedRandomSampler :=
  let class_counts := Pandas.value_counts (map DataMerger.dx df) in
  sample_weights ←
    mapM (fun diagnosis =>
            match class_counts !! diagnosis with
            | None => Raise (KeyError diagnosis)
            | Some count => truediv 1%Q (inject_Z (Z.of_nat count))
            end)
         (map DataMerger.dx df);
  WeightedRandomSampler_init sample_weights (length sample_weights) true.

End Dataloader.

(** ** datasets/skin_lesion_dataset.py *)

Module SkinLesionDataset.

Import DataMerger.

(** [directory / file_name] *)
Record Path : Type := mkPath { directory : string; file_name : string }.

(** The dictionary returned by [get_sample_info]. *)
Record SampleInfo : Type := mkSampleInfo {
  info_index : Z;
  info_image_id : string;
  info_diagnosis : string;
  info_label_idx : Z;
  info_source : string;
  info_path : Path;
  info_exists : bool
}.

(** [d[key]] on a dictionary given by its items *)
Definition dict_getitem (d : list (string * Z)) (key : string) : Result Z :=
  match List.find (fun item => String.eqb (fst item) key) d with
  | Some item => Ok (snd item)
  | None => Raise (KeyError key)
  end.

(** [_validate_directories]: the warnings it logs; it never raises. *)
Definition _validate_directories (dir_exists : string -> bool) (ham_dir isic_dir : string)
    : list log_record :=
  ((if dir_exists ham_dir then []
    else [LogRecord WARNING ("HAM10000 directory not found: " ++ ham_dir)])
   ++ (if dir_exists isic_dir then []
       else [LogRecord WARNING ("ISIC 2019 directory not found: " ++ isic_dir)]))%list.

(** [Error loading image {image_id}] *)
Definition load_error (image_id : string) : log_record :=
  LogRecord ERROR ("Error loading image " ++ image_id).

Section Dataset.

(** Images ([numpy] arrays) and tensors are opaque: [black] is
    [np.zeros((224, 224, 3), dtype=np.uint8)], [cvtColor] the BGR to RGB
    conversion, [to_tensor] the conversion used when there is no
    transform. *)
Variables Image Tensor : Type.
Variable black : Image.
Variable cvtColor : Image -> Image.
Variable to_tensor : Image -> Tensor.

(** The image files: [None] when the path does not exist, [Some None] when
    [cv2.imread] gives [None], [Some (Some image)] when it reads [image]. *)
Definition Disk : Type := Path -> option (option Image).

Record SkinLesionDataset : Type := mkDataset {
  data : list Sample;
  ham_dir : string;
  isic_dir : string;
  (** [transform(image=image)['image']], which may raise *)
  transform : option (Image -> Result Tensor);
  class_to_idx : list (string * Z);
  idx_to_class : gmap Z string;
  num_classes : nat;
  class_distribution : gmap string nat
}.

(** [__init__]; [csv] is the content of [csv_path], [None] when the file
    does not exist. *)
Definition SkinLesionDataset_init (csv : option (list Sample)) (dir_exists : string -> bool)
    (ham_dir isic_dir : string) (transform : option (Image -> Result Tensor))
    (class_to_idx : option (list (string * Z)))
    : Result (SkinLesionDataset * list log_record) :=
  match csv with
  | None => Raise (FileNotFoundError "CSV file not found")
  | Some data =>
      let log := _validate_directories dir_exists ham_dir isic_dir in
      match class_to_idx with
      | None => Raise (ValueError "class_to_idx mapping must be provided")
      | Some class_to_idx =>
          Ok ({| data := data;
                 ham_dir := ham_dir;
                 isic_dir := isic_dir;
                 transform := transform;
                 class_to_idx := class_to_idx;
                 idx_to_class :=
                   foldl (fun d item => <[snd item := fst item]> d) ∅ class_to_idx;
                 num_classes := length class_to_idx;
                 class_distribution := Pandas.value_counts (map dx data) |}, log)
      end
  end.

Definition _get_image_path (self : SkinLesionDataset) (image_id source : string)
    : Result Path :=
  let file_extension := ".jpg" in
  if String.eqb source "ham10000" then
    Ok (mkPath (ham_dir self) (image_id ++ file_extension))
  else if String.eqb source "isic2019" then
    Ok (mkPath (isic_dir self) (image_id ++ file_extension))
  else Raise (ValueError ("Unknown source: " ++ source)).

Definition _load_image (disk : Disk) (image_path : Path) : Result Image :=
  match disk image_path with
  | None => Raise (FileNotFoundError "Image not found")
  | Some None => Raise (ValueError "Failed to read image (corrupted?)")
  | Some (Some image) => Ok (cvtColor image)
  end.

Definition __len__ (self : SkinLesionDataset) : nat := length (data self).

(** [self.data.iloc[idx]] *)
Definition iloc (data : list Sample) (idx : Z) : Result Sample :=
  i ← Dataloader.np_index (length data) idx;
  match data !! i with
  | Some row => Ok row
  | None => Raise IndexError
  end.

(** [__getitem__(self, idx)]: the pair [(image, label)] and the errors
    logged. *)
Definition __getitem__ (disk : Disk) (self : SkinLesionDataset) (idx : Z)
    : Result ((Tensor * Z) * list log_record) :=
  row ← iloc (data self) idx;
  image_path ← _get_image_path self (image_id row) (source row);
  loaded ← match _load_image disk image_path with
           | Ok image => Ok (image, [])
           | Raise (FileNotFoundError _) | Raise (ValueError _) =>
               Ok (black, [load_error (image_id row)])
           | Raise e => Raise e
           end;
  image ← match transform self with
          | Some transform => transform (fst loaded)
          | None => Ok (to_tensor (fst loaded))
          end;
  label ← dict_getitem (class_to_idx self) (dx row);
  Ok ((image, label), snd loaded).

Definition get_sample_info (disk : Disk) (self : SkinLesionDataset) (idx : Z)
    : Result SampleInfo :=
  row ← iloc (data self) idx;
  image_path ← _get_image_path self (image_id row) (source row);
  label_idx ← dict_getitem (class_to_idx self) (dx row);
  Ok {| info_index := idx;
        info_image_id := image_id row;
        info_diagnosis := dx row;
        info_label_idx := label_idx;
        info_source := source row;
        info_path := image_path;
        info_exists := bool_decide (is_Some (disk image_path)) |}.

End Dataset.

Arguments data {Image Tensor} _.
Arguments ham_dir {Image Tensor} _.
Arguments isic_dir {Image Tensor} _.
Arguments transform {Image Tensor} _.
Arguments class_to_idx {Image Tensor} _.
Arguments idx_to_class {Image Tensor} _.
Arguments num_classes {Image Tensor} _.
Arguments class_distribution {Image Tensor} _.
Arguments SkinLesionDataset_init {Image Tensor}.
Arguments _get_image_path {Image Tensor}.
Arguments _load_image {Image}.
Arguments __len__ {Image Tensor}.
Arguments __getitem__ {Image Tensor}.
Arguments get_sample_info {Image Tensor}.

End SkinLesionDataset.

(** ** training/metrics.py *)

Module Metrics.

Definition CLASS_NAMES : list string :=
  ["akiec"; "bcc"; "bkl"; "df"; "mel"; "nv"; "scc"; "vasc"].
Definition MELANOMA_IDX : nat := 4.

Record MetricsCalculator : Type := mkMetricsCalculator {
  class_names : list string;
  melanoma_idx : nat
}.

(** [list.index(x)] where [x in list] *)
Fixpoint list_index (x : string) (l : list string) : option nat :=
  match l with
  | [] => None
  | y :: rest => if String.eqb y x then Some 0%nat else S <$> list_index x rest
  end.

Definition MetricsCalculator_init (class_names : list string) : MetricsCalculator :=
  {| class_names := class_names;
     melanoma_idx := default MELANOMA_IDX (list_index "mel" class_names) |}.

(** [d[key]] *)
Definition getitem {V : Type} (d : gmap string V) (key : string) : Result V :=
  match d !! key with
  | Some v => Ok v
  | None => Raise (KeyError key)
  end.

(** [(all_preds == all_labels).mean()] for two arrays of one length (the
    mean of an empty array, NaN in numpy, is outside the model). *)
Definition accuracy (all_preds all_labels : list Z) : Q :=
  let hits := length (List.filter (fun pl => Z.eqb (fst pl) (snd pl)) (combine all_preds all_labels)) in
  (inject_Z (Z.of_nat hits) / inject_Z (Z.of_nat (length all_preds)))%Q.

(** [all_probs[:, j]] *)
Definition column (all_probs : list (list Q)) (j : nat) : Result (list Q) :=
  mapM (fun row => match row !! j with
                   | Some p => Ok p
                   | None => Raise IndexError
                   end) all_probs.

Definition safety_alert : log_record :=
  LogRecord WARNING "SAFETY ALERT: Melanoma sensitivity below target. Model may miss cancer!".

Section Compute.

(** The scikit-learn functions [compute] calls.  They are outside this
    repository; [compute] is modelled for whatever number they return or
    exception they raise.  A score that scikit-learn returns as NaN with a
    warning (the AUC of labels that hold a single class, in recent
    versions) is not a value of [Q]: such a call is outside the model.
    The classification report is the [output_dict=True] form: a dictionary
    of dictionaries. *)
Variable balanced_accuracy_score : list Z -> list Z -> Result Q.
Variable classification_report :
  list Z -> list Z -> list string -> Result (gmap string (gmap string Q)).
(** [roc_auc_score(y, scores, multi_class='ovr', average='macro')] *)
Variable roc_auc_score_ovr_macro : list Z -> list (list Q) -> Result Q.
(** [roc_auc_score(binary_labels, scores)] *)
Variable roc_auc_score : list Z -> list Q -> Result Q.

(** The [for cls in self.class_names] loop filling the per-class F1
    entries. *)
Fixpoint per_class_f1 (report : gmap string (gmap string Q)) (classes : list string)
    (metrics : gmap string Q) : Result (gmap string Q) :=
  match classes with
  | [] => Ok metrics
  | cls :: rest =>
      match report !! cls with
      | Some entry =>
          f1 ← getitem entry "f1-score";
          per_class_f1 report rest (<["f1_" ++ cls := f1]> metrics)
      | None => per_class_f1 report rest metrics
      end
  end.

(** [compute] up to the line before [try:]. *)
Definition standard_metrics (self : MetricsCalculator) (all_preds all_labels : list Z)
    : Result (gmap string Q) :=
  let metrics : gmap string Q := ∅ in
  balanced_acc ← balanced_accuracy_score all_labels all_preds;
  let metrics := <["accuracy" := accuracy all_preds all_labels]> metrics in
  let metrics := <["balanced_accuracy" := balanced_acc]> metrics in
  report ← classification_report all_labels all_preds (class_names self);
  macro_avg ← getitem report "macro avg";
  f1_macro ← getitem macro_avg "f1-score";
  let metrics := <["f1_macro" := f1_macro]> metrics in
  weighted_avg ← getitem report "weighted avg";
  f1_weighted ← getitem weighted_avg "f1-score";
  let metrics := <["f1_weighted" := f1_weighted]> metrics in
  metrics ← per_class_f1 report (class_names self) metrics;
  let mel_report : gmap string Q := default ∅ (report !! "mel") in
  let metrics := <["mel_sensitivity" := default 0%Q (mel_report !! "recall")]> metrics in
  let metrics := <["mel_precision" := default 0%Q (mel_report !! "precision")]> metrics in
  let metrics := <["mel_f1" := default 0%Q (mel_report !! "f1-score")]> metrics in
  Ok metrics.

(** The body of the [try:] block.  It mutates [metrics] as it goes, so it
    returns the dictionary as it stands when the block is left together
    with the exception that ended it, if any. *)
Definition auc_block (self : MetricsCalculator) (all_labels : list Z)
    (all_probs : list (list Q)) (metrics : gmap string Q)
    : gmap string Q * option exn :=
  match roc_auc_score_ovr_macro all_labels all_probs with
  | Raise e => (metrics, Some e)
  | Ok macro =>
      let metrics := <["auc_roc_macro" := macro]> metrics in
      let mel_binary_labels :=
        map (fun l => if Z.eqb l (Z.of_nat (melanoma_idx self)) then 1 else 0) all_labels in
      match (scores ← column all_probs (melanoma_idx self);
             roc_auc_score mel_binary_labels scores) with
      | Raise e => (metrics, Some e)
      | Ok auc => (<["auc_roc_melanoma" := auc]> metrics, None)
      end
  end.

(** [compute(self, all_preds, all_labels, all_probs, split)]: the metrics
    dictionary and the warnings logged. *)
Definition compute (self : MetricsCalculator) (all_preds all_labels : list Z)
    (all_probs : list (list Q)) : Result (gmap string Q * list log_record) :=
  metrics ← standard_metrics self all_preds all_labels;
  let '(metrics, raised) := auc_block self all_labels all_probs metrics in
  let metrics :=
    match raised with
    | Some _ => <["auc_roc_melanoma" := 0%Q]> (<["auc_roc_macro" := 0%Q]> metrics)
    | None => metrics
    end in
  mel_sensitivity ← getitem metrics "mel_sensitivity";
  let log := if Qltb mel_sensitivity (85 # 100) then [safety_alert] else [] in
  Ok (metrics, log).

End Compute.

End Metrics.

(** ** training/trainer.py *)

Module Trainer.

(** *** class EarlyStopping *)

Record EarlyStopping : Type := mkEarlyStopping {
  patience : Z;
  min_delta : Q;
  mode : string;
  counter : Z;
  best_value : option Q;
  should_stop : bool
}.

(** [__init__(self, patience=7, min_delta=0.001, mode='max')]; an argument
    the caller leaves out is [None] here and takes its default. *)
Definition EarlyStopping_init (patience : option Z) (min_delta : option Q)
    (mode : option string) : EarlyStopping :=
  {| patience := default 7 patience;
     min_delta := default (1 # 1000)%Q min_delta;
     mode := default "max" mode;
     counter := 0;
     best_value := None;
     should_stop := false |}.

(** [__call__(self, value)]: the returned pair is the method's result and
    the object after the call.  [best + min_delta] is exact here and
    rounded in the source: a value within rounding of it can be an
    improvement there and none here (0.01 after 0.009 with
    [min_delta = 0.001]), or the reverse. *)
Definition EarlyStopping_call (self : EarlyStopping) (value : Q) : bool * EarlyStopping :=
  match best_value self with
  | None =>
      (false,
       {| patience := patience self; min_delta := min_delta self; mode := mode self;
          counter := counter self; best_value := Some value;
          should_stop := should_stop self |})
  | Some best =>
      let improved :=
        if String.eqb (mode self) "max"
        then Qgtb value (best + min_delta self)
        else Qltb value (best - min_delta self) in
      if improved then
        (should_stop self,
         {| patience := patience self; min_delta := min_delta self; mode := mode self;
            counter := 0; best_value := Some value;
            should_stop := should_stop self |})
      else
        let counter' := counter self + 1 in
        let stop' := if counter' >=? patience self then true else should_stop self in
        (stop',
         {| patience := patience self; min_delta := min_delta self; mode := mode self;
            counter := counter'; best_value := best_value self;
            should_stop := stop' |})
  end.

(** Feeding a sequence of values to one object: the list of returned flags
    and the final object. *)
Fixpoint EarlyStopping_feed (self : EarlyStopping) (values : list Q) : list bool * EarlyStopping :=
  match values with
  | [] => ([], self)
  | v :: rest =>
      let '(r, self') := EarlyStopping_call self v in
      let '(rs, self'') := EarlyStopping_feed self' rest in
      (r :: rs, self'')
  end.


(** *** class Trainer

    The network, the optimizer, the scheduler and the data loaders are
    opaque to the control loop: what one epoch of [_train_one_epoch] and
    [_validate] produces is given by [validate], the metrics dictionary of
    each epoch.  Only the entries the loop reads are kept. *)

Record Metrics : Type := mkMetrics {
  balanced_accuracy : Q;
  mel_sensitivity : Q;
  f1_macro : Q
}.

(** The dictionary handed to [torch.save]; the two state dicts are opaque
    and left out. *)
Record Checkpoint : Type := mkCheckpoint {
  ck_epoch : nat;
  ck_model_name : string;
  ck_val_balanced_acc : Q;
  ck_val_mel_sensitivity : Q;
  ck_metrics : Metrics
}.

Record Trainer : Type := mkTrainer {
  model_name : string;
  num_epochs : nat;
  early_stopping : EarlyStopping;
  best_val_balanced_acc : Q;
  history_val_balanced_acc : list Q;
  history_val_mel_sensitivity : list Q;
  (** every [torch.save(checkpoint, path)] so far, oldest first, as
      (file name inside [checkpoint_dir], payload) *)
  saved : list (string * Checkpoint)
}.

(** [__init__]: [EarlyStopping(patience=config.training.early_stopping_patience,
    mode='max')], no [min_delta] argument; [best_val_balanced_acc = 0.0]. *)
Definition Trainer_init (config_num_epochs : nat) (config_early_stopping_patience : Z)
    (name : string) : Trainer :=
  {| model_name := name;
     num_epochs := config_num_epochs;
     early_stopping :=
       EarlyStopping_init (Some config_early_stopping_patience) None (Some "max");
     best_val_balanced_acc := 0;
     history_val_balanced_acc := [];
     history_val_mel_sensitivity := [];
     saved := [] |}.

Definition latest_path (self : Trainer) : string := model_name self ++ "_latest.pth".
Definition best_path (self : Trainer) : string := model_name self ++ "_best.pth".

(** [_save_checkpoint(self, epoch, metrics, is_best)]: the list of writes
    it performs. *)
Definition _save_checkpoint (self : Trainer) (epoch : nat) (metrics : Metrics)
    (is_best : bool) : list (string * Checkpoint) :=
  let checkpoint :=
    {| ck_epoch := epoch;
       ck_model_name := model_name self;
       ck_val_balanced_acc := balanced_accuracy metrics;
       ck_val_mel_sensitivity := mel_sensitivity metrics;
       ck_metrics := metrics |} in
  (latest_path self, checkpoint)
    :: (if is_best then [(best_path self, checkpoint)] else []).

(** The body of the [for epoch in range(self.num_epochs)] loop of [train];
    the boolean is [True] when the loop leaves through [break]. *)
Definition epoch_body (validate : nat -> Metrics) (self : Trainer) (epoch : nat)
    : Trainer * bool :=
  let metrics := validate epoch in
  let hist_acc := (history_val_balanced_acc self ++ [balanced_accuracy metrics])%list in
  let hist_mel := (history_val_mel_sensitivity self ++ [mel_sensitivity metrics])%list in
  let is_best := Qgtb (balanced_accuracy metrics) (best_val_balanced_acc self) in
  let best' := if is_best then balanced_accuracy metrics else best_val_balanced_acc self in
  let saved' := (saved self ++ _save_checkpoint self epoch metrics is_best)%list in
  let '(stop, es') := EarlyStopping_call (early_stopping self) (balanced_accuracy metrics) in
  ({| model_name := model_name self;
      num_epochs := num_epochs self;
      early_stopping := es';
      best_val_balanced_acc := best';
      history_val_balanced_acc := hist_acc;
      history_val_mel_sensitivity := hist_mel;
      saved := saved' |}, stop).

Fixpoint train_loop (validate : nat -> Metrics) (epochs : list nat) (self : Trainer) : Trainer :=
  match epochs with
  | [] => self
  | epoch :: rest =>
      let '(self', stop) := epoch_body validate self epoch in
      if stop then self' else train_loop validate rest self'
  end.

(** [train(self)] *)
Definition train (validate : nat -> Metrics) (self : Trainer) : Trainer :=
  train_loop validate (seq 0 (num_epochs self)) self.

(** Epochs that [train] ran: one history entry is appended per epoch. *)
Definition epochs_run (self : Trainer) : nat := length (history_val_balanced_acc self).

(** Whether a write of file [path] with payload epoch [e] happened. *)
Definition written (self : Trainer) (path : string) (e : nat) : bool :=
  existsb (fun w => String.eqb (fst w) path && Nat.eqb (ck_epoch (snd w)) e) (saved self).

(** The [is_best] flag of every epoch that ran, read off the writes. *)
Definition is_best_flags (self : Trainer) : list bool :=
  map (written self (best_path self)) (seq 0 (epochs_run self)).

End Trainer.

(** * Specification vocabulary

    Predicates the properties are stated with, and the concrete inputs they
    are run on. *)

(** ** Label harmonization *)

(** The [dx] cell that [harmonize_isic_labels] computes for a row. *)
Definition harmonized_dx (row : DataMerger.IsicRow) : string :=
  let col := DataMerger.idxmax_from row "MEL" (DataMerger.cells row "MEL")
               (tail DataMerger.label_columns) in
  let dx := Pandas.lower col in
  if String.eqb dx "ak" then "akiec" else dx.

(** An ISIC row with id [id] whose only non-zero cell is in [set_column]
    (no cell at all for [None]). *)
Definition isic_row_of (id : string) (set_column : option string) : DataMerger.IsicRow :=
  DataMerger.mkIsicRow id
    (fun c => match set_column with
              | Some c' => if String.eqb c c' then 1%Q else 0%Q
              | None => 0%Q
              end).

(** The numeric columns of the ISIC 2019 ground-truth file. *)
Definition isic_2019_columns : list string :=
  ["MEL"; "NV"; "BCC"; "AK"; "BKL"; "DF"; "VASC"; "SCC"; "UNK"].

(** ** Stratified splitting *)

(** What numpy documents for the generator: [permutation(n)] is a
    permutation of [0 .. n-1]; [choice(a, k, replace=False)] draws [k]
    distinct entries of [a]. *)
Record lawful (G : Sklearn.RandomState) : Prop := mkLawful {
  permutation_law : forall st n, fst (Sklearn.permutation G st n) ≡ₚ seq 0 n;
  choice_law : forall st a k, NoDup a -> (k <= length a)%nat ->
      length (fst (Sklearn.choice G st a k)) = k
      /\ NoDup (fst (Sklearn.choice G st a k))
      /\ fst (Sklearn.choice G st a k) ⊆ a
}.

(** Sum of an array of floats. *)
Definition sumQ (l : list Q) : Q := foldr Qplus 0%Q l.

(** Number of strictly positive entries. *)
Definition count_pos (l : list Q) : nat :=
  length (List.filter (fun x => Qgtb x 0) l).

(** How many entries the loop can still raise at [value]: the positions
    holding it, if it is positive. *)
Definition weight_of (remainder : list Q) (value : Q) : nat :=
  if Qgtb value 0 then length (Sklearn.np_where value remainder) else 0%nat.

(** The exact share of [n_draws] due to a class of [c] members out of
    [total]: an entry of [continuous] in [_approximate_mode]. *)
Definition share (total n_draws c : Z) : Q :=
  (inject_Z c / inject_Z total * inject_Z n_draws)%Q.

(** A class block [(positions, (n, t))] whose train and test draws use up
    the class exactly. *)
Definition block_ok (b : list nat * (Z * Z)) : Prop :=
  0 <= fst (snd b) /\ 0 <= snd (snd b)
  /\ fst (snd b) + snd (snd b) = Z.of_nat (length (fst b)).

(** A deterministic generator satisfying numpy's contract, for running
    [split_data] on concrete registries: [permutation] reverses,
    [choice] takes the last entries. *)
Definition reversing_rng : Sklearn.RandomState :=
  {| Sklearn.rs := unit;
     Sklearn.seed := fun _ => tt;
     Sklearn.permutation := fun st n => (reverse (seq 0 n), st);
     Sklearn.choice := fun st a k => (take k (reverse a), st) |}.

(** [n] samples of class [c] with ids [cA], [cB], ... *)
Definition samples_of (n : nat) (c : string) : list DataMerger.Sample :=
  map (fun i => DataMerger.mkSample (c ++ String (ascii_of_nat (65 + i)) "") c "ham10000")
      (seq 0 n).

(** The id column of a frame. *)
Definition ids (df : list DataMerger.Sample) : list string := map DataMerger.image_id df.

(** ** Class weights *)

(** The two weighting methods [compute_class_weights] supports. *)
Definition valid_method (method : string) : Prop :=
  method = "inverse_frequency" \/ method = "effective_number".

(** A position of a weight vector of [num_classes] entries. *)
Definition in_range (num_classes : nat) (idx : Z) : Prop :=
  0 <= idx < Z.of_nat num_classes.

(** The indices of a class-to-index mapping over [n] classes: distinct
    positions of the weight vector. *)
Definition index_mapping (class_to_idx : list (string * Z)) : Prop :=
  NoDup (map snd class_to_idx)
  /\ Forall (in_range (length class_to_idx)) (map snd class_to_idx).

(** A HAM10000 row. *)
Definition sample_of (id dx : string) : DataMerger.Sample :=
  DataMerger.mkSample id dx "ham10000".

(** ** Metrics *)

(** scikit-learn on small batches, for running [compute] on concrete
    inputs.  The scores are exact rationals in lowest terms; labels are
    class indices. *)

(** [unique_labels(y_true, y_pred)]: the distinct labels, sorted. *)
Definition unique_labels (y_true y_pred : list Z) : list Z :=
  merge_sort Z.le (remove_dups (y_true ++ y_pred)).


(** Entries of [y] equal to label [l]. *)
Definition support_of (l : Z) (y : list Z) : nat := length (List.filter (Z.eqb l) y).

(** Positions where label and prediction are both [l]. *)
Definition true_positives (l : Z) (y_true y_pred : list Z) : nat :=
  length (List.filter (fun p => Z.eqb (fst p) l && Z.eqb (snd p) l) (combine y_true y_pred)).

(** [a / b], and 0.0 for a zero denominator ([zero_division=0]) *)
Definition ratio (a b : nat) : Q :=
  if Nat.eqb b 0 then 0%Q else Qred (inject_Z (Z.of_nat a) / inject_Z (Z.of_nat b))%Q.

Definition sk_recall (y_true y_pred : list Z) (l : Z) : Q :=
  ratio (true_positives l y_true y_pred) (support_of l y_true).

Definition sk_precision (y_true y_pred : list Z) (l : Z) : Q :=
  ratio (true_positives l y_true y_pred) (support_of l y_pred).

Definition sk_f1 (y_true y_pred : list Z) (l : Z) : Q :=
  let p := sk_precision y_true y_pred l in
  let r := sk_recall y_true y_pred l in
  if Qeq_bool (p + r)%Q 0 then 0%Q else Qred (2 * p * r / (p + r))%Q.

Definition mean (xs : list Q) : Q := Qred (sumQ xs / inject_Z (Z.of_nat (length xs)))%Q.

(** [np.average(xs, weights=ws)] *)
Definition weighted_mean (xs : list Q) (ws : list nat) : Q :=
  Qred (sumQ (zip_with (fun (x : Q) w => (x * inject_Z (Z.of_nat w))%Q) xs ws)
        / inject_Z (Z.of_nat (sum_list ws)))%Q.

(** [balanced_accuracy_score]: the mean recall of the classes that occur
    among the labels. *)
Definition sk_balanced_accuracy_score (y_true y_pred : list Z) : Result Q :=
  match y_true with
  | [] => Raise (ValueError "Found empty input array")
  | _ => Ok (mean (map (sk_recall y_true y_pred) (remove_dups y_true)))
  end.

Definition report_entry (precision recall f1 : Q) (support : nat) : gmap string Q :=
  <["precision" := precision]>
    (<["recall" := recall]>
       (<["f1-score" := f1]> (<["support" := inject_Z (Z.of_nat support)]> ∅))).

(** [classification_report(y_true, y_pred, target_names=target_names,
    output_dict=True, zero_division=0)]: an entry per class name and the
    two averages [compute] reads.  The [accuracy] entry, a plain number,
    is left out. *)
Definition sk_classification_report (y_true y_pred : list Z) (target_names : list string)
    : Result (gmap string (gmap string Q)) :=
  let labels := unique_labels y_true y_pred in
  if negb (Nat.eqb (length labels) (length target_names)) then
    Raise (ValueError "Number of classes does not match size of target_names")
  else
    let p := map (sk_precision y_true y_pred) labels in
    let r := map (sk_recall y_true y_pred) labels in
    let f := map (sk_f1 y_true y_pred) labels in
    let s := map (fun l => support_of l y_true) labels in
    let classes :=
      foldr (fun '(name, l) report =>
               <[name := report_entry (sk_precision y_true y_pred l) (sk_recall y_true y_pred l)
                           (sk_f1 y_true y_pred l) (support_of l y_true)]> report)
            ∅ (zip target_names labels) in
    Ok (<["macro avg" := report_entry (mean p) (mean r) (mean f) (length y_true)]>
          (<["weighted avg" :=
               report_entry (weighted_mean p s) (weighted_mean r s) (weighted_mean f s)
                 (length y_true)]> classes)).

(** The area under the ROC curve of scores against 0/1 labels: the share
    of (positive, negative) pairs that the scores order correctly, ties
    counting for a half. *)
Definition binary_auc (y_true : list Z) (y_score : list Q) : Q :=
  let pairs := combine y_true y_score in
  let pos := map snd (List.filter (fun p => Z.eqb (fst p) 1) pairs) in
  let neg := map snd (List.filter (fun p => negb (Z.eqb (fst p) 1)) pairs) in
  let wins :=
    sumQ (flat_map (fun s => map (fun s' => if Qgtb s s' then 1%Q
                                            else if Qeq_bool s s' then (1 # 2)%Q
                                            else 0%Q) neg) pos) in
  Qred (wins / inject_Z (Z.of_nat (length pos * length neg)))%Q.

(** [roc_auc_score(y_true, y_score)] on 0/1 labels.  With a single class
    among the labels the score is undefined: scikit-learn raises ValueError
    or, in recent versions, returns NaN with a warning, a value [Q] does
    not have; the examples below do not go through that case. *)
Definition sk_roc_auc_score (y_true : list Z) (y_score : list Q) : Result Q :=
  if (existsb (Z.eqb 1) y_true && existsb (fun l => negb (Z.eqb l 1)) y_true)%bool then
    Ok (binary_auc y_true y_score)
  else Raise (ValueError "Only one class present in y_true. ROC AUC score is not defined in that case.").

(** [roc_auc_score(y_true, y_score, multi_class='ovr', average='macro')]
    for three or more probability columns: the rows must sum to 1 and the
    labels must show as many classes as there are columns; the score is
    the mean over the classes of the one-against-rest area. *)
Definition sk_roc_auc_score_ovr_macro (y_true : list Z) (y_score : list (list Q)) : Result Q :=
  let classes := merge_sort Z.le (remove_dups y_true) in
  let n_columns := match y_score with row :: _ => length row | [] => 0%nat end in
  if negb (forallb (fun row => Qeq_bool (sumQ row) 1%Q) y_score) then
    Raise (ValueError "Target scores need to be probabilities for multiclass roc_auc")
  else if negb (Nat.eqb (length classes) n_columns) then
    Raise (ValueError "Number of classes in y_true not equal to the number of columns in 'y_score'")
  else
    Ok (mean (map (fun '(j, c) =>
                     binary_auc (map (fun l => if Z.eqb l c then 1 else 0) y_true)
                       (map (fun row => nth j row 0%Q) y_score))
                  (zip (seq 0 (length classes)) classes))).

(** A batch of nine images in which every class occurs, one of the two
    melanomas being taken for a nevus; the probabilities are those of a
    model that is sure of its prediction. *)
Definition batch_labels : list Z := [0; 1; 2; 3; 4; 4; 5; 6; 7].
Definition batch_preds : list Z := [0; 1; 2; 3; 4; 5; 5; 6; 7].
Definition one_hot_probs (n_classes : nat) (preds : list Z) : list (list Q) :=
  map (fun p => map (fun j => if Z.eqb (Z.of_nat j) p then 1%Q else 0%Q) (seq 0 n_classes)) preds.

(** ** Training loop *)

(** Epoch [e] sets a record: its balanced accuracy is above 0.0 and above
    that of every earlier epoch. *)
Definition sets_record (validate : nat -> Trainer.Metrics) (e : nat) : Prop :=
  (0 < Trainer.balanced_accuracy (validate e))%Q
  /\ forall e', (e' < e)%nat ->
       (Trainer.balanced_accuracy (validate e') < Trainer.balanced_accuracy (validate e))%Q.

(** Validation outcome per epoch with the given balanced accuracies. *)
Definition metrics_of (accs : list Q) (e : nat) : Trainer.Metrics :=
  Trainer.mkMetrics (nth e accs 0%Q) 0 0.

(** An EarlyStopping object as the trainer builds it: default [min_delta],
    mode [max]. *)
Definition default_es (es : Trainer.EarlyStopping) : Prop :=
  Trainer.min_delta es = (1 # 1000)%Q /\ Trainer.mode es = "max".

(** ** Vocabulary of the further properties *)

(** The [dx] name of each ISIC indicator column. *)
Definition canonical_label (col : string) : string :=
  if String.eqb col "MEL" then "mel"
  else if String.eqb col "NV" then "nv"
  else if String.eqb col "BCC" then "bcc"
  else if String.eqb col "AK" then "akiec"
  else if String.eqb col "BKL" then "bkl"
  else if String.eqb col "DF" then "df"
  else if String.eqb col "VASC" then "vasc"
  else if String.eqb col "SCC" then "scc"
  else col.

(** The eight diagnosis classes of the merged registry. *)
Definition diagnosis_classes : list string :=
  ["mel"; "nv"; "bcc"; "akiec"; "bkl"; "df"; "vasc"; "scc"].

(** A row whose indicator [c] is 1 and whose other indicators are 0. *)
Definition one_hot (row : DataMerger.IsicRow) (c : string) : Prop :=
  (DataMerger.cells row c == 1)%Q
  /\ forall c', c' ∈ DataMerger.label_columns -> c' <> c ->
       (DataMerger.cells row c' == 0)%Q.

(** The HAM rows as [merge_datasets] tags them. *)
Definition ham_frame (ham : list DataMerger.HamRow) : list DataMerger.Sample :=
  map (fun r => DataMerger.mkSample (DataMerger.ham_image_id r)
                  (DataMerger.ham_dx r) "ham10000") ham.

(** The ISIC rows as [merge_datasets] labels and tags them. *)
Definition isic_frame (isic : DataMerger.IsicFrame) : list DataMerger.Sample :=
  map (fun row => DataMerger.mkSample (DataMerger.isic_image_id row)
                    (harmonized_dx row) "isic2019") (DataMerger.isic_rows isic).

(** The registry [merge_datasets] builds from the two sources. *)
Definition merged (ham : list DataMerger.HamRow) (isic : DataMerger.IsicFrame)
    : list DataMerger.Sample :=
  (ham_frame ham ++ DataMerger.remove_duplicates (ham_frame ham) (isic_frame isic))%list.

(** Number of rows of class [c]. *)
Definition class_count (c : string) (df : list DataMerger.Sample) : nat :=
  length (filter (fun s => DataMerger.dx s = c) df).

(** The loss weight [compute_class_weights] gives a class with [count]
    samples out of [total], for [num_classes] classes. *)
Definition class_weight (method : string) (total num_classes count : nat) : Q :=
  if Nat.eqb count 0 then 1%Q
  else if String.eqb method "inverse_frequency" then
    (inject_Z (Z.of_nat total) / inject_Z (Z.of_nat num_classes * Z.of_nat count))%Q
  else ((1 - Dataloader.beta) / (1 - Dataloader.beta ^ Z.of_nat count))%Q.

(** Total sampling weight of the rows of class [c]. *)
Definition class_sampling_weight (c : string) (df : list DataMerger.Sample)
    (weights : list Q) : Q :=
  sumQ (map snd (filter (fun p => DataMerger.dx (fst p) = c) (zip df weights))).

(** What the file [path] of the checkpoint directory holds after the
    writes of [self]: the payload of the last write to it. *)
Definition on_disk (self : Trainer.Trainer) (path : string) : option Trainer.Checkpoint :=
  last (map snd (filter (fun w => fst w = path) (Trainer.saved self))).

(** [part] holds class [c] in proportion to [whole], up to rounding: the
    number of its [c] rows is less than one row away from the exact share
    [count_c(whole) / |whole| * |part|]. *)
Definition stratified (c : string) (whole part : list DataMerger.Sample) : Prop :=
  let exact := share (Z.of_nat (length whole)) (Z.of_nat (length part))
                 (Z.of_nat (class_count c whole)) in
  (exact - 1 < inject_Z (Z.of_nat (class_count c part)) < exact + 1)%Q.

(** Positions of [l] whose label in [y] is [c]. *)
Definition label_count (y : list string) (c : string) (l : list nat) : nat :=
  length (filter (fun j => y !! j = Some c) l).

(** The entry of [ns] at the position of class [c] in [classes]. *)
Fixpoint picked (c : string) (classes : list string) (ns : list Z) : Z :=
  match classes, ns with
  | c' :: classes', n :: ns' => (if String.eqb c' c then n else 0) + picked c classes' ns'
  | _, _ => 0
  end.

(** * Properties *)

Lemma Qgtb_true (x y : Q) : Qgtb x y = true <-> (y < x)%Q.
Proof.
  unfold Qgtb. rewrite negb_true_iff.
  split.
  - intros H. apply Qnot_le_lt. intros Hle.
    apply Qle_bool_iff in Hle. congruence.
  - intros H. destruct (Qle_bool x y) eqn:E; [|reflexivity].
    apply Qle_bool_iff in E. exfalso. apply (Qlt_not_le _ _ H E).
Qed.

Lemma Qgtb_false (x y : Q) : Qgtb x y = false <-> (x <= y)%Q.
Proof.
  unfold Qgtb. rewrite negb_false_iff. apply Qle_bool_iff.
Qed.

(** *** Result monad *)

Lemma mapM_Ok {A B : Type} (f : A -> Result B) (g : A -> B) (l : list A) :
  (forall x, x ∈ l -> f x = Ok (g x)) -> mapM f l = Ok (map g l).
Proof.
  induction l as [|x l IH]; intros Hf; [reflexivity|].
  cbn. rewrite (Hf x) by (left). cbn.
  rewrite IH by (intros y Hy; apply Hf; right; exact Hy). reflexivity.
Qed.

Lemma truediv_Ok (a b : Q) : ~ (b == 0)%Q -> truediv a b = Ok (a / b)%Q.
Proof.
  intros Hb. unfold truediv. destruct (Qeq_bool b 0) eqn:E; [|reflexivity].
  apply Qeq_bool_eq in E. contradiction.
Qed.

(** *** Label harmonization and merging *)

Lemma filter_nil_all {A : Type} (f : A -> bool) (l : list A) :
  (forall x, In x l -> f x = false) -> List.filter f l = [].
Proof.
  induction l as [|x l IH]; intros H; [reflexivity|].
  simpl. rewrite (H x) by (left; reflexivity). apply IH. intros y Hy. apply H. right. exact Hy.
Qed.

Lemma existsb_eqb_elem (c : string) (l : list string) :
  c ∈ l -> existsb (String.eqb c) l = true.
Proof.
  intros H. apply existsb_exists. exists c. split; [apply list_elem_of_In, H|].
  apply String.eqb_refl.
Qed.

Lemma harmonize_isic_labels_Ok (df : DataMerger.IsicFrame) :
  DataMerger.label_columns ⊆ DataMerger.isic_columns df ->
  DataMerger.harmonize_isic_labels df
  = Ok (map (fun row => (row, harmonized_dx row)) (DataMerger.isic_rows df)).
Proof.
  intros Hcols. unfold DataMerger.harmonize_isic_labels.
  rewrite filter_nil_all.
  - apply mapM_Ok. intros row _. reflexivity.
  - intros c Hc. apply negb_false_iff, existsb_eqb_elem, Hcols, list_elem_of_In, Hc.
Qed.

Lemma idxmax_from_no_greater (row : DataMerger.IsicRow) (best : string) (v : Q)
    (cols : list string) :
  (forall c, c ∈ cols -> (DataMerger.cells row c <= v)%Q) ->
  DataMerger.idxmax_from row best v cols = best.
Proof.
  induction cols as [|c cols IH]; intros H; [reflexivity|].
  simpl. rewrite (proj2 (Qgtb_false _ _)) by (apply H; left).
  apply IH. intros c' Hc'. apply H. right. exact Hc'.
Qed.

(** C4 (what the code does): a row of the indicator-encoded registry in
    which no indicator column is set is not rejected by
    [harmonize_isic_labels]; [idxmax] falls on the first label column and
    the row comes out labelled [mel]. *)
Theorem C4_row_without_indicator_is_labelled_mel :
  forall (df : DataMerger.IsicFrame) (row : DataMerger.IsicRow),
    DataMerger.label_columns ⊆ DataMerger.isic_columns df ->
    row ∈ DataMerger.isic_rows df ->
    (forall c, c ∈ DataMerger.label_columns -> (DataMerger.cells row c == 0)%Q) ->
    exists out,
      DataMerger.harmonize_isic_labels df = Ok out
      /\ length out = length (DataMerger.isic_rows df)
      /\ (row, "mel") ∈ out.
Proof.
  intros df row Hcols Hrow Hzero.
  eexists. split; [apply harmonize_isic_labels_Ok, Hcols|].
  split; [apply length_map|].
  apply list_elem_of_fmap. exists row. split; [|exact Hrow].
  f_equal. unfold harmonized_dx.
  rewrite idxmax_from_no_greater; [reflexivity|].
  intros c Hc.
  rewrite (Hzero c) by (right; exact Hc).
  rewrite (Hzero "MEL") by (left). apply Qle_refl.
Qed.

Lemma C4_witness :
  let unknown := isic_row_of "ISIC_0000002" (Some "UNK") in
  let df := DataMerger.mkIsicFrame isic_2019_columns
              [isic_row_of "ISIC_0000001" (Some "NV"); unknown] in
  exists out,
    DataMerger.harmonize_isic_labels df = Ok out
    /\ length out = 2%nat
    /\ (unknown, "mel") ∈ out.
Proof.
  intros unknown df.
  apply (C4_row_without_indicator_is_labelled_mel df unknown).
  - intros c Hc. unfold df, isic_2019_columns, DataMerger.label_columns in *.
    cbn [DataMerger.isic_columns].
    rewrite !elem_of_cons in Hc. rewrite !elem_of_cons.
    intuition.
  - right. left.
  - intros c Hc. unfold DataMerger.label_columns in Hc.
    rewrite !elem_of_cons in Hc.
    destruct Hc as [->|[->|[->|[->|[->|[->|[->|[->|Hc]]]]]]]]; try reflexivity.
    inversion Hc.
Defined.

(** [value_counts] *)

Lemma value_counts_pos (l : list string) (k : string) (n : nat) :
  Pandas.value_counts l !! k = Some n -> (0 < n)%nat.
Proof.
  revert n. induction l as [|x l IH]; intros n; simpl.
  - rewrite lookup_empty. discriminate.
  - destruct (decide (x = k)) as [->|Hne].
    + rewrite lookup_insert_eq. intros [= <-]. lia.
    + rewrite lookup_insert_ne by exact Hne. apply IH.
Qed.

Lemma value_counts_cons_nonempty (x : string) (l : list string) :
  map_to_list (Pandas.value_counts (x :: l)) <> [].
Proof.
  simpl. intros H. apply map_to_list_empty_iff in H.
  apply (insert_non_empty _ _ _ H).
Qed.

Lemma value_counts_values_pos (l : list string) :
  Forall (fun n => (0 < n)%nat) (map snd (map_to_list (Pandas.value_counts l))).
Proof.
  apply Forall_forall. intros n Hn.
  apply list_elem_of_fmap in Hn as [[k n'] [-> Hkn]].
  apply elem_of_map_to_list in Hkn. simpl. eapply value_counts_pos, Hkn.
Qed.

Lemma py_min_pos (l : list nat) :
  l <> [] -> Forall (fun n => (0 < n)%nat) l ->
  exists m, DataMerger.py_min l = Ok m /\ (0 < m)%nat.
Proof.
  destruct l as [|x rest]; [congruence|]. intros _ Hall.
  exists (foldr Nat.min x rest). split; [reflexivity|].
  inversion Hall as [|? ? Hx Hrest]; subst. clear Hall.
  induction Hrest as [|y rest Hy Hrest IH]; simpl; lia.
Qed.

Lemma py_max_Ok (l : list nat) : l <> [] -> exists m, DataMerger.py_max l = Ok m.
Proof. destruct l as [|x rest]; [congruence|]. intros _. eexists. reflexivity. Qed.

(** [merge_datasets] returns as soon as both files exist, the label columns
    are present and there is at least one HAM row. *)
Lemma merge_datasets_Ok (h : DataMerger.HamRow) (ham : list DataMerger.HamRow)
    (isic : DataMerger.IsicFrame) :
  DataMerger.label_columns ⊆ DataMerger.isic_columns isic ->
  let ham_df := map (fun r => DataMerger.mkSample (DataMerger.ham_image_id r)
                                (DataMerger.ham_dx r) "ham10000") (h :: ham) in
  let isic_df := map (fun row => DataMerger.mkSample (DataMerger.isic_image_id row)
                                   (harmonized_dx row) "isic2019")
                     (DataMerger.isic_rows isic) in
  exists stats,
    DataMerger.merge_datasets (Some (h :: ham)) (Some isic)
    = Ok ((ham_df ++ DataMerger.remove_duplicates ham_df isic_df)%list, stats).
Proof.
  intros Hcols ham_df isic_df.
  unfold DataMerger.merge_datasets.
  rewrite (harmonize_isic_labels_Ok isic Hcols).
  cbn [mbind Result_bind Py.bind].
  rewrite map_map. cbn [fst snd]. fold isic_df. fold ham_df.
  set (master := (ham_df ++ DataMerger.remove_duplicates ham_df isic_df)%list).
  cbn [DataMerger.class_distribution].
  set (counts := map snd (map_to_list (Pandas.value_counts (map DataMerger.dx master)))).
  assert (Hne : counts <> []).
  { unfold counts, master, ham_df. cbn [map app].
    intros H. apply map_eq_nil in H. revert H. apply value_counts_cons_nonempty. }
  assert (Hpos : Forall (fun n => (0 < n)%nat) counts) by apply value_counts_values_pos.
  destruct (py_max_Ok counts Hne) as [mx Hmx].
  destruct (py_min_pos counts Hne Hpos) as [mn [Hmn Hmnpos]].
  rewrite Hmx, Hmn. cbn [mbind Result_bind Py.bind].
  rewrite truediv_Ok.
  - eexists. reflexivity.
  - unfold Qeq; simpl. lia.
Qed.

Lemma remove_duplicates_disjoint (ham_df isic_df : list DataMerger.Sample) (s : DataMerger.Sample) :
  s ∈ DataMerger.remove_duplicates ham_df isic_df ->
  DataMerger.image_id s ∉ map DataMerger.image_id ham_df.
Proof.
  unfold DataMerger.remove_duplicates. intros H.
  apply list_elem_of_filter in H as [H _].
  intros Hin. apply H. apply elem_of_list_to_set. exact Hin.
Qed.

Lemma filter_none {A : Type} (P : A -> Prop) `{!forall x, Decision (P x)} (l : list A) :
  (forall y, y ∈ l -> ~ P y) -> filter P l = [].
Proof.
  induction l as [|x l IH]; intros Hall; [reflexivity|].
  rewrite filter_cons_False by (apply Hall; left).
  apply IH. intros y Hy. apply Hall. right. exact Hy.
Qed.

Lemma filter_id_unique (l : list DataMerger.Sample) (s : DataMerger.Sample) :
  NoDup (map DataMerger.image_id l) -> s ∈ l ->
  filter (fun r => DataMerger.image_id r = DataMerger.image_id s) l = [s].
Proof.
  induction l as [|x l IH]; intros Hnd Hs; [inversion Hs|].
  cbn [map] in Hnd. apply NoDup_cons in Hnd as [Hx Hnd].
  assert (Hrest : forall y, y ∈ l -> DataMerger.image_id y <> DataMerger.image_id x).
  { intros y Hy Heq. apply Hx. rewrite <- Heq. apply list_elem_of_fmap. eauto. }
  apply elem_of_cons in Hs as [->|Hs].
  - rewrite filter_cons_True by reflexivity. f_equal.
    apply filter_none. exact Hrest.
  - rewrite filter_cons_False by (intros Heq; apply (Hrest s Hs); symmetry; exact Heq).
    apply IH; assumption.
Qed.

(** C5: a sample id that occurs in the HAM registry (whose ids are unique)
    and in the ISIC registry occurs exactly once in the registry returned by
    [merge_datasets]; that one row carries the source tag of the first
    source and the label the HAM registry gave it. *)
Theorem C5_overlapping_id_kept_once_from_first_source :
  forall (ham : list DataMerger.HamRow) (isic : DataMerger.IsicFrame) (id : string),
    DataMerger.label_columns ⊆ DataMerger.isic_columns isic ->
    NoDup (map DataMerger.ham_image_id ham) ->
    id ∈ map DataMerger.ham_image_id ham ->
    id ∈ map DataMerger.isic_image_id (DataMerger.isic_rows isic) ->
    exists master stats s h,
      DataMerger.merge_datasets (Some ham) (Some isic) = Ok (master, stats)
      /\ filter (fun r => DataMerger.image_id r = id) master = [s]
      /\ DataMerger.source s = "ham10000"
      /\ h ∈ ham
      /\ DataMerger.ham_image_id h = id
      /\ DataMerger.dx s = DataMerger.ham_dx h.
Proof.
  intros ham isic id Hcols Hnd Hham _.
  apply list_elem_of_fmap in Hham as [h [-> Hh]].
  destruct ham as [|h0 ham0]; [inversion Hh|].
  destruct (merge_datasets_Ok h0 ham0 isic Hcols) as [stats Hmerge].
  set (to_sample := fun r => DataMerger.mkSample (DataMerger.ham_image_id r)
                               (DataMerger.ham_dx r) "ham10000") in *.
  set (ham_df := map to_sample (h0 :: ham0)) in *.
  eexists _, stats, (to_sample h), h.
  split; [exact Hmerge|].
  split; [|repeat split; exact Hh].
  rewrite filter_app.
  rewrite (filter_none _ (DataMerger.remove_duplicates _ _)).
  - rewrite app_nil_r.
    apply (filter_id_unique ham_df (to_sample h)).
    + unfold ham_df. rewrite map_map. exact Hnd.
    + apply list_elem_of_fmap. exists h. split; [reflexivity | exact Hh].
  - intros y Hy Heq. apply (remove_duplicates_disjoint _ _ _ Hy).
    rewrite Heq. unfold ham_df. rewrite map_map.
    apply list_elem_of_fmap. exists h. split; [reflexivity | exact Hh].
Qed.

Lemma C5_witness :
  let ham := [DataMerger.mkHamRow "ISIC_0024306" "nv";
              DataMerger.mkHamRow "ISIC_0024307" "mel"] in
  let isic := DataMerger.mkIsicFrame isic_2019_columns
                [isic_row_of "ISIC_0024306" (Some "BKL");
                 isic_row_of "ISIC_0000001" (Some "AK")] in
  exists master stats,
    DataMerger.merge_datasets (Some ham) (Some isic) = Ok (master, stats)
    /\ filter (fun r => DataMerger.image_id r = "ISIC_0024306") master
       = [DataMerger.mkSample "ISIC_0024306" "nv" "ham10000"].
Proof.
  intros ham isic.
  destruct (C5_overlapping_id_kept_once_from_first_source ham isic "ISIC_0024306")
    as (master & stats & s & h & Hm & Hf & Hs & Hh & Hid & Hdx).
  - intros c Hc. unfold isic, isic_2019_columns, DataMerger.label_columns in *.
    cbn [DataMerger.isic_columns].
    rewrite !elem_of_cons in Hc. rewrite !elem_of_cons.
    intuition.
  - apply (bool_decide_unpack _). vm_compute. exact I.
  - cbn. left.
  - cbn. left.
  - exists master, stats. split; [exact Hm|].
    rewrite Hf. f_equal.
    unfold ham in Hh. rewrite !elem_of_cons in Hh.
    destruct s as [sid sdx ssrc]. cbn in Hs, Hdx. subst ssrc sdx.
    assert (Hsid : sid = "ISIC_0024306").
    { assert (Hin : DataMerger.mkSample sid (DataMerger.ham_dx h) "ham10000"
                    ∈ filter (fun r => DataMerger.image_id r = "ISIC_0024306") master)
        by (rewrite Hf; left).
      apply list_elem_of_filter in Hin as [Hin _]. exact Hin. }
    subst sid.
    destruct Hh as [->|[->|Hh]]; [reflexivity | discriminate Hid | inversion Hh].
Defined.

(** *** Stratified splitting: [_approximate_mode] *)

Lemma sumQ_scaled (l : list Z) (t n : Q) :
  (sumQ (map (fun c => inject_Z c / t * n) l) == inject_Z (Sklearn.sumZ l) / t * n)%Q.
Proof.
  induction l as [|c l IH]; simpl.
  - unfold Qdiv. ring.
  - rewrite IH. rewrite inject_Z_plus. unfold Qdiv. ring.
Qed.

Lemma sumQ_floor_remainder (xs : list Q) :
  (sumQ (map (fun x => x - inject_Z (Qfloor x)) xs)
   == sumQ xs - inject_Z (Sklearn.sumZ (map Qfloor xs)))%Q.
Proof.
  induction xs as [|x xs IH]; simpl.
  - ring.
  - rewrite IH, inject_Z_plus. ring.
Qed.

Lemma remainder_range (x : Q) : (0 <= x - inject_Z (Qfloor x) < 1)%Q.
Proof.
  pose proof (Qfloor_le x) as H1. pose proof (Qlt_floor x) as H2.
  rewrite inject_Z_plus in H2. change (inject_Z 1) with 1%Q in H2.
  split; lra.
Qed.

Lemma sumQ_le_count_pos (l : list Q) :
  Forall (fun x => 0 <= x < 1)%Q l -> (sumQ l <= inject_Z (Z.of_nat (count_pos l)))%Q.
Proof.
  induction 1 as [|x l [Hx0 Hx1] _ IH]; simpl.
  - apply Qle_refl.
  - unfold count_pos in *. simpl. destruct (Qgtb x 0) eqn:E.
    + simpl length. rewrite Nat2Z.inj_succ, <- Z.add_1_l, inject_Z_plus.
      change (inject_Z 1) with 1%Q. lra.
    + apply Qgtb_false in E. lra.
Qed.

(** [floored[inds] += 1] *)

Lemma add_one_at_length (inds : list nat) (f : list Z) :
  length (Sklearn.add_one_at inds f) = length f.
Proof.
  induction inds as [|i inds IH]; simpl; [reflexivity|].
  rewrite length_alter. exact IH.
Qed.

Lemma sumZ_alter_succ (i : nat) (f : list Z) :
  (i < length f)%nat -> Sklearn.sumZ (alter Z.succ i f) = Sklearn.sumZ f + 1.
Proof.
  revert i. induction f as [|x f IH]; intros i Hi; simpl in *; [lia|].
  destruct i as [|i]; simpl; [lia|].
  change (list_alter Z.succ i f) with (alter Z.succ i f).
  rewrite IH by lia. lia.
Qed.

Lemma add_one_at_sum (inds : list nat) (f : list Z) :
  Forall (fun i => (i < length f)%nat) inds ->
  Sklearn.sumZ (Sklearn.add_one_at inds f) = Sklearn.sumZ f + Z.of_nat (length inds).
Proof.
  induction 1 as [|i inds Hi _ IH]; simpl; [lia|].
  rewrite sumZ_alter_succ by (rewrite add_one_at_length; exact Hi).
  rewrite IH. lia.
Qed.

Lemma add_one_at_lookup (inds : list nat) (f : list Z) (i : nat) (x : Z) :
  NoDup inds -> f !! i = Some x ->
  Sklearn.add_one_at inds f !! i = Some (if decide (i ∈ inds) then x + 1 else x).
Proof.
  induction inds as [|j inds IH]; intros Hnd Hx; simpl.
  - rewrite Hx. destruct (decide (i ∈ [])) as [H|_]; [inversion H | reflexivity].
  - apply NoDup_cons in Hnd as [Hj Hnd]. specialize (IH Hnd Hx).
    destruct (decide (i = j)) as [->|Hne].
    + rewrite list_lookup_alter_eq, IH. simpl.
      destruct (decide (j ∈ inds)) as [H|_]; [contradiction|].
      destruct (decide (j ∈ j :: inds)) as [_|H]; [f_equal; lia | exfalso; apply H; left].
    + rewrite list_lookup_alter_ne by congruence. rewrite IH.
      destruct (decide (i ∈ inds)) as [H|H];
        destruct (decide (i ∈ j :: inds)) as [H'|H']; try reflexivity.
      * exfalso. apply H'. right. exact H.
      * exfalso. apply elem_of_cons in H' as [H'|H']; [congruence | contradiction].
Qed.

(** [np.where] *)

Lemma np_where_from_spec (value : Q) (a : list Q) : forall (k i : nat),
  i ∈ Sklearn.np_where_from k value a
  <-> exists x, (k <= i)%nat /\ a !! (i - k)%nat = Some x /\ (x == value)%Q.
Proof.
  induction a as [|y a IH]; intros k i; simpl.
  - split; [intros H; inversion H | intros (x & _ & H & _); discriminate].
  - assert (Hrest : i ∈ Sklearn.np_where_from (S k) value a
                    <-> exists x, (S k <= i)%nat /\ (y :: a) !! (i - k)%nat = Some x
                                  /\ (x == value)%Q).
    { rewrite IH. split; intros (x & Hk & Hx & Hv); exists x; (split; [lia|]); split; try exact Hv.
      - replace (i - k)%nat with (S (i - S k)) by lia. exact Hx.
      - replace (i - k)%nat with (S (i - S k)) in Hx by lia. exact Hx. }
    destruct (Qeq_bool y value) eqn:E.
    + apply Qeq_bool_iff in E. rewrite elem_of_cons, Hrest. split.
      * intros [->|(x & Hk & Hx & Hv)].
        -- exists y. rewrite Nat.sub_diag. split; [lia|]. split; [reflexivity | exact E].
        -- exists x. split; [lia|]. split; assumption.
      * intros (x & Hk & Hx & Hv).
        destruct (decide (i = k)) as [->|Hne]; [left; reflexivity|].
        right. exists x. split; [lia|]. split; assumption.
    + rewrite Hrest. split.
      * intros (x & Hk & Hx & Hv). exists x. split; [lia|]. split; assumption.
      * intros (x & Hk & Hx & Hv).
        destruct (decide (i = k)) as [->|Hne].
        -- rewrite Nat.sub_diag in Hx. injection Hx as <-.
           apply Qeq_bool_iff in Hv. congruence.
        -- exists x. split; [lia|]. split; assumption.
Qed.

Lemma np_where_spec (value : Q) (a : list Q) (i : nat) :
  i ∈ Sklearn.np_where value a <-> exists x, a !! i = Some x /\ (x == value)%Q.
Proof.
  unfold Sklearn.np_where. rewrite np_where_from_spec. rewrite Nat.sub_0_r.
  split; [intros (x & _ & H); exists x; exact H | intros (x & H); exists x; split; [lia | exact H]].
Qed.

Lemma np_where_from_NoDup (value : Q) (a : list Q) : forall k,
  NoDup (Sklearn.np_where_from k value a).
Proof.
  induction a as [|y a IH]; intros k; simpl; [constructor|].
  destruct (Qeq_bool y value); [|apply IH].
  apply NoDup_cons. split; [|apply IH].
  rewrite np_where_from_spec. intros (x & Hk & _). lia.
Qed.

Lemma np_where_from_length (value : Q) (a : list Q) : forall k,
  length (Sklearn.np_where_from k value a)
  = length (List.filter (fun x => Qeq_bool x value) a).
Proof.
  induction a as [|y a IH]; intros k; simpl; [reflexivity|].
  destruct (Qeq_bool y value); simpl; rewrite IH; reflexivity.
Qed.

Lemma np_where_bound (value : Q) (a : list Q) :
  Forall (fun i => (i < length a)%nat) (Sklearn.np_where value a).
Proof.
  apply Forall_forall. intros i Hi. apply np_where_spec in Hi as (x & Hx & _).
  eapply lookup_lt_Some, Hx.
Qed.

Lemma weight_of_nonpos (remainder : list Q) (values : list Q) :
  Forall (fun w => w <= 0)%Q values -> sum_list_with (weight_of remainder) values = 0%nat.
Proof.
  induction 1 as [|w values Hw _ IH]; simpl; [reflexivity|].
  rewrite IH. unfold weight_of. rewrite (proj2 (Qgtb_false w 0) Hw). reflexivity.
Qed.

Section AddLoop.

Variable G : Sklearn.RandomState.
Hypothesis G_lawful : lawful G.
Variable remainder : list Q.

Lemma add_loop_spec (values : list Q) :
  forall (floored : list Z) (need : Z) (rng : Sklearn.rs G),
    length floored = length remainder ->
    StronglySorted (fun a b => b < a)%Q values ->
    0 < need <= Z.of_nat (sum_list_with (weight_of remainder) values) ->
    let res := fst (Sklearn.add_loop G remainder values floored need rng) in
    length res = length remainder
    /\ Sklearn.sumZ res = Sklearn.sumZ floored + need
    /\ forall i f r x,
         floored !! i = Some f -> res !! i = Some r -> remainder !! i = Some x ->
         r = f \/ (r = f + 1 /\ (0 < x)%Q /\ exists w, w ∈ values /\ (x == w)%Q).
Proof.
  induction values as [|v rest IH]; intros floored need rng Hlen Hsorted Hneed res.
  - simpl in Hneed. lia.
  - apply StronglySorted_inv in Hsorted as [Hsorted Hbelow].
    assert (Hv : (0 < v)%Q).
    { destruct (Qlt_le_dec 0 v) as [H|H]; [exact H|]. exfalso.
      rewrite weight_of_nonpos in Hneed; [lia|].
      constructor; [exact H|].
      eapply Forall_impl; [exact Hbelow|]. simpl. intros w Hw. lra. }
    subst res. cbn [Sklearn.add_loop].
    set (inds := Sklearn.np_where v remainder).
    set (add_now := Z.min (Z.of_nat (length inds)) need).
    assert (Hk : (Z.to_nat add_now <= length inds)%nat) by lia.
    pose proof (choice_law G G_lawful rng inds (Z.to_nat add_now)
                  (np_where_from_NoDup v remainder 0) Hk) as (Hclen & Hcnd & Hcsub).
    destruct (Sklearn.choice G rng inds (Z.to_nat add_now)) as [chosen rng'].
    cbn [fst] in Hclen, Hcnd, Hcsub.
    assert (Hcb : Forall (fun i => (i < length floored)%nat) chosen).
    { apply Forall_forall. intros i Hi. rewrite Hlen.
      pose proof (np_where_bound v remainder) as Hb.
      rewrite Forall_forall in Hb. apply Hb, Hcsub, Hi. }
    assert (Hsum1 : Sklearn.sumZ (Sklearn.add_one_at chosen floored)
                    = Sklearn.sumZ floored + add_now).
    { rewrite add_one_at_sum by exact Hcb. rewrite Hclen. lia. }
    assert (Hpoint : forall i f x, floored !! i = Some f -> remainder !! i = Some x ->
              exists f', Sklearn.add_one_at chosen floored !! i = Some f'
                /\ (f' = f \/ (f' = f + 1 /\ (x == v)%Q))).
    { intros i f x Hf Hx. rewrite (add_one_at_lookup chosen floored i f Hcnd Hf).
      eexists. split; [reflexivity|].
      destruct (decide (i ∈ chosen)) as [Hi|_]; [right | left; reflexivity].
      split; [reflexivity|].
      apply Hcsub, np_where_spec in Hi as (x' & Hx' & Hxv). congruence. }
    assert (Hw : weight_of remainder v = length inds).
    { unfold weight_of. rewrite (proj2 (Qgtb_true v 0) Hv). reflexivity. }
    cbn [sum_list_with] in Hneed. rewrite Hw in Hneed.
    destruct (Z.eqb_spec (need - add_now) 0) as [Hzero|Hmore]; cbn [fst].
    + split; [rewrite add_one_at_length; exact Hlen|].
      split; [rewrite Hsum1; lia|].
      intros i f r x Hf Hr Hx.
      destruct (Hpoint i f x Hf Hx) as (f' & Hf' & Hcase).
      rewrite Hf' in Hr. injection Hr as <-.
      destruct Hcase as [->|[-> Hxv]]; [left; reflexivity | right].
      split; [reflexivity|]. split; [rewrite Hxv; exact Hv|].
      exists v. split; [left | exact Hxv].
    + assert (Hneed' : 0 < need - add_now
                       <= Z.of_nat (sum_list_with (weight_of remainder) rest)) by lia.
      destruct (IH (Sklearn.add_one_at chosen floored) (need - add_now) rng'
                  ltac:(rewrite add_one_at_length; exact Hlen) Hsorted Hneed')
        as (Hlen' & Hsum' & Hpoint').
      split; [exact Hlen'|].
      split; [rewrite Hsum', Hsum1; lia|].
      intros i f r x Hf Hr Hx.
      destruct (Hpoint i f x Hf Hx) as (f' & Hf' & Hcase).
      destruct (Hpoint' i f' r x Hf' Hr Hx) as [->|(-> & Hx0 & w & Hwin & Hxw)].
      * destruct Hcase as [->|[-> Hxv]]; [left; reflexivity | right].
        split; [reflexivity|]. split; [rewrite Hxv; exact Hv|].
        exists v. split; [left | exact Hxv].
      * destruct Hcase as [->|[-> Hxv]].
        -- right. split; [reflexivity|]. split; [exact Hx0|].
           exists w. split; [right; exact Hwin | exact Hxw].
        -- exfalso. rewrite Forall_forall in Hbelow.
           pose proof (Hbelow w Hwin) as Hlt. simpl in Hlt.
           rewrite <- Hxw, Hxv in Hlt. exact (Qlt_irrefl _ Hlt).
Qed.

End AddLoop.

(** [np.unique] on floats *)

#[local] Instance Qle_dec_rel_total : Total Sklearn.Qle_dec_rel.
Proof.
  intros x y. unfold Sklearn.Qle_dec_rel.
  destruct (Qlt_le_dec x y) as [H|H]; [left; apply Qlt_le_weak, H | right; exact H].
Qed.

#[local] Instance Qle_dec_rel_trans : Transitive Sklearn.Qle_dec_rel.
Proof. intros x y z. apply Qle_trans. Qed.

Lemma np_unique_elem (a : list Q) (v : Q) :
  v ∈ Sklearn.np_unique a <-> exists x, x ∈ a /\ v = Qred x.
Proof.
  unfold Sklearn.np_unique. rewrite merge_sort_Permutation, elem_of_remove_dups.
  rewrite list_elem_of_fmap. split; intros (x & H1 & H2); exists x; split; assumption.
Qed.

Lemma np_unique_increasing (a : list Q) : StronglySorted Qlt (Sklearn.np_unique a).
Proof.
  assert (Hs : StronglySorted Sklearn.Qle_dec_rel (Sklearn.np_unique a))
    by (apply StronglySorted_merge_sort; apply _).
  assert (Hnd : NoDup (Sklearn.np_unique a)).
  { unfold Sklearn.np_unique. rewrite merge_sort_Permutation. apply NoDup_remove_dups. }
  assert (Hred : Forall (fun v => Qred v = v) (Sklearn.np_unique a)).
  { apply Forall_forall. intros v Hv. apply np_unique_elem in Hv as (x & _ & ->).
    apply Qred_complete, Qred_correct. }
  induction Hs as [|x l Hs IH Hx]; [constructor|].
  apply NoDup_cons in Hnd as [Hxl Hnd]. apply Forall_cons in Hred as [Hxr Hred].
  constructor; [apply IH; assumption|].
  rewrite Forall_forall in Hx, Hred |- *. intros y Hy.
  destruct (Qle_lt_or_eq x y (Hx y Hy)) as [Hlt|Heq]; [exact Hlt|].
  exfalso. apply Hxl. apply Qred_complete in Heq.
  rewrite Hxr, (Hred y Hy) in Heq. subst y. exact Hy.
Qed.

Lemma np_unique_decreasing (a : list Q) :
  StronglySorted (fun x y => y < x)%Q (reverse (Sklearn.np_unique a)).
Proof.
  apply Sorted_StronglySorted.
  - intros x y z Hxy Hyz. eapply Qlt_trans; eassumption.
  - apply (Sorted_reverse Qlt), StronglySorted_Sorted, np_unique_increasing.
Qed.

Lemma sum_list_with_ge {A : Type} (f : A -> nat) (l : list A) (x : A) :
  x ∈ l -> (f x <= sum_list_with f l)%nat.
Proof.
  induction l as [|y l IH]; intros Hx; [inversion Hx|].
  simpl. apply elem_of_cons in Hx as [->|Hx]; [lia|]. specialize (IH Hx). lia.
Qed.

Lemma sum_list_with_plus {A : Type} (f g : A -> nat) (l : list A) :
  sum_list_with (fun x => f x + g x)%nat l = (sum_list_with f l + sum_list_with g l)%nat.
Proof. induction l as [|y l IH]; simpl; [reflexivity|]. rewrite IH. lia. Qed.

Lemma sum_list_with_ext {A : Type} (f g : A -> nat) (l : list A) :
  (forall x, f x = g x) -> sum_list_with f l = sum_list_with g l.
Proof. intros H. induction l as [|y l IH]; simpl; [reflexivity|]. rewrite H, IH. reflexivity. Qed.

Lemma count_pos_covered (values : list Q) (a : list Q) :
  (forall x, x ∈ a -> exists v, v ∈ values /\ (x == v)%Q) ->
  (count_pos a <= sum_list_with (weight_of a) values)%nat.
Proof.
  unfold weight_of, Sklearn.np_where.
  assert (Hw : forall l v,
    (if Qgtb v 0 then length (Sklearn.np_where_from 0 v l) else 0%nat)
    = (if Qgtb v 0 then length (List.filter (fun x => Qeq_bool x v) l) else 0%nat)).
  { intros l v. rewrite np_where_from_length. reflexivity. }
  rewrite (sum_list_with_ext _ _ values (Hw a)).
  clear Hw. induction a as [|x a IH]; intros Hcov; [unfold count_pos; simpl; lia|].
  assert (IH' : (count_pos a <= sum_list_with
           (fun v => if Qgtb v 0 then length (List.filter (fun x => Qeq_bool x v) a)
                     else 0%nat) values)%nat).
  { apply IH. intros y Hy. apply Hcov. right. exact Hy. }
  clear IH.
  set (hit := fun v : Q => if (Qgtb v 0 && Qeq_bool x v)%bool then 1%nat else 0%nat).
  rewrite (sum_list_with_ext _ (fun v => hit v +
             (if Qgtb v 0 then length (List.filter (fun x => Qeq_bool x v) a) else 0))%nat
             values).
  - rewrite sum_list_with_plus.
    unfold count_pos in *. simpl. destruct (Qgtb x 0) eqn:Ex; [|lia].
    simpl length.
    destruct (Hcov x ltac:(left)) as (v & Hv & Hxv).
    pose proof (sum_list_with_ge hit values v Hv) as Hge.
    assert (Hhit : hit v = 1%nat).
    { unfold hit. apply Qgtb_true in Ex.
      rewrite (proj2 (Qgtb_true v 0)) by (rewrite <- Hxv; exact Ex).
      rewrite (proj2 (Qeq_bool_iff x v) Hxv). reflexivity. }
    lia.
  - intros v. unfold hit. simpl.
    destruct (Qgtb v 0); destruct (Qeq_bool x v); reflexivity.
Qed.

(** [_approximate_mode]: the draws add up to [n_draws], and a class gets
    the floor of its exact share or one more, the latter only when the share
    is not a whole number. *)

Section ApproximateMode.

Variable G : Sklearn.RandomState.
Hypothesis G_lawful : lawful G.

Lemma approximate_mode_spec (class_counts : list Z) (n_draws : Z) (rng : Sklearn.rs G) :
  Sklearn.sumZ class_counts <> 0 ->
  let total := Sklearn.sumZ class_counts in
  let res := fst (Sklearn.approximate_mode G class_counts n_draws rng) in
  length res = length class_counts
  /\ Sklearn.sumZ res = n_draws
  /\ forall i c r, class_counts !! i = Some c -> res !! i = Some r ->
       r = Qfloor (share total n_draws c)
       \/ (r = Qfloor (share total n_draws c) + 1
           /\ (inject_Z (Qfloor (share total n_draws c)) < share total n_draws c)%Q).
Proof.
  intros Htotal total res. subst res. unfold Sklearn.approximate_mode.
  fold total. fold (share total n_draws).
  set (continuous := map (share total n_draws) class_counts).
  set (floored := map Qfloor continuous).
  set (remainder := map (fun x => (x - inject_Z (Qfloor x))%Q) continuous).
  set (need := n_draws - Sklearn.sumZ floored).
  assert (Hcont : (sumQ continuous == inject_Z n_draws)%Q).
  { unfold continuous, share. rewrite sumQ_scaled. fold total.
    field. intros H. apply Htotal. fold total.
    apply (inject_Z_injective total 0). exact H. }
  assert (Hrem : (sumQ remainder == inject_Z need)%Q).
  { unfold remainder. rewrite sumQ_floor_remainder. fold floored.
    rewrite Hcont. unfold need, Z.sub. rewrite inject_Z_plus, inject_Z_opp. ring. }
  assert (Hrange : Forall (fun x => 0 <= x < 1)%Q remainder).
  { unfold remainder. apply Forall_forall. intros x Hx.
    apply list_elem_of_fmap in Hx as (y & -> & _). apply remainder_range. }
  assert (Hfl : forall i c, class_counts !! i = Some c ->
            floored !! i = Some (Qfloor (share total n_draws c))
            /\ remainder !! i = Some (share total n_draws c
                                       - inject_Z (Qfloor (share total n_draws c)))%Q).
  { intros i c Hc. unfold floored, remainder, continuous.
    rewrite !list_lookup_fmap, Hc. split; reflexivity. }
  assert (Hlenf : length floored = length class_counts).
  { unfold floored, continuous. rewrite !length_map. reflexivity. }
  assert (Hlenr : length floored = length remainder).
  { unfold floored, remainder. rewrite !length_map. reflexivity. }
  destruct (Z.ltb_spec 0 need) as [Hpos|Hnonpos].
  - pose proof (sumQ_le_count_pos remainder Hrange) as Hle.
    rewrite Hrem in Hle. rewrite <- Zle_Qle in Hle.
    assert (Hcov : (count_pos remainder
                    <= sum_list_with (weight_of remainder)
                         (reverse (Sklearn.np_unique remainder)))%nat).
    { apply count_pos_covered. intros x Hx. exists (Qred x). split.
      - apply elem_of_reverse, np_unique_elem. exists x. split; [exact Hx | reflexivity].
      - symmetry. apply Qred_correct. }
    destruct (add_loop_spec G G_lawful remainder (reverse (Sklearn.np_unique remainder))
                floored need rng Hlenr (np_unique_decreasing remainder) ltac:(lia))
      as (Hlen & Hsum & Hpoint).
    split; [rewrite Hlen, <- Hlenr; exact Hlenf|].
    split; [rewrite Hsum; unfold need; lia|].
    intros i c r Hc Hr. destruct (Hfl i c Hc) as [Hf Hx].
    destruct (Hpoint i _ r _ Hf Hr Hx) as [->|(-> & Hx0 & _)]; [left; reflexivity | right].
    split; [reflexivity | lra].
  - cbn [fst].
    assert (Hzero : need = 0).
    { assert (H0 : (0 <= sumQ remainder)%Q).
      { clear -Hrange. induction Hrange as [|x l [Hx _] _ IH]; simpl; [apply Qle_refl | lra]. }
      rewrite Hrem in H0. change 0%Q with (inject_Z 0) in H0.
      rewrite <- Zle_Qle in H0. lia. }
    split; [exact Hlenf|]. split; [unfold need in Hzero; lia|].
    intros i c r Hc Hr. destruct (Hfl i c Hc) as [Hf _].
    rewrite Hf in Hr. injection Hr as <-. left. reflexivity.
Qed.

(** Drawing the whole population takes every class entirely and leaves the
    generator untouched. *)
Lemma approximate_mode_all (class_counts : list Z) (rng : Sklearn.rs G) :
  Sklearn.sumZ class_counts <> 0 ->
  Sklearn.approximate_mode G class_counts (Sklearn.sumZ class_counts) rng
  = (class_counts, rng).
Proof.
  intros Htotal. unfold Sklearn.approximate_mode.
  set (total := Sklearn.sumZ class_counts) in *.
  assert (Hfloor : map Qfloor
            (map (fun c => (inject_Z c / inject_Z total * inject_Z total)%Q) class_counts)
          = class_counts).
  { rewrite map_map. rewrite <- (map_id class_counts) at 2.
    apply map_ext. intros c.
    assert (Heq : (inject_Z c / inject_Z total * inject_Z total == inject_Z c)%Q).
    { field. intros H. apply Htotal. apply (inject_Z_injective total 0). exact H. }
    rewrite Heq. apply Qfloor_Z. }
  rewrite Hfloor. fold total. rewrite Z.sub_diag. reflexivity.
Qed.

(** With non-negative counts and at most [total] draws no class is asked
    for more members than it has. *)
Lemma approximate_mode_bounds (class_counts : list Z) (n_draws : Z) (rng : Sklearn.rs G) :
  Forall (fun c => 0 <= c) class_counts ->
  0 < Sklearn.sumZ class_counts ->
  0 <= n_draws <= Sklearn.sumZ class_counts ->
  Forall2 (fun c r => 0 <= r <= c) class_counts
    (fst (Sklearn.approximate_mode G class_counts n_draws rng)).
Proof.
  intros Hnonneg Htotal Hdraws.
  destruct (approximate_mode_spec class_counts n_draws rng ltac:(lia))
    as (Hlen & _ & Hpoint).
  apply Forall2_same_length_lookup. split; [symmetry; exact Hlen|].
  intros i c r Hc Hr.
  rewrite Forall_forall in Hnonneg.
  assert (Hc0 : 0 <= c) by (apply Hnonneg; eapply list_elem_of_lookup_2; exact Hc).
  set (total := Sklearn.sumZ class_counts) in *.
  assert (Hshare : (0 <= share total n_draws c <= inject_Z c)%Q).
  { unfold share.
    assert (Ht : (0 < inject_Z total)%Q) by (change 0%Q with (inject_Z 0); rewrite <- Zlt_Qlt; lia).
    assert (Hn0 : (0 <= inject_Z n_draws)%Q) by (change 0%Q with (inject_Z 0); rewrite <- Zle_Qle; lia).
    assert (Hn1 : (inject_Z n_draws <= inject_Z total)%Q) by (rewrite <- Zle_Qle; lia).
    assert (Hcq : (0 <= inject_Z c)%Q) by (change 0%Q with (inject_Z 0); rewrite <- Zle_Qle; lia).
    assert (Heq : (inject_Z c / inject_Z total * inject_Z n_draws
                   == inject_Z c * (inject_Z n_draws / inject_Z total))%Q).
    { field. lra. }
    rewrite Heq.
    assert (Hfrac : (0 <= inject_Z n_draws / inject_Z total <= 1)%Q).
    { split.
      - apply Qle_shift_div_l; [exact Ht | lra].
      - apply Qle_shift_div_r; [exact Ht | lra]. }
    split; nra. }
  destruct Hshare as [Hs0 Hs1].
  assert (Hf0 : 0 <= Qfloor (share total n_draws c)).
  { change 0 with (Qfloor (inject_Z 0)). rewrite Qfloor_Z at 1.
    rewrite <- (Qfloor_Z 0). apply Qfloor_resp_le. exact Hs0. }
  assert (Hf1 : Qfloor (share total n_draws c) <= c).
  { rewrite <- (Qfloor_Z c) at 2. apply Qfloor_resp_le. exact Hs1. }
  destruct (Hpoint i c r Hc Hr) as [->|[-> Hlt]]; [lia|].
  split; [lia|].
  assert (Hltc : (inject_Z (Qfloor (share total n_draws c)) < inject_Z c)%Q) by lra.
  rewrite <- Zlt_Qlt in Hltc. lia.
Qed.

End ApproximateMode.

(** *** Stratified splitting: classes and their positions *)

Section SplitLists.

Local Open Scope list_scope.

Lemma classes_of_elem (y : list string) (c : string) : c ∈ Sklearn.classes_of y <-> c ∈ y.
Proof. unfold Sklearn.classes_of. rewrite merge_sort_Permutation. apply elem_of_remove_dups. Qed.

Lemma classes_of_NoDup (y : list string) : NoDup (Sklearn.classes_of y).
Proof. unfold Sklearn.classes_of. rewrite merge_sort_Permutation. apply NoDup_remove_dups. Qed.

Lemma class_indices_from_length (c : string) (y : list string) : forall k,
  length (Sklearn.class_indices_from k c y)
  = length (List.filter (fun x => String.eqb x c) y).
Proof.
  induction y as [|x y IH]; intros k; simpl; [reflexivity|].
  destruct (String.eqb x c); simpl; rewrite IH; reflexivity.
Qed.

Lemma concat_map_app {A B : Type} (h g : A -> list B) (l : list A) :
  concat (map (fun c => h c ++ g c) l) ≡ₚ concat (map h l) ++ concat (map g l).
Proof.
  induction l as [|c l IH]; simpl; [reflexivity|].
  rewrite IH. rewrite <- !app_assoc. apply Permutation_app_head.
  rewrite !app_assoc. apply Permutation_app_tail. apply Permutation_app_comm.
Qed.

Lemma concat_map_single (x : string) (k : nat) (l : list string) :
  NoDup l -> x ∈ l ->
  concat (map (fun c => if String.eqb x c then [k] else []) l) = [k].
Proof.
  induction l as [|c l IH]; intros Hnd Hx; [inversion Hx|].
  apply NoDup_cons in Hnd as [Hc Hnd]. simpl.
  destruct (String.eqb_spec x c) as [->|Hne].
  - simpl. f_equal.
    clear IH Hx. induction l as [|d l IH]; [reflexivity|]. simpl.
    apply not_elem_of_cons in Hc as [Hcd Hc].
    apply NoDup_cons in Hnd as [_ Hnd].
    destruct (String.eqb_spec c d) as [->|_]; [congruence|]. simpl. apply IH; assumption.
  - simpl. apply IH; [exact Hnd|].
    apply elem_of_cons in Hx as [->|Hx]; [congruence | exact Hx].
Qed.

(** The class blocks partition the positions. *)
Lemma class_indices_partition (classes : list string) (y : list string) :
  NoDup classes -> (forall x, x ∈ y -> x ∈ classes) ->
  forall k, concat (map (fun c => Sklearn.class_indices_from k c y) classes)
            ≡ₚ seq k (length y).
Proof.
  intros Hnd. induction y as [|x y IH]; intros Hall k.
  - simpl. clear Hnd Hall. induction classes as [|c classes IHc]; [reflexivity|].
    simpl. exact IHc.
  - assert (Hstep : forall c, Sklearn.class_indices_from k c (x :: y)
              = (if String.eqb x c then [k] else []) ++ Sklearn.class_indices_from (S k) c y).
    { intros c. simpl. destruct (String.eqb x c); reflexivity. }
    rewrite (map_ext _ _ Hstep). rewrite concat_map_app.
    rewrite concat_map_single by (try exact Hnd; apply Hall; left).
    simpl. constructor. apply IH. intros z Hz. apply Hall. right. exact Hz.
Qed.

Lemma sumZ_lengths_concat (blocks : list (list nat)) :
  Sklearn.sumZ (map (fun ix => Z.of_nat (length ix)) blocks)
  = Z.of_nat (length (concat blocks)).
Proof.
  induction blocks as [|b blocks IH]; simpl; [reflexivity|].
  rewrite IH, length_app. lia.
Qed.

(** *** Stratified splitting: drawing the members of each class *)

Lemma map_nth_seq (a : list nat) :
  map (fun j => nth j a 0%nat) (seq 0 (length a)) = a.
Proof.
  apply list_eq. intros i. rewrite list_lookup_fmap.
  destruct (decide (i < length a)%nat) as [Hi|Hi].
  - rewrite lookup_seq_lt by exact Hi. simpl.
    destruct (lookup_lt_is_Some_2 a i Hi) as [x Hx].
    rewrite Hx. f_equal. rewrite nth_lookup, Hx. reflexivity.
  - rewrite lookup_seq_ge by lia. rewrite lookup_ge_None_2 by lia. reflexivity.
Qed.

Lemma take_clip_Permutation (a p : list nat) :
  p ≡ₚ seq 0 (length a) -> Sklearn.take_clip a p ≡ₚ a.
Proof.
  intros Hp. unfold Sklearn.take_clip. rewrite Hp.
  apply Permutation_refl'. etransitivity; [|apply (map_nth_seq a)].
  apply map_ext_in. intros j Hj.
  apply in_seq in Hj. f_equal. lia.
Qed.

Lemma permuted_Permutation (G : Sklearn.RandomState) (st : Sklearn.rs G) (a : list nat) :
  lawful G -> fst (Sklearn.permuted G st a) ≡ₚ a.
Proof.
  intros HG. unfold Sklearn.permuted.
  pose proof (permutation_law G HG st (length a)) as Hp.
  destruct (Sklearn.permutation G st (length a)) as [p st']. cbn [fst] in *.
  rewrite Hp. rewrite map_nth_seq. reflexivity.
Qed.

Lemma py_slice_split {A : Type} (a : list A) (n t : Z) :
  0 <= n -> 0 <= t -> n + t = Z.of_nat (length a) ->
  Sklearn.py_slice a 0 n = take (Z.to_nat n) a
  /\ Sklearn.py_slice a n (n + t) = drop (Z.to_nat n) a.
Proof.
  intros Hn Ht Hlen. unfold Sklearn.py_slice, Sklearn.slice_bound.
  change (0 <? 0) with false. cbn match.
  destruct (Z.ltb_spec n 0); [lia|]. destruct (Z.ltb_spec (n + t) 0); [lia|].
  rewrite (Z.min_l 0) by lia. rewrite (Z.min_l n) by lia. rewrite Hlen, Z.min_id.
  rewrite Nat2Z.id. change (Z.to_nat 0) with 0%nat. rewrite Nat.sub_0_r, drop_0.
  split; [reflexivity|].
  apply take_ge. rewrite length_drop. lia.
Qed.

Lemma assign_classes_spec (G : Sklearn.RandomState) (blocks : list (list nat * (Z * Z))) :
  lawful G -> Forall block_ok blocks ->
  forall (train test : list nat) (rng : Sklearn.rs G),
  exists T S,
    fst (Sklearn.assign_classes G blocks train test rng) = ((train ++ T)%list, (test ++ S)%list)
    /\ T ++ S ≡ₚ concat (map fst blocks)
    /\ Z.of_nat (length T) = Sklearn.sumZ (map (fun b => fst (snd b)) blocks)
    /\ Z.of_nat (length S) = Sklearn.sumZ (map (fun b => snd (snd b)) blocks).
Proof.
  intros HG. induction 1 as [|[indices [n t]] blocks Hb _ IH]; intros train test rng.
  - exists [], []. rewrite !app_nil_r. repeat split; reflexivity.
  - destruct Hb as (Hn & Ht & Hlen). cbn [fst snd] in Hn, Ht, Hlen.
    cbn [Sklearn.assign_classes].
    pose proof (permutation_law G HG rng (length indices)) as Hp.
    destruct (Sklearn.permutation G rng (length indices)) as [p rng']. cbn [fst] in Hp.
    pose proof (take_clip_Permutation indices p Hp) as Hperm.
    set (pi := Sklearn.take_clip indices p) in *.
    assert (Hpilen : length pi = length indices) by (rewrite Hperm; reflexivity).
    destruct (py_slice_split pi n t Hn Ht ltac:(lia)) as [-> ->].
    destruct (IH (train ++ take (Z.to_nat n) pi)%list (test ++ drop (Z.to_nat n) pi)%list rng')
      as (T & S & Heq & HTS & HT & HS).
    exists (take (Z.to_nat n) pi ++ T)%list, (drop (Z.to_nat n) pi ++ S)%list.
    rewrite Heq, <- !app_assoc. split; [reflexivity|].
    cbn [map concat fst snd Sklearn.sumZ foldr].
    split; [|split].
    + rewrite <- HTS, <- Hperm.
      rewrite <- (take_drop (Z.to_nat n) pi) at 3.
      rewrite <- !app_assoc. apply Permutation_app_head.
      rewrite !app_assoc. apply Permutation_app_tail. apply Permutation_app_comm.
    + rewrite length_app, length_take. fold (Sklearn.sumZ (map (fun b => fst (snd b)) blocks)). lia.
    + rewrite length_app, length_drop. fold (Sklearn.sumZ (map (fun b => snd (snd b)) blocks)). lia.
Qed.

Lemma sumZ_zip_with_sub (a : list Z) : forall b : list Z,
  length a = length b ->
  Sklearn.sumZ (zip_with Z.sub a b) = Sklearn.sumZ a - Sklearn.sumZ b.
Proof.
  induction a as [|x a IH]; intros [|z b] Hlen; simpl in *; try lia.
  rewrite IH by lia. lia.
Qed.

Lemma blocks_projections (cis : list (list nat)) : forall (n r : list Z),
  length n = length cis -> length r = length cis ->
  map fst (zip cis (zip n r)) = cis
  /\ map (fun b => fst (snd b)) (zip cis (zip n r)) = n
  /\ map (fun b => snd (snd b)) (zip cis (zip n r)) = r.
Proof.
  induction cis as [|ix cis IH]; intros [|x n] [|z r] Hn Hr; simpl in *; try lia.
  - repeat split.
  - destruct (IH n r ltac:(lia) ltac:(lia)) as (H1 & H2 & H3).
    rewrite H1, H2, H3. repeat split.
Qed.

(** One stratified shuffle split: the two index arrays partition the
    positions and have exactly the requested sizes. *)
Lemma stratified_shuffle_split_spec (G : Sklearn.RandomState) (y : list string)
    (n_train n_test random_state : Z) (train test : list nat) :
  lawful G ->
  n_train + n_test = Z.of_nat (length y) -> 0 < n_train ->
  Sklearn.stratified_shuffle_split G y n_train n_test random_state = Ok (train, test) ->
  train ++ test ≡ₚ seq 0 (length y)
  /\ Z.of_nat (length train) = n_train
  /\ Z.of_nat (length test) = n_test.
Proof.
  intros HG Hsum Htrain. unfold Sklearn.stratified_shuffle_split.
  set (classes := Sklearn.classes_of y).
  set (cis := map (fun c => Sklearn.class_indices c y) classes).
  set (counts := map (fun ix => Z.of_nat (length ix)) cis).
  destruct (existsb _ counts); [discriminate|].
  destruct (Z.ltb_spec n_train (Z.of_nat (length classes))) as [|Htr]; [discriminate|].
  destruct (Z.ltb_spec n_test (Z.of_nat (length classes))) as [|Hte]; [discriminate|].
  assert (Hpart : concat cis ≡ₚ seq 0 (length y)).
  { apply (class_indices_partition classes y (classes_of_NoDup y)).
    intros x Hx. apply classes_of_elem, Hx. }
  assert (Htotal : Sklearn.sumZ counts = Z.of_nat (length y)).
  { unfold counts. rewrite sumZ_lengths_concat, Hpart, length_seq. reflexivity. }
  assert (Hnonneg : Forall (fun c => 0 <= c) counts).
  { unfold counts. apply Forall_forall. intros c Hc.
    apply list_elem_of_fmap in Hc as (ix & -> & _). lia. }
  assert (Hclasses : (0 < length classes)%nat).
  { destruct y as [|x y']; [simpl in Hsum; lia|].
    assert (Hx : x ∈ classes) by (apply classes_of_elem; left).
    destruct classes; [inversion Hx | simpl; lia]. }
  destruct (approximate_mode_spec G HG counts n_train (Sklearn.seed G random_state)
              ltac:(lia)) as (Hlen_n & Hsum_n & _).
  pose proof (approximate_mode_bounds G HG counts n_train (Sklearn.seed G random_state)
                Hnonneg ltac:(lia) ltac:(lia)) as Hbounds.
  destruct (Sklearn.approximate_mode G counts n_train (Sklearn.seed G random_state))
    as [n_i rng1]. cbn [fst] in Hlen_n, Hsum_n, Hbounds.
  set (remaining := zip_with Z.sub counts n_i).
  assert (Hsum_r : Sklearn.sumZ remaining = n_test).
  { unfold remaining. rewrite sumZ_zip_with_sub by (symmetry; exact Hlen_n). lia. }
  rewrite <- Hsum_r. rewrite (approximate_mode_all G remaining rng1) by lia.
  assert (Hlen_c : length counts = length cis) by (unfold counts; apply length_map).
  assert (Hlen_r : length remaining = length cis).
  { unfold remaining. rewrite length_zip_with_l_eq; [exact Hlen_c | symmetry; exact Hlen_n]. }
  destruct (blocks_projections cis n_i remaining ltac:(congruence) Hlen_r)
    as (Hp1 & Hp2 & Hp3).
  assert (Hblocks : Forall block_ok (zip cis (zip n_i remaining))).
  { apply Forall_lookup. intros i [ix [n t]] Hb.
    apply lookup_zip_with_Some in Hb as (ix' & nt & Hb & Hix & Hnt).
    injection Hb as <- <-.
    apply lookup_zip_with_Some in Hnt as (n' & t' & Hnt & Hn & Ht).
    injection Hnt as <- <-.
    unfold remaining in Ht.
    apply lookup_zip_with_Some in Ht as (c & n'' & -> & Hc & Hn'').
    rewrite Hn in Hn''. injection Hn'' as <-.
    assert (Hcix : c = Z.of_nat (length ix)).
    { unfold counts in Hc. rewrite list_lookup_fmap, Hix in Hc. injection Hc as <-. reflexivity. }
    pose proof (Forall2_lookup_lr _ _ _ i c n Hbounds Hc Hn) as Hcn. simpl in Hcn.
    unfold block_ok. cbn [fst snd]. lia. }
  destruct (assign_classes_spec G (zip cis (zip n_i remaining)) HG Hblocks [] [] rng1)
    as (T & S & Heq & HTS & HT & HS).
  destruct (Sklearn.assign_classes G (zip cis (zip n_i remaining)) [] [] rng1)
    as [[train0 test0] rng2]. cbn [fst] in Heq. injection Heq as -> ->.
  cbn [app].
  pose proof (permuted_Permutation G rng2 T HG) as HpT.
  destruct (Sklearn.permuted G rng2 T) as [train1 rng3]. cbn [fst] in HpT.
  pose proof (permuted_Permutation G rng3 S HG) as HpS.
  destruct (Sklearn.permuted G rng3 S) as [test1 rng4]. cbn [fst] in HpS.
  intros [= <- <-].
  rewrite Hp1 in HTS. rewrite Hp2 in HT. rewrite Hp3 in HS.
  split; [rewrite HpT, HpS, HTS; exact Hpart|].
  split; [rewrite HpT; lia | rewrite HpS; lia].
Qed.

(** [iloc] *)

Lemma iloc_Ok {A : Type} (df : list A) (positions : list nat) : forall rows,
  Sklearn.iloc df positions = Ok rows ->
  map Some rows = map (fun i => df !! i) positions.
Proof.
  induction positions as [|i positions IH]; intros rows H.
  - injection H as <-. reflexivity.
  - unfold Sklearn.iloc in H. cbn [mapM] in H.
    destruct (df !! i) as [row|] eqn:Ei; [|discriminate].
    cbn [mbind Result_bind Py.bind] in H.
    fold (Sklearn.iloc df positions) in H.
    destruct (Sklearn.iloc df positions) as [rest|e] eqn:Erest; [|discriminate].
    cbn [mbind Result_bind Py.bind mret Result_ret] in H. injection H as <-.
    simpl. rewrite Ei. f_equal. apply IH. reflexivity.
Qed.

Lemma lookup_all_positions {A : Type} (df : list A) :
  map (fun i => df !! i) (seq 0 (length df)) = map Some df.
Proof.
  apply list_eq. intros i. rewrite !list_lookup_fmap.
  destruct (decide (i < length df)%nat) as [Hi|Hi].
  - rewrite lookup_seq_lt by exact Hi. simpl.
    destruct (lookup_lt_is_Some_2 df i Hi) as [x Hx]. rewrite Hx. reflexivity.
  - rewrite lookup_seq_ge by lia. rewrite lookup_ge_None_2 by lia. reflexivity.
Qed.

Lemma iloc_partition {A : Type} (df : list A) (a b : list nat) (ra rb : list A) :
  Sklearn.iloc df a = Ok ra -> Sklearn.iloc df b = Ok rb ->
  a ++ b ≡ₚ seq 0 (length df) ->
  ra ++ rb ≡ₚ df /\ length ra = length a /\ length rb = length b.
Proof.
  intros Ha Hb Hperm. apply iloc_Ok in Ha, Hb.
  split.
  - assert (Hsome : map Some (ra ++ rb) ≡ₚ map Some df).
    { rewrite map_app, Ha, Hb, <- map_app, <- lookup_all_positions.
      apply Permutation_map, Hperm. }
    pose proof (omap_Permutation (fun o : option A => o) _ _ Hsome) as Hres.
    assert (Hid : forall l : list A, omap (fun o : option A => o) (map Some l) = l).
    { induction l as [|x l IH]; [reflexivity|]. cbn. f_equal. exact IH. }
    rewrite !Hid in Hres. exact Hres.
  - split.
    + rewrite <- (length_map Some ra), Ha. apply length_map.
    + rewrite <- (length_map Some rb), Hb. apply length_map.
Qed.

(** [train_test_split]: the two frames partition the rows, and the second
    one has [ceil(test_size * n)] of them. *)
Lemma train_test_split_spec {A : Type} (G : Sklearn.RandomState) (df : list A)
    (test_size : Q) (stratify : list string) (random_state : Z) (train test : list A) :
  lawful G -> length stratify = length df ->
  Sklearn.train_test_split G df test_size stratify random_state = Ok (train, test) ->
  train ++ test ≡ₚ df
  /\ Z.of_nat (length test) = Qceiling (test_size * inject_Z (Z.of_nat (length df)))
  /\ (0 < length train)%nat.
Proof.
  intros HG Hlen. unfold Sklearn.train_test_split, Sklearn.validate_shuffle_split.
  destruct (Qle_bool test_size 0 || Qle_bool 1 test_size)%bool eqn:Ets; [discriminate|].
  apply orb_false_iff in Ets as [Ets0 Ets1].
  set (n_test := Qceiling (test_size * inject_Z (Z.of_nat (length df)))).
  destruct (Z.eqb_spec (Z.of_nat (length df) - n_test) 0) as [|Hne]; [discriminate|].
  cbn [mbind Result_bind Py.bind].
  destruct (Sklearn.stratified_shuffle_split G stratify _ n_test random_state)
    as [[tr te]|e] eqn:Esss; [|discriminate].
  cbn [mbind Result_bind Py.bind].
  destruct (Sklearn.iloc df tr) as [train_rows|e] eqn:Etr; [|discriminate].
  cbn [mbind Result_bind Py.bind].
  destruct (Sklearn.iloc df te) as [test_rows|e] eqn:Ete; [|discriminate].
  cbn [mbind Result_bind Py.bind]. intros [= <- <-].
  assert (Hts1 : (test_size < 1)%Q).
  { apply Qnot_le_lt. intros H. apply Qle_bool_iff in H. congruence. }
  assert (Hn_test : n_test <= Z.of_nat (length df)).
  { unfold n_test. rewrite <- (Qceiling_Z (Z.of_nat (length df))) at 2.
    apply Qceiling_resp_le.
    assert (H0 : (0 <= inject_Z (Z.of_nat (length df)))%Q)
      by (change 0%Q with (inject_Z 0); rewrite <- Zle_Qle; lia).
    set (x := inject_Z (Z.of_nat (length df))) in *.
    apply Qle_trans with (1 * x)%Q.
    - apply Qmult_le_compat_r; [lra | exact H0].
    - rewrite Qmult_1_l. apply Qle_refl. }
  destruct (stratified_shuffle_split_spec G stratify (Z.of_nat (length df) - n_test) n_test
              random_state tr te HG ltac:(rewrite Hlen; lia) ltac:(lia) Esss)
    as (Hperm & Htr & Hte).
  rewrite Hlen in Hperm.
  destruct (iloc_partition df tr te train_rows test_rows Etr Ete Hperm) as (Hrows & Hl1 & Hl2).
  split; [exact Hrows|]. split; [rewrite Hl2; exact Hte | lia].
Qed.

End SplitLists.

(** *** Stratified splitting: [split_data] *)

Lemma reversing_rng_lawful : lawful reversing_rng.
Proof.
  split.
  - intros st n. cbn. apply reverse_Permutation.
  - intros st a k Hnd Hk. cbn. split; [|split].
    + rewrite length_take, length_reverse. lia.
    + apply (sublist_NoDup (take k (reverse a)) (reverse a)); [|apply sublist_take].
      rewrite reverse_Permutation. exact Hnd.
    + intros x Hx. apply elem_of_take in Hx as (i & Hx & _).
      apply list_elem_of_lookup_2 in Hx. rewrite elem_of_reverse in Hx. exact Hx.
Defined.

(** C1: whenever [split_data] returns, the three frames together are the
    registry (same rows, same multiplicities): their sizes add up to the
    size of the registry, and for a registry with unique ids the three id
    sets are pairwise disjoint. *)
Theorem C1_split_partitions_registry :
  forall (G : Sklearn.RandomState) (self : DataSplitter.StratifiedDataSplitter)
         (df train val test : list DataMerger.Sample),
    lawful G ->
    DataSplitter.split_data G self df = Ok (train, val, test) ->
    (train ++ val ++ test)%list ≡ₚ df
    /\ (length train + length val + length test = length df)%nat
    /\ (NoDup (ids df) ->
        (forall id, id ∈ ids train -> id ∉ ids val)
        /\ (forall id, id ∈ ids train -> id ∉ ids test)
        /\ (forall id, id ∈ ids val -> id ∉ ids test)).
Proof.
  intros G self df train val test HG. unfold DataSplitter.split_data.
  destruct (Sklearn.train_test_split G df _ (map DataMerger.dx df) _)
    as [[train_df temp_df]|e] eqn:E1; [|discriminate].
  cbn [mbind Result_bind Py.bind].
  destruct (Sklearn.train_test_split G temp_df _ (map DataMerger.dx temp_df) _)
    as [[val_df test_df]|e] eqn:E2; [|discriminate].
  cbn [mbind Result_bind Py.bind]. intros [= <- <- <-].
  destruct (train_test_split_spec G df _ _ _ _ _ HG (length_map _ _) E1) as (H1 & _ & _).
  destruct (train_test_split_spec G temp_df _ _ _ _ _ HG (length_map _ _) E2) as (H2 & _ & _).
  assert (Hall : (train_df ++ val_df ++ test_df)%list ≡ₚ df) by (rewrite H2; exact H1).
  split; [exact Hall|].
  split; [rewrite <- Hall, !length_app; lia|].
  intros Hnd. unfold ids in *. rewrite <- Hall, !map_app in Hnd.
  apply NoDup_app in Hnd as (_ & Hd1 & Hnd).
  apply NoDup_app in Hnd as (_ & Hd2 & _).
  split; [|split].
  - intros id Hid Hv. apply (Hd1 id Hid). apply elem_of_app. left. exact Hv.
  - intros id Hid Ht. apply (Hd1 id Hid). apply elem_of_app. right. exact Ht.
  - exact Hd2.
Qed.

Lemma C1_witness :
  let self := DataSplitter.mkSplitter (70 # 100) (15 # 100) (15 # 100) 42 in
  let df := (samples_of 13 "nv" ++ samples_of 7 "mel")%list in
  exists train val test,
    DataSplitter.split_data reversing_rng self df = Ok (train, val, test)
    /\ (length train + length val + length test = 20)%nat
    /\ forall id, id ∈ ids train -> id ∉ ids val.
Proof.
  intros self df.
  assert (Hrun : exists train val test,
            DataSplitter.split_data reversing_rng self df = Ok (train, val, test)).
  { eexists _, _, _. vm_compute. reflexivity. }
  destruct Hrun as (train & val & test & Hrun).
  destruct (C1_split_partitions_registry reversing_rng self df train val test
              reversing_rng_lawful Hrun) as (_ & Hlen & Hdisj).
  exists train, val, test. split; [exact Hrun|]. split; [exact Hlen|].
  apply Hdisj. apply (bool_decide_unpack _). vm_compute. exact I.
Defined.

(** C2 (what the code does): the second stage cuts the holdout set in two
    halves, the test half rounded up, whatever [val_ratio] and [test_ratio]
    are: the validation set is never larger than the test set. *)
Theorem C2_holdout_is_split_in_half :
  forall (G : Sklearn.RandomState) (self : DataSplitter.StratifiedDataSplitter)
         (df train val test : list DataMerger.Sample),
    lawful G ->
    DataSplitter.split_data G self df = Ok (train, val, test) ->
    Z.of_nat (length test)
    = Qceiling ((1 # 2) * inject_Z (Z.of_nat (length val + length test)))
    /\ (length val <= length test <= length val + 1)%nat.
Proof.
  intros G self df train val test HG. unfold DataSplitter.split_data.
  destruct (Sklearn.train_test_split G df _ (map DataMerger.dx df) _)
    as [[train_df temp_df]|e] eqn:E1; [|discriminate].
  cbn [mbind Result_bind Py.bind].
  destruct (Sklearn.train_test_split G temp_df _ (map DataMerger.dx temp_df) _)
    as [[val_df test_df]|e] eqn:E2; [|discriminate].
  cbn [mbind Result_bind Py.bind]. intros [= <- <- <-].
  destruct (train_test_split_spec G temp_df _ _ _ _ _ HG (length_map _ _) E2)
    as (H2 & H3 & _).
  assert (Hlen : (length val_df + length test_df)%nat = length temp_df)
    by (rewrite <- H2, length_app; reflexivity).
  rewrite Hlen. split; [exact H3|].
  set (h := Z.of_nat (length temp_df)) in *.
  assert (Hh : h = Z.of_nat (length val_df) + Z.of_nat (length test_df)) by (unfold h; lia).
  assert (Hhalf : ((1 # 2) * inject_Z h == inject_Z h / 2)%Q) by (field).
  pose proof (Qle_ceiling ((1 # 2) * inject_Z h)) as Hlo.
  pose proof (Qceiling_lt ((1 # 2) * inject_Z h)) as Hhi.
  rewrite <- H3 in Hlo, Hhi.
  unfold Z.sub in Hhi. rewrite inject_Z_plus, inject_Z_opp in Hhi.
  change (inject_Z 1) with 1%Q in Hhi.
  assert (H1 : (inject_Z h <= inject_Z (2 * Z.of_nat (length test_df)))%Q)
    by (rewrite inject_Z_mult; change (inject_Z 2) with 2%Q; lra).
  assert (H4 : (inject_Z (2 * Z.of_nat (length test_df) + - (2)) < inject_Z h)%Q)
    by (rewrite inject_Z_plus, inject_Z_opp, inject_Z_mult;
        change (inject_Z 2) with 2%Q; lra).
  rewrite <- Zle_Qle in H1. rewrite <- Zlt_Qlt in H4. lia.
Qed.

(** With ratios (0.25, 0.5, 0.25) on 16 samples the validation set should be
    twice the test set (8 and 4); the code returns 6 and 6. *)
Lemma C2_witness :
  let self := DataSplitter.mkSplitter (1 # 4) (1 # 2) (1 # 4) 42 in
  let df := (samples_of 8 "nv" ++ samples_of 8 "mel")%list in
  DataSplitter.StratifiedDataSplitter_init true (1 # 4) (1 # 2) (1 # 4) 42 = Ok self
  /\ exists train val test,
    DataSplitter.split_data reversing_rng self df = Ok (train, val, test)
    /\ length train = 4%nat /\ length val = 6%nat /\ length test = 6%nat.
Proof.
  intros self df. split; [reflexivity|].
  assert (Hrun : exists train val test,
            DataSplitter.split_data reversing_rng self df = Ok (train, val, test)
            /\ length train = 4%nat /\ (length val + length test = 12)%nat).
  { eexists _, _, _. vm_compute. repeat split; reflexivity. }
  destruct Hrun as (train & val & test & Hrun & Htrain & Hholdout).
  destruct (C2_holdout_is_split_in_half reversing_rng self df train val test
              reversing_rng_lawful Hrun) as (Hhalf & _).
  exists train, val, test. split; [exact Hrun|]. split; [exact Htrain|].
  rewrite Hholdout in Hhalf.
  assert (H6 : Z.of_nat (length test) = 6) by (rewrite Hhalf; vm_compute; reflexivity).
  split; lia.
Defined.

Lemma class_count_filter (c : string) (df : list DataMerger.Sample) :
  length (List.filter (fun x => String.eqb x c) (map DataMerger.dx df))
  = length (filter (fun s => DataMerger.dx s = c) df).
Proof.
  induction df as [|s df IH]; [reflexivity|]. simpl.
  destruct (String.eqb_spec (DataMerger.dx s) c) as [Heq|Hne].
  - rewrite filter_cons_True by exact Heq. simpl. rewrite IH. reflexivity.
  - rewrite filter_cons_False by exact Hne. exact IH.
Qed.

Lemma train_test_split_single_member (G : Sklearn.RandomState)
    (df : list DataMerger.Sample) (test_size : Q) (random_state : Z) (c : string) :
  c ∈ map DataMerger.dx df ->
  (length (filter (fun s => DataMerger.dx s = c) df) < 2)%nat ->
  exists msg,
    Sklearn.train_test_split G df test_size (map DataMerger.dx df) random_state
    = Raise (ValueError msg).
Proof.
  intros Hc Hfew. unfold Sklearn.train_test_split.
  destruct (Sklearn.validate_shuffle_split (length df) test_size) as [[n_train n_test]|e] eqn:Ev.
  - cbn [mbind Result_bind Py.bind]. unfold Sklearn.stratified_shuffle_split.
    rewrite (proj2 (existsb_exists _ _)).
    + eexists. reflexivity.
    + exists (Z.of_nat (length (Sklearn.class_indices c (map DataMerger.dx df)))). split.
      * apply (in_map (fun ix : list nat => Z.of_nat (length ix))).
        apply (in_map (fun c' => Sklearn.class_indices c' (map DataMerger.dx df))).
        apply list_elem_of_In, classes_of_elem, Hc.
      * unfold Sklearn.class_indices. rewrite class_indices_from_length, class_count_filter.
        apply Z.ltb_lt. lia.
  - unfold Sklearn.validate_shuffle_split in Ev.
    destruct (Qle_bool test_size 0 || Qle_bool 1 test_size)%bool.
    + injection Ev as <-. eexists. reflexivity.
    + destruct (_ =? 0); [|discriminate]. injection Ev as <-. eexists. reflexivity.
Qed.

(** C3 (amended): for a registry containing a class with fewer than two
    samples [split_data] fails: the stratified split raises a ValueError and
    no partition is produced. *)
Theorem C3_class_with_one_sample_makes_split_fail :
  forall (G : Sklearn.RandomState) (self : DataSplitter.StratifiedDataSplitter)
         (df : list DataMerger.Sample) (c : string),
    c ∈ map DataMerger.dx df ->
    (length (filter (fun s => DataMerger.dx s = c) df) < 2)%nat ->
    exists msg, DataSplitter.split_data G self df = Raise (ValueError msg).
Proof.
  intros G self df c Hc Hfew. unfold DataSplitter.split_data.
  destruct (train_test_split_single_member G df
              (DataSplitter.val_ratio self + DataSplitter.test_ratio self)
              (DataSplitter.random_state self) c Hc Hfew) as [msg ->].
  exists msg. reflexivity.
Qed.

Lemma C3_witness :
  let self := DataSplitter.mkSplitter (70 # 100) (15 # 100) (15 # 100) 42 in
  let df := (samples_of 1 "df" ++ samples_of 10 "nv")%list in
  exists msg, DataSplitter.split_data reversing_rng self df = Raise (ValueError msg).
Proof.
  intros self df.
  apply (C3_class_with_one_sample_makes_split_fail reversing_rng self df "df").
  - left.
  - vm_compute. lia.
Defined.

(** C3 as stated fails: one [df] sample next to ten [nv] samples; nothing is
    assigned to train, [split_data] raises. *)
Lemma C3_counterexample :
  let self := DataSplitter.mkSplitter (70 # 100) (15 # 100) (15 # 100) 42 in
  let df := (samples_of 1 "df" ++ samples_of 10 "nv")%list in
  DataSplitter.split_data reversing_rng self df
  = Raise (ValueError "The least populated class in y has only 1 member, which is too few.")
  /\ is_ok (DataSplitter.split_data reversing_rng self df) = false.
Proof.
  vm_compute. split; reflexivity.
Qed.

(** *** Class weights *)

Lemma value_counts_absent (l : list string) (k : string) :
  k ∉ l -> Pandas.value_counts l !! k = None.
Proof.
  induction l as [|x l IH]; intros Hk; simpl; [apply lookup_empty|].
  rewrite lookup_insert_ne by (intros ->; apply Hk; left).
  apply IH. intros H. apply Hk. right. exact H.
Qed.

Lemma beta_power_lt_1 (n : nat) : (0 < n)%nat -> (Dataloader.beta ^ Z.of_nat n < 1)%Q.
Proof.
  assert (Hb0 : (0 < Dataloader.beta)%Q) by reflexivity.
  assert (Hb1 : (Dataloader.beta < 1)%Q) by reflexivity.
  assert (Hle : forall m : nat, (0 < Dataloader.beta ^ Z.of_nat m <= 1)%Q).
  { induction m as [|m IH].
    - simpl. split; [reflexivity | apply Qle_refl].
    - rewrite Nat2Z.inj_succ, <- Z.add_1_l.
      rewrite Qpower_plus by (intros H; rewrite H in Hb0; discriminate).
      change (Dataloader.beta ^ 1)%Q with Dataloader.beta.
      destruct IH as [IH0 IH1]. split; nra. }
  intros Hn. destruct n as [|n]; [lia|].
  rewrite Nat2Z.inj_succ, <- Z.add_1_l.
  rewrite Qpower_plus by (intros H; rewrite H in Hb0; discriminate).
  change (Dataloader.beta ^ 1)%Q with Dataloader.beta.
  destruct (Hle n) as [H0 H1]. nra.
Qed.

Lemma np_setitem_in_range (a : list Q) (idx : Z) (v : Q) :
  0 <= idx < Z.of_nat (length a) ->
  Dataloader.np_setitem a idx v = Ok (<[Z.to_nat idx := v]> a).
Proof.
  intros H. unfold Dataloader.np_setitem, Dataloader.np_index.
  destruct (Z.leb_spec 0 idx); [|lia].
  destruct (Z.ltb_spec idx (Z.of_nat (length a))); [|lia].
  reflexivity.
Qed.

Section WeightsLoop.

Variable class_counts : gmap string nat.
Variables total_samples num_classes : nat.
Variable method : string.
Hypothesis method_ok : valid_method method.
Hypothesis classes_nonempty : (0 < num_classes)%nat.

Let loop := Dataloader.weights_loop class_counts total_samples num_classes method.

Lemma weights_loop_Ok (items : list (string * Z)) :
  forall (weights : list Q) (log : list log_record),
    length weights = num_classes ->
    Forall (in_range num_classes) (map snd items) ->
    exists weights' log',
      loop items weights log = Ok (weights', log')
      /\ length weights' = num_classes
      /\ (forall i w, weights !! i = Some w ->
            Z.of_nat i ∉ map snd items -> weights' !! i = Some w)
      /\ (forall r, r ∈ log -> r ∈ log')
      /\ (NoDup (map snd items) ->
          forall c idx, (c, idx) ∈ items -> class_counts !! c = None ->
            weights' !! Z.to_nat idx = Some 1%Q
            /\ Dataloader.zero_samples_warning c ∈ log').
Proof.
  induction items as [|[diagnosis idx] rest IH]; intros weights log Hlen Hrange.
  - exists weights, log. split; [reflexivity|]. split; [exact Hlen|].
    split; [intros i w Hw _; exact Hw|]. split; [intros r Hr; exact Hr|].
    intros _ c idx Hin. inversion Hin.
  - cbn [map snd] in Hrange. apply Forall_cons in Hrange as [Hidx Hrange].
    unfold in_range in Hidx.
    assert (Hstep : exists w log1,
      loop ((diagnosis, idx) :: rest) weights log
      = loop rest (<[Z.to_nat idx := w]> weights) log1
      /\ (forall r, r ∈ log -> r ∈ log1)
      /\ (class_counts !! diagnosis = None ->
          w = 1%Q /\ Dataloader.zero_samples_warning diagnosis ∈ log1)).
    { unfold loop. cbn [Dataloader.weights_loop].
      destruct (class_counts !! diagnosis) as [count|] eqn:Ecount.
      - change (default 0%nat (Some count)) with count.
        destruct (Nat.eqb_spec count 0) as [->|Hcount].
        + rewrite np_setitem_in_range by lia. cbn [mbind Result_bind Py.bind].
          eexists _, _. split; [reflexivity|].
          split; [intros r Hr; apply elem_of_app; left; exact Hr | discriminate].
        + destruct method_ok as [-> | ->].
          * change ("inverse_frequency" =? "inverse_frequency")%string with true. cbn match.
            rewrite truediv_Ok by (unfold Qeq; simpl; nia).
            cbn [mbind Result_bind Py.bind].
            rewrite np_setitem_in_range by lia. cbn [mbind Result_bind Py.bind].
            eexists _, _. split; [reflexivity|].
            split; [intros r Hr; exact Hr | discriminate].
          * change ("effective_number" =? "inverse_frequency")%string with false.
            change ("effective_number" =? "effective_number")%string with true. cbn match.
            rewrite truediv_Ok.
            2:{ pose proof (beta_power_lt_1 count ltac:(lia)) as Hlt.
                intros Heq. set (x := (Dataloader.beta ^ Z.of_nat count)%Q) in *. lra. }
            cbn [mbind Result_bind Py.bind].
            rewrite np_setitem_in_range by lia. cbn [mbind Result_bind Py.bind].
            eexists _, _. split; [reflexivity|].
            split; [intros r Hr; exact Hr | discriminate].
      - change (default 0%nat None) with 0%nat.
        change (Nat.eqb 0 0) with true. cbn match.
        rewrite np_setitem_in_range by lia. cbn [mbind Result_bind Py.bind].
        eexists _, _. split; [reflexivity|].
        split; [intros r Hr; apply elem_of_app; left; exact Hr|].
        intros _. split; [reflexivity|]. apply elem_of_app. right. left. }
    destruct Hstep as (w & log1 & Hstep & Hlog1 & Hzero).
    destruct (IH (<[Z.to_nat idx := w]> weights) log1) as
      (weights' & log' & Hrun & Hlen' & Hkeep & Hlog' & Hres).
    { rewrite length_insert. exact Hlen. }
    { exact Hrange. }
    exists weights', log'. rewrite Hstep.
    split; [exact Hrun|]. split; [exact Hlen'|].
    split; [|split].
    + intros i w0 Hw0 Hni. cbn [map snd] in Hni.
      apply Hkeep.
      * rewrite list_lookup_insert_ne; [exact Hw0|].
        intros Heq. apply Hni. rewrite <- Heq, Z2Nat.id by lia. left.
      * intros Hin. apply Hni. right. exact Hin.
    + intros r Hr. apply Hlog', Hlog1, Hr.
    + intros Hnd c idx' Hin Hc. cbn [map snd] in Hnd.
      apply NoDup_cons in Hnd as [Hfresh Hnd].
      apply elem_of_cons in Hin as [[= -> ->]|Hin].
      * destruct (Hzero Hc) as [-> Hwarn].
        split; [|apply Hlog', Hwarn].
        apply Hkeep.
        -- apply list_lookup_insert_eq. lia.
        -- rewrite Z2Nat.id by lia. exact Hfresh.
      * apply (Hres Hnd c idx' Hin Hc).
Qed.

End WeightsLoop.

(** C8: for a class-to-index mapping onto the positions [0 .. n-1] and either
    weighting method, [compute_class_weights] returns (no exception, in
    particular no division by zero) a vector with one entry per class of the
    mapping, and every class without a sample in the registry has weight 1.0
    and a warning logged for it. *)
Theorem C8_zero_sample_class_gets_weight_one :
  forall (df : list DataMerger.Sample) (class_to_idx : list (string * Z)) (method : string),
    index_mapping class_to_idx ->
    valid_method method ->
    exists weights log,
      Dataloader.compute_class_weights df class_to_idx method = Ok (weights, log)
      /\ length weights = length class_to_idx
      /\ forall c idx,
           (c, idx) ∈ class_to_idx ->
           c ∉ map DataMerger.dx df ->
           weights !! Z.to_nat idx = Some 1%Q
           /\ Dataloader.zero_samples_warning c ∈ log.
Proof.
  intros df class_to_idx method [Hnd Hrange] Hmethod.
  unfold Dataloader.compute_class_weights.
  destruct class_to_idx as [|item items] eqn:E.
  - exists [], []. split; [reflexivity|]. split; [reflexivity|].
    intros c idx Hin. inversion Hin.
  - rewrite <- E in *.
    destruct (weights_loop_Ok (Pandas.value_counts (map DataMerger.dx df)) (length df)
                (length class_to_idx) method Hmethod ltac:(rewrite E; simpl; lia)
                class_to_idx (replicate (length class_to_idx) 0%Q) [])
      as (weights & log & Hrun & Hlen & _ & _ & Hres).
    { apply length_replicate. }
    { exact Hrange. }
    exists weights, log. split; [exact Hrun|]. split; [exact Hlen|].
    intros c idx Hin Habsent. apply (Hres Hnd c idx Hin).
    apply value_counts_absent, Habsent.
Qed.

Lemma C8_witness :
  let df := [sample_of "ISIC_1" "nv"; sample_of "ISIC_2" "nv"; sample_of "ISIC_3" "mel"] in
  let class_to_idx := [("df", 0); ("mel", 1); ("nv", 2)] in
  exists weights log,
    Dataloader.compute_class_weights df class_to_idx "effective_number" = Ok (weights, log)
    /\ length weights = 3%nat
    /\ weights !! 0%nat = Some 1%Q
    /\ Dataloader.zero_samples_warning "df" ∈ log.
Proof.
  intros df class_to_idx.
  destruct (C8_zero_sample_class_gets_weight_one df class_to_idx "effective_number")
    as (weights & log & Hrun & Hlen & Hzero).
  - split.
    + apply (bool_decide_unpack _). vm_compute. exact I.
    + unfold in_range. repeat constructor; simpl; lia.
  - right. reflexivity.
  - exists weights, log. split; [exact Hrun|]. split; [exact Hlen|].
    apply (Hzero "df" 0).
    + left.
    + cbn. rewrite !elem_of_cons. intros [H|[H|[H|H]]]; try discriminate H. inversion H.
Defined.

(** *** Metrics *)

Section ComputeFacts.

Variable balanced_accuracy_score : list Z -> list Z -> Result Q.
Variable classification_report :
  list Z -> list Z -> list string -> Result (gmap string (gmap string Q)).
Variable roc_auc_score_ovr_macro : list Z -> list (list Q) -> Result Q.
Variable roc_auc_score : list Z -> list Q -> Result Q.

Let standard_metrics := Metrics.standard_metrics balanced_accuracy_score classification_report.
Let auc_block := Metrics.auc_block roc_auc_score_ovr_macro roc_auc_score.
Let compute :=
  Metrics.compute balanced_accuracy_score classification_report
    roc_auc_score_ovr_macro roc_auc_score.

Lemma bind_Ok_inv {A B : Type} (r : Result A) (k : A -> Result B) (b : B) :
  r ≫= k = Ok b -> exists a, r = Ok a /\ k a = Ok b.
Proof. destruct r as [a|e]; [intros H; exists a; split; [reflexivity | exact H] | discriminate]. Qed.

Lemma standard_metrics_mel_sensitivity (self : Metrics.MetricsCalculator)
    (all_preds all_labels : list Z) (metrics : gmap string Q) :
  standard_metrics self all_preds all_labels = Ok metrics ->
  exists x, metrics !! "mel_sensitivity" = Some x.
Proof.
  unfold standard_metrics, Metrics.standard_metrics. intros H.
  repeat (apply bind_Ok_inv in H as [? [_ H]]).
  injection H as <-.
  eexists. rewrite lookup_insert_ne by discriminate.
  rewrite lookup_insert_ne by discriminate.
  apply lookup_insert_eq.
Qed.

Lemma auc_block_raised (self : Metrics.MetricsCalculator) (all_labels : list Z)
    (all_probs : list (list Q)) (metrics : gmap string Q) (e : exn) :
  snd (auc_block self all_labels all_probs metrics) = Some e ->
  forall k, k <> "auc_roc_macro" ->
    fst (auc_block self all_labels all_probs metrics) !! k = metrics !! k.
Proof.
  unfold auc_block, Metrics.auc_block.
  destruct (roc_auc_score_ovr_macro all_labels all_probs) as [macro|e1]; cbn [fst snd].
  - destruct (_ ≫= _) as [auc|e2]; cbn [fst snd]; [discriminate|].
    intros _ k Hk. apply lookup_insert_ne. congruence.
  - intros _ k _. reflexivity.
Qed.

Lemma compute_auc_failure (self : Metrics.MetricsCalculator) (all_preds all_labels : list Z)
    (all_probs : list (list Q)) (metrics0 : gmap string Q) (e : exn) :
  standard_metrics self all_preds all_labels = Ok metrics0 ->
  snd (auc_block self all_labels all_probs metrics0) = Some e ->
  exists metrics log,
    compute self all_preds all_labels all_probs = Ok (metrics, log)
    /\ metrics !! "auc_roc_macro" = Some 0%Q
    /\ metrics !! "auc_roc_melanoma" = Some 0%Q
    /\ forall k, k <> "auc_roc_macro" -> k <> "auc_roc_melanoma" ->
         metrics !! k = metrics0 !! k.
Proof.
  intros Hstd Hraised.
  destruct (standard_metrics_mel_sensitivity _ _ _ _ Hstd) as [sens Hsens].
  pose proof (auc_block_raised _ _ _ _ _ Hraised) as Hkeep.
  unfold compute, Metrics.compute.
  fold standard_metrics. rewrite Hstd. cbn [mbind Result_bind Py.bind].
  fold auc_block.
  destruct (auc_block self all_labels all_probs metrics0) as [metrics1 raised].
  cbn [fst snd] in Hraised, Hkeep. subst raised.
  set (metrics := <["auc_roc_melanoma" := 0%Q]> (<["auc_roc_macro" := 0%Q]> metrics1)).
  assert (Hother : forall k, k <> "auc_roc_macro" -> k <> "auc_roc_melanoma" ->
                     metrics !! k = metrics0 !! k).
  { intros k Hk1 Hk2. unfold metrics.
    rewrite lookup_insert_ne by congruence.
    rewrite lookup_insert_ne by congruence.
    apply Hkeep, Hk1. }
  unfold Metrics.getitem. rewrite Hother by discriminate. rewrite Hsens.
  cbn [mbind Result_bind Py.bind].
  eexists _, _. split; [reflexivity|].
  split; [|split; [|exact Hother]].
  - unfold metrics. rewrite lookup_insert_ne by discriminate. apply lookup_insert_eq.
  - apply lookup_insert_eq.
Qed.

End ComputeFacts.





(** *** The training loop *)

Lemma append_eqb_cancel (p a b : string) :
  String.eqb (p ++ a) (p ++ b) = String.eqb a b.
Proof.
  induction p as [|c p IH]; simpl; [reflexivity|].
  rewrite Ascii.eqb_refl. exact IH.
Qed.

Section TrainLoop.

Import Trainer.

Variable validate : nat -> Metrics.
Variable name : string.

Let bal (e : nat) : Q := balanced_accuracy (validate e).

(** What holds of the trainer between two iterations, [k] epochs done. *)
Record loop_inv (k : nat) (t : Trainer) : Prop := {
  inv_name : model_name t = name;
  inv_run : epochs_run t = k;
  inv_best : forall v : Q,
      (best_val_balanced_acc t < v)%Q <->
      ((0 < v)%Q /\ forall e', (e' < k)%nat -> (bal e' < v)%Q);
  inv_fresh : forall path e, (k <= e)%nat -> written t path e = false;
  inv_latest : forall e, (e < k)%nat -> written t (name ++ "_latest.pth") e = true;
  inv_flag : forall e, (e < k)%nat ->
      written t (name ++ "_best.pth") e = true <-> sets_record validate e
}.

Lemma written_app (t : Trainer) (extra : list (string * Checkpoint)) path e hb hm es b :
  written {| model_name := model_name t; num_epochs := num_epochs t;
             early_stopping := es; best_val_balanced_acc := b;
             history_val_balanced_acc := hb; history_val_mel_sensitivity := hm;
             saved := (saved t ++ extra)%list |} path e
  = written t path e
    || existsb (fun w => String.eqb (fst w) path && Nat.eqb (ck_epoch (snd w)) e) extra.
Proof. unfold written; simpl. apply existsb_app. Qed.

Lemma epoch_body_inv (k : nat) (t : Trainer) :
  loop_inv k t -> loop_inv (S k) (fst (epoch_body validate t k)).
Proof.
  intros [Hname Hrun Hbest Hfresh Hlatest Hflag].
  unfold epoch_body.
  destruct (EarlyStopping_call (early_stopping t) (balanced_accuracy (validate k)))
    as [stop es'] eqn:Ecall.
  cbn [fst].
  set (is_best := Qgtb (balanced_accuracy (validate k)) (best_val_balanced_acc t)).
  assert (Hib : is_best = true <-> sets_record validate k).
  { unfold is_best. rewrite Qgtb_true. apply Hbest. }
  split.
  - exact Hname.
  - unfold epochs_run in *; simpl. rewrite length_app; simpl. lia.
  - intros v; simpl.
    destruct is_best eqn:Eb.
    + apply Qgtb_true in Eb. fold (bal k) in *. split.
      * intros Hv. assert (Hbv : (best_val_balanced_acc t < v)%Q) by lra.
        apply Hbest in Hbv as [H0 Hall]. split; [exact H0|].
        intros e' He'. destruct (decide (e' = k)) as [->|Hne]; [exact Hv|].
        apply Hall. lia.
      * intros [_ Hall]. apply Hall. lia.
    + apply Qgtb_false in Eb. fold (bal k) in *. split.
      * intros Hv. pose proof (proj1 (Hbest v) Hv) as [H0 Hall].
        split; [exact H0|].
        intros e' He'. destruct (decide (e' = k)) as [->|Hne]; [lra|].
        apply Hall. lia.
      * intros [H0 Hall]. apply Hbest. split; [exact H0|].
        intros e' He'. apply Hall. lia.
  - intros path e He. rewrite written_app. rewrite Hfresh by lia. simpl.
    assert (Hke : Nat.eqb k e = false) by (apply Nat.eqb_neq; lia).
    destruct is_best; simpl; rewrite Hke; rewrite ?andb_false_r; reflexivity.
  - intros e He. rewrite written_app.
    unfold _save_checkpoint, latest_path. rewrite Hname. cbn [existsb fst snd ck_epoch].
    destruct (decide (e = k)) as [->|Hne].
    + rewrite String.eqb_refl, Nat.eqb_refl. simpl. apply orb_true_r.
    + rewrite Hlatest by lia. reflexivity.
  - intros e He. rewrite written_app.
    unfold _save_checkpoint, latest_path, best_path. rewrite Hname.
    cbn [existsb fst snd ck_epoch].
    rewrite append_eqb_cancel. change ("_latest.pth" =? "_best.pth")%string with false.
    cbn [andb orb].
    destruct (decide (e = k)) as [->|Hne].
    + rewrite Hfresh by lia. cbn [orb].
      destruct is_best; cbn [existsb fst snd ck_epoch].
      * rewrite String.eqb_refl, Nat.eqb_refl. simpl.
        split; [intros _; apply Hib; reflexivity | reflexivity].
      * split; [discriminate | intros Hr; apply Hib in Hr; discriminate].
    + assert (Hke : Nat.eqb k e = false) by (apply Nat.eqb_neq; lia).
      destruct is_best; cbn [existsb fst snd ck_epoch];
        rewrite ?Hke, ?andb_false_r, ?orb_false_r; apply Hflag; lia.
Qed.

Lemma train_loop_inv (m : nat) : forall (k : nat) (t : Trainer),
  loop_inv k t ->
  exists k', (k <= k' <= k + m)%nat /\ loop_inv k' (train_loop validate (seq k m) t).
Proof.
  induction m as [|m IH]; intros k t Hinv; simpl.
  - exists k. split; [lia | exact Hinv].
  - pose proof (epoch_body_inv k t Hinv) as Hstep.
    destruct (epoch_body validate t k) as [t' stop]; cbn [fst] in Hstep.
    destruct stop.
    + exists (S k). split; [lia | exact Hstep].
    + destruct (IH (S k) t' Hstep) as [k' [Hk' Hinv']].
      exists k'. split; [lia | exact Hinv'].
Qed.

Lemma Trainer_init_inv (n : nat) (p : Z) : loop_inv 0 (Trainer_init n p name).
Proof.
  split; try reflexivity.
  - intros v; simpl. split.
    + intros Hv. split; [exact Hv | intros e' He'; lia].
    + intros [Hv _]. exact Hv.
  - intros e He; lia.
  - intros e He; lia.
Qed.

Lemma train_inv (n : nat) (p : Z) :
  exists k, (k <= n)%nat /\ loop_inv k (train validate (Trainer_init n p name)).
Proof.
  destruct (train_loop_inv n 0%nat (Trainer_init n p name) (Trainer_init_inv n p))
    as [k [Hkn Hk]].
  exists k. split; [lia | exact Hk].
Qed.

End TrainLoop.

Lemma epoch_body_early_stopping (validate : nat -> Trainer.Metrics) (t : Trainer.Trainer) (e : nat) :
  let r := Trainer.epoch_body validate t e in
  let c := Trainer.EarlyStopping_call (Trainer.early_stopping t)
             (Trainer.balanced_accuracy (validate e)) in
  Trainer.early_stopping (fst r) = snd c
  /\ snd r = fst c
  /\ Trainer.epochs_run (fst r) = S (Trainer.epochs_run t).
Proof.
  unfold Trainer.epoch_body.
  destruct (Trainer.EarlyStopping_call _ _) as [stop es']; cbn.
  repeat split. unfold Trainer.epochs_run; cbn. rewrite length_app; cbn. lia.
Qed.

Ltac run_epoch validate t e t' Hes Hrun :=
  let s := fresh "stop" in
  let E := fresh "E" in
  let Hs := fresh "Hs" in
  destruct (Trainer.epoch_body validate t e) as [t' s] eqn:E;
  pose proof (epoch_body_early_stopping validate t e) as (Hes & Hs & Hrun);
  rewrite E in Hes, Hs, Hrun; cbn [fst snd] in Hes, Hs, Hrun.

Lemma four_epochs_run (validate : nat -> Trainer.Metrics) (p : Z) (name : string) :
  2 <= p ->
  map (fun e => Trainer.balanced_accuracy (validate e)) (seq 0 4)
    = [60 # 100; 65 # 100; 65 # 100; 70 # 100]%Q ->
  Trainer.epochs_run (Trainer.train validate (Trainer.Trainer_init 4 p name)) = 4%nat.
Proof.
  intros Hp Hv. cbn [map seq] in Hv.
  injection Hv as H0 H1 H2 H3.
  assert (Hge : (1 >=? p) = false) by lia.
  unfold Trainer.train.
  change (Trainer.num_epochs (Trainer.Trainer_init 4 p name)) with 4%nat.
  cbn [seq Trainer.train_loop].
  set (t0 := Trainer.Trainer_init 4 p name).
  assert (Hes0 : Trainer.early_stopping t0
                 = Trainer.EarlyStopping_init (Some p) None (Some "max")) by reflexivity.
  run_epoch validate t0 0%nat t1 Hes1 Hr1.
  rewrite Hes0, H0 in *. cbn -[Z.geb] in Hes1, Hs. subst stop.
  assert (Hq1 : Qgtb (65 # 100) ((60 # 100) + (1 # 1000)) = true) by reflexivity.
  assert (Hq2 : Qgtb (65 # 100) ((65 # 100) + (1 # 1000)) = false) by reflexivity.
  run_epoch validate t1 1%nat t2 Hes2 Hr2.
  rewrite Hes1, H1 in *. cbn -[Z.geb Qgtb Qplus] in Hes2, Hs.
  rewrite Hq1 in Hes2, Hs. cbn [fst snd] in Hes2, Hs. subst stop.
  run_epoch validate t2 2%nat t3 Hes3 Hr3.
  rewrite Hes2, H2 in *. cbn -[Z.geb Qgtb Qplus] in Hes3, Hs.
  rewrite Hq2 in Hes3, Hs. change (0 + 1) with 1 in Hes3, Hs.
  rewrite Hge in Hes3, Hs. cbn [fst snd] in Hes3, Hs. subst stop.
  run_epoch validate t3 3%nat t4 Hes4 Hr4.
  assert (Hfin : Trainer.epochs_run t4 = 4%nat)
    by (rewrite Hr4, Hr3, Hr2, Hr1; reflexivity).
  destruct stop; exact Hfin.
Qed.

(** C7: in every epoch that [train] runs the latest checkpoint is written,
    and the best checkpoint is written iff the epoch's balanced accuracy is
    strictly above 0.0 and above that of every earlier epoch; for the
    sequence [0.60, 0.65, 0.65, 0.70] over four epochs the flags of the
    epochs that ran are those of [True, True, False, True], and all four
    epochs run when the early-stopping patience is at least 2. *)
Theorem C7_best_checkpoint_iff_strictly_better :
  forall (validate : nat -> Trainer.Metrics) (n : nat) (p : Z) (name : string),
    let t := Trainer.train validate (Trainer.Trainer_init n p name) in
    (forall e, (e < Trainer.epochs_run t)%nat ->
       Trainer.written t (Trainer.latest_path t) e = true
       /\ (Trainer.written t (Trainer.best_path t) e = true <-> sets_record validate e))
    /\ (n = 4%nat ->
        map (fun e => Trainer.balanced_accuracy (validate e)) (seq 0 4)
          = [60 # 100; 65 # 100; 65 # 100; 70 # 100]%Q ->
        Trainer.is_best_flags t = take (Trainer.epochs_run t) [true; true; false; true]
        /\ (2 <= p -> Trainer.is_best_flags t = [true; true; false; true])).
Proof.
  intros validate n p name t.
  destruct (train_inv validate name n p) as [k [Hkn Hk]]. fold t in Hk.
  assert (Hgen : forall e, (e < Trainer.epochs_run t)%nat ->
       Trainer.written t (Trainer.latest_path t) e = true
       /\ (Trainer.written t (Trainer.best_path t) e = true <-> sets_record validate e)).
  { intros e He. unfold Trainer.latest_path, Trainer.best_path.
    rewrite (inv_name _ _ _ _ Hk). rewrite (inv_run _ _ _ _ Hk) in He.
    split; [apply (inv_latest _ _ _ _ Hk) | apply (inv_flag _ _ _ _ Hk)]; exact He. }
  split; [exact Hgen|].
  intros -> Hv.
  assert (Hk4 : (Trainer.epochs_run t <= 4)%nat) by (rewrite (inv_run _ _ _ _ Hk); exact Hkn).
  pose proof Hv as Hv'. cbn [map seq] in Hv'. injection Hv' as H0 H1 H2 H3.
  assert (Hyes : forall e, (e < Trainer.epochs_run t)%nat -> sets_record validate e ->
                   Trainer.written t (Trainer.best_path t) e = true).
  { intros e He Hr. apply Hgen; [exact He | exact Hr]. }
  assert (Hno : forall e, (e < Trainer.epochs_run t)%nat -> ~ sets_record validate e ->
                   Trainer.written t (Trainer.best_path t) e = false).
  { intros e He Hr. destruct (Trainer.written t (Trainer.best_path t) e) eqn:E;
      [|reflexivity]. exfalso. apply Hr, Hgen; [exact He | exact E]. }
  assert (R0 : sets_record validate 0).
  { split; [rewrite H0; reflexivity|]. intros e' He'. lia. }
  assert (R1 : sets_record validate 1).
  { split; [rewrite H1; reflexivity|].
    intros e' He'. destruct e' as [|e']; [|lia]. rewrite H0, H1. reflexivity. }
  assert (R2 : ~ sets_record validate 2).
  { intros [_ Hall]. specialize (Hall 1%nat ltac:(lia)).
    rewrite H1, H2 in Hall. discriminate Hall. }
  assert (R3 : sets_record validate 3).
  { split; [rewrite H3; reflexivity|].
    intros e' He'.
    destruct e' as [|[|[|e']]]; [rewrite H0, H3 | rewrite H1, H3 | rewrite H2, H3 | lia];
      reflexivity. }
  assert (Hflags : Trainer.is_best_flags t
                   = take (Trainer.epochs_run t) [true; true; false; true]).
  { unfold Trainer.is_best_flags.
    destruct (Trainer.epochs_run t) as [|[|[|[|[|r]]]]] eqn:Er; [| | | |  | lia];
      cbn [seq map take];
      rewrite ?(Hyes 0%nat), ?(Hyes 1%nat), ?(Hno 2%nat), ?(Hyes 3%nat)
        by (assumption || lia); reflexivity. }
  split; [exact Hflags|].
  intros Hp. rewrite Hflags.
  pose proof (four_epochs_run validate p name Hp Hv) as Hrun. fold t in Hrun.
  rewrite Hrun. reflexivity.
Qed.

Lemma C7_witness :
  let validate := metrics_of [60 # 100; 65 # 100; 65 # 100; 70 # 100]%Q in
  let t := Trainer.train validate (Trainer.Trainer_init 4 2 "resnet50") in
  (3 < Trainer.epochs_run t)%nat
  /\ (Trainer.written t (Trainer.latest_path t) 3 = true
      /\ (Trainer.written t (Trainer.best_path t) 3 = true <-> sets_record validate 3))
  /\ Trainer.is_best_flags t = [true; true; false; true].
Proof.
  intros validate t.
  pose proof (C7_best_checkpoint_iff_strictly_better validate 4 2 "resnet50") as [Hgen Hex].
  assert (Hrun : (3 < Trainer.epochs_run t)%nat) by (vm_compute; lia).
  split; [exact Hrun|].
  split; [exact (Hgen 3%nat Hrun)|].
  apply Hex; [reflexivity | reflexivity | lia].
Defined.

(** *** Early stopping versus the best-checkpoint decision *)

Lemma EarlyStopping_call_default (es : Trainer.EarlyStopping) (v : Q) :
  default_es es -> default_es (snd (Trainer.EarlyStopping_call es v)).
Proof.
  intros [Hd Hm]. unfold Trainer.EarlyStopping_call.
  destruct (Trainer.best_value es) as [b|]; [|split; assumption].
  destruct (if (Trainer.mode es =? "max")%string then _ else _); split; assumption.
Qed.

Lemma train_loop_default (validate : nat -> Trainer.Metrics) (epochs : list nat) :
  forall t, default_es (Trainer.early_stopping t) ->
            default_es (Trainer.early_stopping (Trainer.train_loop validate epochs t)).
Proof.
  induction epochs as [|e rest IH]; intros t Ht; simpl; [exact Ht|].
  pose proof (epoch_body_early_stopping validate t e) as (Hes & _ & _).
  destruct (Trainer.epoch_body validate t e) as [t' stop]; cbn [fst snd] in Hes.
  assert (Ht' : default_es (Trainer.early_stopping t')).
  { rewrite Hes. apply EarlyStopping_call_default, Ht. }
  destruct stop; [exact Ht' | apply IH, Ht'].
Qed.

(** C10 (amended): the trainer builds its EarlyStopping with the default
    min_delta = 0.001 while the best-checkpoint test is a bare [>].  In every
    epoch after the first whose balanced accuracy is strictly above the
    trainer's best so far and exceeds EarlyStopping's own best value, a
    balanced accuracy between 0 and 1, by at most 0.000999, the best
    checkpoint is written and EarlyStopping's counter goes up by one in
    that same epoch.  (The margin to 0.001 is far wider than the rounding
    of [best_value + min_delta] in floating point, which decides the
    outcome for gains within an ulp of 0.001.) *)
Theorem C10_best_saved_while_counter_increments :
  forall (validate : nat -> Trainer.Metrics) (n : nat) (p : Z) (name : string)
         (k : nat) (b : Q),
    let t0 := Trainer.Trainer_init n p name in
    let t := Trainer.train_loop validate (seq 0 k) t0 in
    let v := Trainer.balanced_accuracy (validate k) in
    let t' := fst (Trainer.epoch_body validate t k) in
    Trainer.best_value (Trainer.early_stopping t) = Some b ->
    (0 <= b <= 1)%Q ->
    (Trainer.best_val_balanced_acc t < v)%Q ->
    (v <= b + (999 # 1000000))%Q ->
    Trainer.min_delta (Trainer.early_stopping t0) = (1 # 1000)%Q
    /\ Trainer.written t' (Trainer.best_path t') k = true
    /\ Trainer.counter (Trainer.early_stopping t')
       = Trainer.counter (Trainer.early_stopping t) + 1.
Proof.
  intros validate n p name k b t0 t v t' Hb Hrange Hgt Hle.
  assert (Hdef : default_es (Trainer.early_stopping t)).
  { apply train_loop_default. split; reflexivity. }
  destruct Hdef as [Hd Hm].
  split; [reflexivity|].
  subst t'. unfold Trainer.epoch_body, Trainer.EarlyStopping_call.
  rewrite Hb, Hm, Hd. fold v.
  change ("max" =? "max")%string with true. cbn match.
  assert (Hni : Qgtb v (b + (1 # 1000)) = false) by (apply Qgtb_false; lra).
  assert (Hib : Qgtb v (Trainer.best_val_balanced_acc t) = true)
    by (apply Qgtb_true; exact Hgt).
  rewrite Hni, Hib. cbn [fst Trainer.early_stopping Trainer.counter].
  split; [|reflexivity].
  unfold Trainer.written, Trainer.best_path, Trainer._save_checkpoint.
  cbn [Trainer.saved Trainer.model_name].
  rewrite existsb_app. apply orb_true_iff. right.
  cbn [existsb fst snd Trainer.ck_epoch]. fold (Trainer.best_path t).
  rewrite String.eqb_refl, Nat.eqb_refl. cbn. apply orb_true_r.
Qed.

Lemma C10_witness :
  let validate := metrics_of [5000 # 10000; 5005 # 10000; 5008 # 10000]%Q in
  let t := Trainer.train_loop validate (seq 0 2) (Trainer.Trainer_init 3 7 "resnet50") in
  let t' := fst (Trainer.epoch_body validate t 2) in
  Trainer.written t' (Trainer.best_path t') 2 = true
  /\ Trainer.counter (Trainer.early_stopping t') = 2.
Proof.
  intros validate t t'.
  destruct (C10_best_saved_while_counter_increments validate 3 7 "resnet50" 2
              (5000 # 10000)%Q) as (_ & Hw & Hc).
  - reflexivity.
  - split; vm_compute; discriminate.
  - reflexivity.
  - vm_compute. discriminate.
  - split; [exact Hw | exact Hc].
Defined.

(** C10 as stated fails: with balanced accuracies 0.5, 0.5009, 0.5015 the
    third epoch exceeds the trainer's best so far (0.5009) by 0.0006, the best
    checkpoint is written, and EarlyStopping, whose own best is still 0.5,
    sees an improvement and resets its counter from 1 to 0. *)
Lemma C10_counterexample :
  let validate := metrics_of [5000 # 10000; 5009 # 10000; 5015 # 10000]%Q in
  let t := Trainer.train_loop validate (seq 0 2) (Trainer.Trainer_init 3 7 "resnet50") in
  let v := Trainer.balanced_accuracy (validate 2%nat) in
  let t' := fst (Trainer.epoch_body validate t 2) in
  (Trainer.best_val_balanced_acc t < v)%Q
  /\ (v < Trainer.best_val_balanced_acc t + (1 # 1000))%Q
  /\ Trainer.written t' (Trainer.best_path t') 2 = true
  /\ Trainer.counter (Trainer.early_stopping t) = 1
  /\ Trainer.counter (Trainer.early_stopping t') = 0
  /\ Trainer.counter (Trainer.early_stopping t')
     <> Trainer.counter (Trainer.early_stopping t) + 1.
Proof.
  vm_compute. repeat split; discriminate.
Qed.

(** C6: with mode=max, patience=3, min_delta=0.0 the sequence
    [0.5, 0.5, 0.5, 0.5] returns False on calls 1 to 3 and True on the 4th;
    and whenever no value has been observed yet ([best_value] is None) the
    call stores the value as the best one, returns False and leaves the
    counter and the stop flag as they were. *)
Theorem C6_early_stopping_flat_sequence :
  fst (Trainer.EarlyStopping_feed
         (Trainer.EarlyStopping_init (Some 3) (Some 0%Q) (Some "max"))
         [(1 # 2)%Q; (1 # 2)%Q; (1 # 2)%Q; (1 # 2)%Q])
    = [false; false; false; true]
  /\ (forall p d m, Trainer.best_value (Trainer.EarlyStopping_init p d m) = None)
  /\ forall (es : Trainer.EarlyStopping) (v : Q),
       Trainer.best_value es = None ->
       fst (Trainer.EarlyStopping_call es v) = false
       /\ Trainer.best_value (snd (Trainer.EarlyStopping_call es v)) = Some v
       /\ Trainer.counter (snd (Trainer.EarlyStopping_call es v)) = Trainer.counter es
       /\ Trainer.should_stop (snd (Trainer.EarlyStopping_call es v))
          = Trainer.should_stop es.
Proof.
  split; [vm_compute; reflexivity|].
  split; [reflexivity|].
  intros es v Hnone. unfold Trainer.EarlyStopping_call. rewrite Hnone.
  repeat split.
Qed.

Lemma C6_witness :
  let es := Trainer.EarlyStopping_init (Some 3) (Some 0%Q) (Some "max") in
  fst (Trainer.EarlyStopping_call es (1 # 2)%Q) = false
  /\ Trainer.best_value (snd (Trainer.EarlyStopping_call es (1 # 2)%Q)) = Some (1 # 2)%Q.
Proof.
  intros es.
  destruct C6_early_stopping_flat_sequence as (_ & Hinit & Hfirst).
  destruct (Hfirst es (1 # 2)%Q (Hinit (Some 3) (Some 0%Q) (Some "max"))) as (Hr & Hb & _).
  split; [exact Hr | exact Hb].
Defined.

(** * Further properties of the code *)

(** ** [DataMerger.harmonize_isic_labels] *)

Lemma idxmax_from_elem (row : DataMerger.IsicRow) (cols : list string) :
  forall best v, DataMerger.idxmax_from row best v cols ∈ best :: cols.
Proof.
  induction cols as [|c cols IH]; intros best v; simpl; [left|].
  destruct (Qgtb (DataMerger.cells row c) v).
  - right. apply IH.
  - specialize (IH best v). apply elem_of_cons in IH as [->|IH]; [left | right; right; exact IH].
Qed.

Lemma idxmax_from_unique_max (row : DataMerger.IsicRow) (c : string) (post : list string) :
  forall (pre : list string) (best : string) (v : Q),
    (forall c', c' ∈ pre -> (DataMerger.cells row c' <= v)%Q) ->
    (v < DataMerger.cells row c)%Q ->
    (forall c', c' ∈ post -> (DataMerger.cells row c' <= DataMerger.cells row c)%Q) ->
    DataMerger.idxmax_from row best v (pre ++ c :: post)%list = c.
Proof.
  induction pre as [|p pre IH]; intros best v Hpre Hc Hpost; simpl.
  - rewrite (proj2 (Qgtb_true _ _) Hc). apply idxmax_from_no_greater. exact Hpost.
  - rewrite (proj2 (Qgtb_false _ _)) by (apply Hpre; left).
    apply IH; [|exact Hc | exact Hpost]. intros c' Hc'. apply Hpre. right. exact Hc'.
Qed.

Lemma label_columns_NoDup : NoDup DataMerger.label_columns.
Proof. apply (bool_decide_unpack _). vm_compute. exact I. Qed.

Lemma harmonized_dx_one_hot (row : DataMerger.IsicRow) (c : string) :
  c ∈ DataMerger.label_columns -> one_hot row c ->
  harmonized_dx row = canonical_label c.
Proof.
  intros Hc [Hone Hzero].
  assert (Hcol : DataMerger.idxmax_from row "MEL" (DataMerger.cells row "MEL")
                   (tail DataMerger.label_columns) = c).
  { unfold DataMerger.label_columns in Hc. apply elem_of_cons in Hc as [->|Hc].
    - apply idxmax_from_no_greater. intros c' Hc'.
      rewrite Hone, (Hzero c'); [discriminate | right; exact Hc' |].
      intros ->. pose proof label_columns_NoDup as Hnd.
      apply NoDup_cons in Hnd as [Hnd _]. exact (Hnd Hc').
    - cbn [tail DataMerger.label_columns].
      pose proof label_columns_NoDup as Hnd. unfold DataMerger.label_columns in Hnd.
      apply NoDup_cons in Hnd as [Hmel Hnd].
      apply list_elem_of_split in Hc as (pre & post & Heq).
      rewrite Heq in Hnd, Hmel |- *.
      apply NoDup_app in Hnd as (_ & Hpre & Hnd). apply NoDup_cons in Hnd as [Hpost _].
      assert (Hin : forall c', c' ∈ (pre ++ c :: post)%list -> c' ∈ DataMerger.label_columns).
      { intros c' Hc'. unfold DataMerger.label_columns. rewrite Heq. right. exact Hc'. }
      assert (Hmelz : (DataMerger.cells row "MEL" == 0)%Q).
      { apply Hzero; [left|]. intros <-. apply Hmel. apply elem_of_app. right. left. }
      apply idxmax_from_unique_max.
      + intros c' Hc'. rewrite Hmelz, (Hzero c'); [discriminate | |].
        * apply Hin, elem_of_app. left. exact Hc'.
        * intros ->. apply (Hpre c Hc'). left.
      + rewrite Hmelz, Hone. reflexivity.
      + intros c' Hc'. rewrite Hone, (Hzero c'); [discriminate | |].
        * apply Hin, elem_of_app. right. right. exact Hc'.
        * intros ->. exact (Hpost Hc'). }
  unfold harmonized_dx. rewrite Hcol.
  unfold DataMerger.label_columns in Hc. rewrite !elem_of_cons in Hc.
  destruct Hc as [->|[->|[->|[->|[->|[->|[->|[->|Hc]]]]]]]]; try reflexivity.
  inversion Hc.
Qed.

(** X1: a row of a frame with all label columns whose single indicator [c]
    is set comes out of [harmonize_isic_labels] with the [dx] name of [c]
    (the lower-cased column name, [akiec] for [AK]); the rows keep their
    order. *)
Theorem X1_one_hot_row_gets_its_class :
  forall (df : DataMerger.IsicFrame) (row : DataMerger.IsicRow) (c : string) (i : nat),
    DataMerger.label_columns ⊆ DataMerger.isic_columns df ->
    DataMerger.isic_rows df !! i = Some row ->
    c ∈ DataMerger.label_columns ->
    one_hot row c ->
    exists out,
      DataMerger.harmonize_isic_labels df = Ok out
      /\ out !! i = Some (row, canonical_label c).
Proof.
  intros df row c i Hcols Hrow Hc Hone.
  eexists. split; [apply harmonize_isic_labels_Ok, Hcols|].
  rewrite list_lookup_fmap, Hrow. cbn.
  rewrite (harmonized_dx_one_hot row c Hc Hone). reflexivity.
Qed.

Lemma isic_2019_columns_cover : DataMerger.label_columns ⊆ isic_2019_columns.
Proof.
  intros c Hc. unfold isic_2019_columns, DataMerger.label_columns in *.
  rewrite !elem_of_cons in Hc. rewrite !elem_of_cons. intuition.
Defined.

Lemma isic_row_of_one_hot (id c : string) : one_hot (isic_row_of id (Some c)) c.
Proof.
  split; cbn.
  - rewrite String.eqb_refl. reflexivity.
  - intros c' _ Hne. destruct (String.eqb_spec c' c) as [->|_]; [congruence | reflexivity].
Defined.

Lemma X1_witness :
  let row := isic_row_of "ISIC_0000007" (Some "AK") in
  let df := DataMerger.mkIsicFrame isic_2019_columns
              [isic_row_of "ISIC_0000001" (Some "NV"); row] in
  exists out,
    DataMerger.harmonize_isic_labels df = Ok out /\ out !! 1%nat = Some (row, "akiec").
Proof.
  intros row df.
  apply (X1_one_hot_row_gets_its_class df row "AK" 1%nat).
  - exact isic_2019_columns_cover.
  - reflexivity.
  - unfold DataMerger.label_columns. rewrite !elem_of_cons. tauto.
  - apply isic_row_of_one_hot.
Defined.

(** The outcome of [harmonize_isic_labels] depends on the columns only. *)
Lemma harmonize_isic_labels_missing (df : DataMerger.IsicFrame) :
  ~ DataMerger.label_columns ⊆ DataMerger.isic_columns df ->
  DataMerger.harmonize_isic_labels df
  = Raise (ValueError "Missing label columns in ISIC data").
Proof.
  intros Hmiss. unfold DataMerger.harmonize_isic_labels.
  destruct (List.filter _ DataMerger.label_columns) as [|m ms] eqn:E; [|reflexivity].
  exfalso. apply Hmiss. intros c Hc.
  destruct (existsb (String.eqb c) (DataMerger.isic_columns df)) eqn:Ex.
  - apply existsb_exists in Ex as (c' & Hin & Heq).
    apply String.eqb_eq in Heq. subst c'. apply list_elem_of_In, Hin.
  - assert (Hin : In c (List.filter
              (fun c => negb (existsb (String.eqb c) (DataMerger.isic_columns df)))
              DataMerger.label_columns)).
    { apply filter_In. split; [apply list_elem_of_In, Hc | rewrite Ex; reflexivity]. }
    rewrite E in Hin. destruct Hin.
Qed.

Lemma label_columns_dec (df : DataMerger.IsicFrame) :
  {DataMerger.label_columns ⊆ DataMerger.isic_columns df}
  + {~ DataMerger.label_columns ⊆ DataMerger.isic_columns df}.
Proof.
  destruct (decide (Forall (fun c => c ∈ DataMerger.isic_columns df) DataMerger.label_columns))
    as [H|H].
  - left. intros c Hc. rewrite Forall_forall in H. apply H, Hc.
  - right. intros Hsub. apply H. apply Forall_forall. intros c Hc. apply Hsub, Hc.
Defined.

(** X2: [harmonize_isic_labels] raises, a ValueError, exactly when one of
    the eight label columns is missing from the frame; otherwise it returns
    one labelled row per input row, and every label it assigns is one of the
    eight diagnosis classes (never [ak], never an upper-case column name). *)
Theorem X2_harmonize_outcome :
  forall (df : DataMerger.IsicFrame),
    (~ DataMerger.label_columns ⊆ DataMerger.isic_columns df ->
       exists msg, DataMerger.harmonize_isic_labels df = Raise (ValueError msg))
    /\ (DataMerger.label_columns ⊆ DataMerger.isic_columns df ->
        exists out,
          DataMerger.harmonize_isic_labels df = Ok out
          /\ map fst out = DataMerger.isic_rows df
          /\ forall row dx, (row, dx) ∈ out -> dx ∈ diagnosis_classes).
Proof.
  intros df. split.
  - intros Hmiss. eexists. apply harmonize_isic_labels_missing, Hmiss.
  - intros Hcols. eexists. split; [apply harmonize_isic_labels_Ok, Hcols|]. split.
    + rewrite map_map. cbn. apply map_id.
    + intros row dx Hin. apply list_elem_of_fmap in Hin as (row' & [= -> ->] & _).
      unfold harmonized_dx.
      pose proof (idxmax_from_elem row' (tail DataMerger.label_columns) "MEL"
                    (DataMerger.cells row' "MEL")) as Hcol.
      cbn [tail DataMerger.label_columns] in Hcol |- *.
      rewrite !elem_of_cons in Hcol.
      destruct Hcol as [->|[->|[->|[->|[->|[->|[->|[->|Hc]]]]]]]];
        try (apply (bool_decide_unpack _); vm_compute; exact I).
      inversion Hc.
Qed.

Lemma X2_witness :
  let df := DataMerger.mkIsicFrame ["MEL"; "NV"; "BCC"]
              [isic_row_of "ISIC_0000001" (Some "NV")] in
  exists msg, DataMerger.harmonize_isic_labels df = Raise (ValueError msg).
Proof.
  intros df. apply (X2_harmonize_outcome df).
  intros Hsub. specialize (Hsub "AK").
  assert (Hak : "AK" ∈ DataMerger.label_columns)
    by (unfold DataMerger.label_columns; rewrite !elem_of_cons; tauto).
  apply Hsub in Hak. cbn in Hak. rewrite !elem_of_cons in Hak.
  destruct Hak as [H|[H|[H|H]]]; try discriminate H. inversion H.
Defined.

(** ** [DataMerger.merge_datasets] *)

Lemma value_counts_nonempty (l : list string) :
  l <> [] -> map snd (map_to_list (Pandas.value_counts l)) <> [].
Proof.
  destruct l as [|x l]; [congruence|]. intros _ H.
  apply map_eq_nil in H. revert H. apply value_counts_cons_nonempty.
Qed.

Lemma merge_datasets_returns (ham : list DataMerger.HamRow) (isic : DataMerger.IsicFrame) :
  DataMerger.label_columns ⊆ DataMerger.isic_columns isic ->
  merged ham isic <> [] ->
  DataMerger.merge_datasets (Some ham) (Some isic)
  = Ok (merged ham isic,
        {| DataMerger.total_images := length (merged ham isic);
           DataMerger.ham10000_count := length (ham_frame ham);
           DataMerger.isic2019_count :=
             length (DataMerger.remove_duplicates (ham_frame ham) (isic_frame isic));
           DataMerger.class_distribution :=
             Pandas.value_counts (map DataMerger.dx (merged ham isic));
           DataMerger.source_distribution :=
             Pandas.value_counts (map DataMerger.source (merged ham isic)) |}).
Proof.
  intros Hcols Hne. unfold DataMerger.merge_datasets.
  rewrite (harmonize_isic_labels_Ok isic Hcols).
  cbn [mbind Result_bind Py.bind].
  rewrite map_map. cbn [fst snd]. fold (isic_frame isic). fold (ham_frame ham).
  fold (merged ham isic).
  cbn [DataMerger.class_distribution].
  set (counts := map snd (map_to_list
                   (Pandas.value_counts (map DataMerger.dx (merged ham isic))))).
  assert (Hcounts : counts <> []).
  { apply value_counts_nonempty. intros H. apply map_eq_nil in H. exact (Hne H). }
  assert (Hpos : Forall (fun n => (0 < n)%nat) counts) by apply value_counts_values_pos.
  destruct (py_max_Ok counts Hcounts) as [mx Hmx].
  destruct (py_min_pos counts Hcounts Hpos) as [mn [Hmn Hmnpos]].
  rewrite Hmx, Hmn. cbn [mbind Result_bind Py.bind].
  rewrite truediv_Ok by (unfold Qeq; simpl; lia).
  reflexivity.
Qed.

Lemma merge_datasets_empty (isic : DataMerger.IsicFrame) :
  DataMerger.label_columns ⊆ DataMerger.isic_columns isic ->
  merged [] isic = [] ->
  DataMerger.merge_datasets (Some []) (Some isic)
  = Raise (ValueError "max() arg is an empty sequence").
Proof.
  intros Hcols Hempty. unfold DataMerger.merge_datasets.
  rewrite (harmonize_isic_labels_Ok isic Hcols).
  cbn [mbind Result_bind Py.bind].
  rewrite map_map. cbn [fst snd map]. fold (isic_frame isic).
  change (@nil DataMerger.Sample) with (ham_frame []).
  fold (merged [] isic). rewrite Hempty. reflexivity.
Qed.

Lemma remove_duplicates_nothing (isic_df : list DataMerger.Sample) :
  DataMerger.remove_duplicates [] isic_df = isic_df.
Proof.
  unfold DataMerger.remove_duplicates. cbn [map list_to_set foldr].
  induction isic_df as [|s l IH]; [reflexivity|].
  rewrite filter_cons_True by apply not_elem_of_empty. f_equal. exact IH.
Qed.

Lemma merged_nonempty (ham : list DataMerger.HamRow) (isic : DataMerger.IsicFrame) :
  merged ham isic <> [] <-> ham <> [] \/ DataMerger.isic_rows isic <> [].
Proof.
  unfold merged. destruct ham as [|h ham].
  - cbn [ham_frame map app]. rewrite remove_duplicates_nothing. unfold isic_frame.
    destruct (DataMerger.isic_rows isic); cbn; split; intros H; try tauto; try congruence.
    + right. congruence.
  - cbn. split; [intros _; left; congruence | intros _; congruence].
Qed.

(** X3: the outcome of [merge_datasets], case by case.  A missing HAM file
    is reported first, then a missing ISIC file (both FileNotFoundError),
    then a missing label column (ValueError); two registries without any row
    make the imbalance computation raise ValueError ([max] of an empty
    sequence); in every other case the merged registry is returned: the HAM
    rows first, then the ISIC rows whose id is not a HAM id. *)
Theorem X3_merge_datasets_outcome :
  forall (isic_file : option DataMerger.IsicFrame),
    DataMerger.merge_datasets None isic_file
    = Raise (FileNotFoundError "HAM10000 metadata not found")
    /\ (forall ham,
          DataMerger.merge_datasets (Some ham) None
          = Raise (FileNotFoundError "ISIC 2019 metadata not found"))
    /\ (forall ham isic,
          ~ DataMerger.label_columns ⊆ DataMerger.isic_columns isic ->
          DataMerger.merge_datasets (Some ham) (Some isic)
          = Raise (ValueError "Missing label columns in ISIC data"))
    /\ (forall isic,
          DataMerger.label_columns ⊆ DataMerger.isic_columns isic ->
          DataMerger.isic_rows isic = [] ->
          DataMerger.merge_datasets (Some []) (Some isic)
          = Raise (ValueError "max() arg is an empty sequence"))
    /\ (forall ham isic,
          DataMerger.label_columns ⊆ DataMerger.isic_columns isic ->
          ham <> [] \/ DataMerger.isic_rows isic <> [] ->
          exists stats,
            DataMerger.merge_datasets (Some ham) (Some isic) = Ok (merged ham isic, stats)).
Proof.
  intros isic_file. split; [reflexivity|]. split; [reflexivity|]. split; [|split].
  - intros ham isic Hmiss. unfold DataMerger.merge_datasets.
    rewrite (harmonize_isic_labels_missing isic Hmiss). reflexivity.
  - intros isic Hcols Hrows. apply merge_datasets_empty; [exact Hcols|].
    unfold merged, isic_frame. rewrite Hrows. reflexivity.
  - intros ham isic Hcols Hne. eexists.
    apply merge_datasets_returns; [exact Hcols | apply merged_nonempty, Hne].
Qed.

Lemma X3_witness :
  let isic := DataMerger.mkIsicFrame isic_2019_columns
                [isic_row_of "ISIC_0000001" (Some "AK")] in
  exists stats,
    DataMerger.merge_datasets (Some []) (Some isic)
    = Ok ([DataMerger.mkSample "ISIC_0000001" "akiec" "isic2019"], stats).
Proof.
  intros isic.
  destruct (X3_merge_datasets_outcome None) as (_ & _ & _ & _ & Hok).
  destruct (Hok [] isic isic_2019_columns_cover) as [stats Hrun].
  - right. discriminate.
  - exists stats. exact Hrun.
Defined.

(** What a successful [merge_datasets] returned. *)
Lemma merge_datasets_inv (ham : list DataMerger.HamRow) (isic : DataMerger.IsicFrame)
    (master : list DataMerger.Sample) (stats : DataMerger.Stats) :
  DataMerger.merge_datasets (Some ham) (Some isic) = Ok (master, stats) ->
  master = merged ham isic
  /\ DataMerger.total_images stats = length (merged ham isic)
  /\ DataMerger.ham10000_count stats = length ham
  /\ DataMerger.isic2019_count stats
     = length (DataMerger.remove_duplicates (ham_frame ham) (isic_frame isic))
  /\ DataMerger.class_distribution stats
     = Pandas.value_counts (map DataMerger.dx (merged ham isic))
  /\ DataMerger.source_distribution stats
     = Pandas.value_counts (map DataMerger.source (merged ham isic)).
Proof.
  intros Hrun.
  destruct (label_columns_dec isic) as [Hcols|Hmiss].
  - destruct (decide (merged ham isic = [])) as [Hempty|Hne].
    + exfalso. destruct ham as [|h ham]; [|discriminate Hempty].
      rewrite (merge_datasets_empty isic Hcols Hempty) in Hrun. discriminate.
    + rewrite (merge_datasets_returns ham isic Hcols Hne) in Hrun.
      injection Hrun as <- <-. cbn. unfold ham_frame. rewrite length_map.
      repeat split; reflexivity.
  - unfold DataMerger.merge_datasets in Hrun.
    rewrite (harmonize_isic_labels_missing isic Hmiss) in Hrun. discriminate.
Qed.

(** X4: when both sources have unique ids, the registry returned by
    [merge_datasets] has unique ids. *)
Theorem X4_merged_ids_are_unique :
  forall (ham : list DataMerger.HamRow) (isic : DataMerger.IsicFrame)
         (master : list DataMerger.Sample) (stats : DataMerger.Stats),
    DataMerger.merge_datasets (Some ham) (Some isic) = Ok (master, stats) ->
    NoDup (map DataMerger.ham_image_id ham) ->
    NoDup (map DataMerger.isic_image_id (DataMerger.isic_rows isic)) ->
    NoDup (ids master).
Proof.
  intros ham isic master stats Hrun Hham Hisic.
  apply merge_datasets_inv in Hrun as (-> & _).
  unfold ids, merged. rewrite map_app. apply NoDup_app. split; [|split].
  - unfold ham_frame. rewrite map_map. exact Hham.
  - intros id Hid Hin. apply list_elem_of_fmap in Hin as (s & -> & Hs).
    exact (remove_duplicates_disjoint _ _ _ Hs Hid).
  - unfold DataMerger.remove_duplicates.
    apply (sublist_NoDup _ (map DataMerger.image_id (isic_frame isic))).
    + unfold isic_frame. rewrite map_map. exact Hisic.
    + apply fmap_sublist, sublist_filter.
Qed.

Lemma X4_witness :
  let ham := [DataMerger.mkHamRow "ISIC_0024306" "nv";
              DataMerger.mkHamRow "ISIC_0024307" "mel"] in
  let isic := DataMerger.mkIsicFrame isic_2019_columns
                [isic_row_of "ISIC_0024306" (Some "BKL");
                 isic_row_of "ISIC_0000001" (Some "AK")] in
  exists master stats,
    DataMerger.merge_datasets (Some ham) (Some isic) = Ok (master, stats)
    /\ NoDup (ids master).
Proof.
  intros ham isic.
  assert (Hrun : exists master stats,
            DataMerger.merge_datasets (Some ham) (Some isic) = Ok (master, stats)).
  { eexists _, _. apply merge_datasets_returns; [exact isic_2019_columns_cover | discriminate]. }
  destruct Hrun as (master & stats & Hrun).
  exists master, stats. split; [exact Hrun|].
  apply (X4_merged_ids_are_unique ham isic master stats Hrun).
  - apply (bool_decide_unpack _). vm_compute. exact I.
  - apply (bool_decide_unpack _). vm_compute. exact I.
Defined.

Lemma value_counts_lookup (l : list string) (k : string) :
  default 0%nat (Pandas.value_counts l !! k) = length (filter (fun x => x = k) l).
Proof.
  induction l as [|x l IH]; [reflexivity|]. cbn [Pandas.value_counts foldr].
  fold (Pandas.value_counts l).
  destruct (decide (x = k)) as [->|Hne].
  - rewrite lookup_insert_eq, filter_cons_True by reflexivity. cbn. rewrite IH. reflexivity.
  - rewrite lookup_insert_ne, filter_cons_False by congruence. exact IH.
Qed.

Lemma filter_map_length {A B : Type} (f : A -> B) (P : B -> Prop)
    `{!forall y, Decision (P y)} (l : list A) :
  length (filter P (map f l)) = length (filter (fun x => P (f x)) l).
Proof.
  induction l as [|x l IH]; [reflexivity|]. cbn [map].
  destruct (decide (P (f x))) as [Hp|Hp].
  - rewrite !filter_cons_True by exact Hp. cbn. rewrite IH. reflexivity.
  - rewrite !filter_cons_False by exact Hp. exact IH.
Qed.

Lemma filter_split_length {A : Type} (P : A -> Prop) `{!forall y, Decision (P y)}
    (l : list A) :
  (length (filter P l) + length (filter (fun x => ~ P x) l) = length l)%nat.
Proof.
  induction l as [|x l IH]; [reflexivity|].
  destruct (decide (P x)) as [Hp|Hp].
  - rewrite filter_cons_True by exact Hp.
    rewrite (filter_cons_False (fun x => ~ P x)) by tauto. cbn. lia.
  - rewrite filter_cons_False by exact Hp.
    rewrite (filter_cons_True (fun x => ~ P x)) by exact Hp. cbn. lia.
Qed.

(** X5: the statistics returned by [merge_datasets] add up.  The total is
    the HAM count plus the ISIC count; the HAM count is the number of HAM
    rows; the ISIC count is the number of ISIC rows minus those whose id is a
    HAM id; and the class and source distributions give, for every class and
    source, the number of rows of the merged registry that carry it. *)
Theorem X5_merge_statistics_add_up :
  forall (ham : list DataMerger.HamRow) (isic : DataMerger.IsicFrame)
         (master : list DataMerger.Sample) (stats : DataMerger.Stats),
    DataMerger.merge_datasets (Some ham) (Some isic) = Ok (master, stats) ->
    DataMerger.total_images stats = length master
    /\ DataMerger.total_images stats
       = (DataMerger.ham10000_count stats + DataMerger.isic2019_count stats)%nat
    /\ DataMerger.ham10000_count stats = length ham
    /\ (DataMerger.isic2019_count stats
        + length (filter (fun r => DataMerger.isic_image_id r
                                   ∈ map DataMerger.ham_image_id ham)
                    (DataMerger.isic_rows isic))
        = length (DataMerger.isic_rows isic))%nat
    /\ (forall c, default 0%nat (DataMerger.class_distribution stats !! c)
                  = length (filter (fun s => DataMerger.dx s = c) master))
    /\ (forall src, default 0%nat (DataMerger.source_distribution stats !! src)
                    = length (filter (fun s => DataMerger.source s = src) master)).
Proof.
  intros ham isic master stats Hrun.
  apply merge_datasets_inv in Hrun as (-> & Htot & Hham & Hisic & Hcls & Hsrc).
  split; [exact Htot|]. split; [|split; [exact Hham|split; [|split]]].
  - rewrite Htot, Hham, Hisic. unfold merged at 1. rewrite length_app.
    unfold ham_frame. rewrite length_map. reflexivity.
  - rewrite Hisic. unfold DataMerger.remove_duplicates.
    rewrite <- (filter_split_length
                  (fun r => DataMerger.isic_image_id r ∈ map DataMerger.ham_image_id ham)
                  (DataMerger.isic_rows isic)).
    rewrite Nat.add_comm. f_equal.
    unfold isic_frame. rewrite filter_map_length. cbn [DataMerger.image_id].
    f_equal. apply list_filter_iff. intros r.
    rewrite elem_of_list_to_set. unfold ham_frame. rewrite map_map. cbn. reflexivity.
  - intros c. rewrite Hcls, value_counts_lookup. apply filter_map_length.
  - intros src. rewrite Hsrc, value_counts_lookup. apply filter_map_length.
Qed.

Lemma X5_witness :
  let ham := [DataMerger.mkHamRow "ISIC_0024306" "nv";
              DataMerger.mkHamRow "ISIC_0024307" "mel"] in
  let isic := DataMerger.mkIsicFrame isic_2019_columns
                [isic_row_of "ISIC_0024306" (Some "BKL");
                 isic_row_of "ISIC_0000001" (Some "AK")] in
  exists master stats,
    DataMerger.merge_datasets (Some ham) (Some isic) = Ok (master, stats)
    /\ DataMerger.total_images stats = 3%nat
    /\ DataMerger.isic2019_count stats = 1%nat.
Proof.
  intros ham isic.
  assert (Hrun : exists master stats,
            DataMerger.merge_datasets (Some ham) (Some isic) = Ok (master, stats)).
  { eexists _, _. apply merge_datasets_returns; [exact isic_2019_columns_cover | discriminate]. }
  destruct Hrun as (master & stats & Hrun).
  destruct (X5_merge_statistics_add_up ham isic master stats Hrun)
    as (_ & Htot & Hham & Hisic & _).
  exists master, stats. split; [exact Hrun|].
  assert (Hdups : length (filter (fun r => DataMerger.isic_image_id r
                                           ∈ map DataMerger.ham_image_id ham)
                            (DataMerger.isic_rows isic)) = 1%nat)
    by (vm_compute; reflexivity).
  rewrite Hdups in Hisic. cbn in Hisic, Hham. lia.
Defined.

(** ** [compute_class_weights] *)

Section WeightValues.

Variable class_counts : gmap string nat.
Variables total_samples num_classes : nat.
Variable method : string.
Hypothesis classes_nonempty : (0 < num_classes)%nat.

Let loop := Dataloader.weights_loop class_counts total_samples num_classes method.
Let count_of (c : string) : nat := default 0%nat (class_counts !! c).

Lemma beta_power_ne_1 (count : nat) :
  (0 < count)%nat -> ~ (1 - Dataloader.beta ^ Z.of_nat count == 0)%Q.
Proof.
  intros Hc Heq. pose proof (beta_power_lt_1 count Hc) as Hlt.
  set (x := (Dataloader.beta ^ Z.of_nat count)%Q) in *. lra.
Qed.

(** One iteration with a supported method, or with a class without
    samples: the entry at [idx] becomes the weight of the class. *)
Lemma weights_loop_step (diagnosis : string) (idx : Z) (rest : list (string * Z))
    (weights : list Q) (log : list log_record) :
  valid_method method \/ count_of diagnosis = 0%nat ->
  0 <= idx < Z.of_nat (length weights) ->
  exists log1,
    loop ((diagnosis, idx) :: rest) weights log
    = loop rest (<[Z.to_nat idx :=
                    class_weight method total_samples num_classes (count_of diagnosis)]>
                   weights) log1.
Proof.
  intros Hm Hidx. unfold loop. cbn [Dataloader.weights_loop].
  fold (count_of diagnosis). unfold class_weight.
  destruct (Nat.eqb_spec (count_of diagnosis) 0) as [Hz|Hnz].
  - rewrite np_setitem_in_range by exact Hidx. cbn [mbind Result_bind Py.bind].
    eexists. reflexivity.
  - destruct Hm as [[-> | ->]|Hz]; [| |contradiction].
    + change ("inverse_frequency" =? "inverse_frequency")%string with true. cbn match.
      rewrite truediv_Ok by (unfold Qeq; simpl; nia).
      cbn [mbind Result_bind Py.bind].
      rewrite np_setitem_in_range by exact Hidx. cbn [mbind Result_bind Py.bind].
      eexists. reflexivity.
    + change ("effective_number" =? "inverse_frequency")%string with false.
      change ("effective_number" =? "effective_number")%string with true. cbn match.
      rewrite truediv_Ok by (apply beta_power_ne_1; lia).
      cbn [mbind Result_bind Py.bind].
      rewrite np_setitem_in_range by exact Hidx. cbn [mbind Result_bind Py.bind].
      eexists. reflexivity.
Qed.

Lemma weights_loop_values (items : list (string * Z)) :
  forall (weights : list Q) (log : list log_record),
    length weights = num_classes ->
    Forall (in_range num_classes) (map snd items) ->
    NoDup (map snd items) ->
    Forall (fun item => valid_method method \/ count_of (fst item) = 0%nat) items ->
    exists weights' log',
      loop items weights log = Ok (weights', log')
      /\ length weights' = num_classes
      /\ (forall i w, weights !! i = Some w ->
            Z.of_nat i ∉ map snd items -> weights' !! i = Some w)
      /\ (forall c idx, (c, idx) ∈ items ->
            weights' !! Z.to_nat idx
            = Some (class_weight method total_samples num_classes (count_of c))).
Proof.
  induction items as [|[diagnosis idx] rest IH]; intros weights log Hlen Hrange Hnd Hok.
  - exists weights, log. split; [reflexivity|]. split; [exact Hlen|].
    split; [intros i w Hw _; exact Hw|]. intros c idx Hin. inversion Hin.
  - cbn [map snd] in Hrange, Hnd.
    apply Forall_cons in Hrange as [Hidx Hrange]. unfold in_range in Hidx.
    apply NoDup_cons in Hnd as [Hfresh Hnd].
    apply Forall_cons in Hok as [Hhere Hok]. cbn [fst] in Hhere.
    destruct (weights_loop_step diagnosis idx rest weights log Hhere ltac:(lia))
      as [log1 Hstep].
    destruct (IH (<[Z.to_nat idx :=
                     class_weight method total_samples num_classes (count_of diagnosis)]>
                    weights) log1
                ltac:(rewrite length_insert; exact Hlen) Hrange Hnd Hok)
      as (weights' & log' & Hrun & Hlen' & Hkeep & Hval).
    exists weights', log'. rewrite Hstep.
    split; [exact Hrun|]. split; [exact Hlen'|]. split.
    + intros i w Hw Hni. cbn [map snd] in Hni. apply Hkeep.
      * rewrite list_lookup_insert_ne; [exact Hw|].
        intros Heq. apply Hni. rewrite <- Heq, Z2Nat.id by lia. left.
      * intros Hin. apply Hni. right. exact Hin.
    + intros c idx' Hin. apply elem_of_cons in Hin as [[= -> ->]|Hin].
      * apply Hkeep; [apply list_lookup_insert_eq; lia|].
        rewrite Z2Nat.id by lia. exact Hfresh.
      * apply Hval, Hin.
Qed.

End WeightValues.

Lemma compute_class_weights_values (df : list DataMerger.Sample)
    (class_to_idx : list (string * Z)) (method : string) :
  index_mapping class_to_idx ->
  Forall (fun item => valid_method method \/ class_count (fst item) df = 0%nat) class_to_idx ->
  exists weights log,
    Dataloader.compute_class_weights df class_to_idx method = Ok (weights, log)
    /\ length weights = length class_to_idx
    /\ forall c idx, (c, idx) ∈ class_to_idx ->
         weights !! Z.to_nat idx
         = Some (class_weight method (length df) (length class_to_idx) (class_count c df)).
Proof.
  intros [Hnd Hrange] Hok. unfold Dataloader.compute_class_weights.
  assert (Hcount : forall c,
            default 0%nat (Pandas.value_counts (map DataMerger.dx df) !! c)
            = class_count c df).
  { intros c. rewrite value_counts_lookup. apply filter_map_length. }
  destruct class_to_idx as [|item items] eqn:E.
  - exists [], []. split; [reflexivity|]. split; [reflexivity|].
    intros c idx Hin. inversion Hin.
  - rewrite <- E in *.
    destruct (weights_loop_values (Pandas.value_counts (map DataMerger.dx df)) (length df)
                (length class_to_idx) method ltac:(rewrite E; simpl; lia)
                class_to_idx (replicate (length class_to_idx) 0%Q) []
                (length_replicate _ _) Hrange Hnd)
      as (weights & log & Hrun & Hlen & _ & Hval).
    { eapply Forall_impl; [exact Hok|]. intros [c idx]. cbn [fst].
      rewrite Hcount. tauto. }
    exists weights, log. split; [exact Hrun|]. split; [exact Hlen|].
    intros c idx Hin. rewrite (Hval c idx Hin), Hcount. reflexivity.
Qed.

(** X6: with a supported method [compute_class_weights] returns, at the
    index of every class of the mapping that has samples, the weight of the
    documented formula: [total / (num_classes * count)] for
    [inverse_frequency], [(1 - beta) / (1 - beta^count)] with beta = 0.9999
    for [effective_number]. *)
Theorem X6_class_weight_formulas :
  forall (df : list DataMerger.Sample) (class_to_idx : list (string * Z)) (method : string),
    index_mapping class_to_idx ->
    valid_method method ->
    exists weights log,
      Dataloader.compute_class_weights df class_to_idx method = Ok (weights, log)
      /\ forall c idx,
           (c, idx) ∈ class_to_idx -> (0 < class_count c df)%nat ->
           exists w,
             weights !! Z.to_nat idx = Some w
             /\ (method = "inverse_frequency" ->
                 (w == inject_Z (Z.of_nat (length df))
                       / inject_Z (Z.of_nat (length class_to_idx * class_count c df)))%Q)
             /\ (method = "effective_number" ->
                 (w == (1 - (9999 # 10000))
                       / (1 - (9999 # 10000) ^ Z.of_nat (class_count c df)))%Q).
Proof.
  intros df class_to_idx method Hmap Hmethod.
  destruct (compute_class_weights_values df class_to_idx method Hmap) as
    (weights & log & Hrun & _ & Hval).
  { apply Forall_forall. intros item _. left. exact Hmethod. }
  exists weights, log. split; [exact Hrun|].
  intros c idx Hin Hpos. eexists. split; [apply (Hval c idx Hin)|].
  unfold class_weight. destruct (Nat.eqb_spec (class_count c df) 0) as [Hz|_]; [lia|].
  split; intros ->.
  - change ("inverse_frequency" =? "inverse_frequency")%string with true. cbn match.
    rewrite Nat2Z.inj_mul. reflexivity.
  - change ("effective_number" =? "inverse_frequency")%string with false. cbn match.
    reflexivity.
Qed.

Lemma small_mapping : index_mapping [("df", 0); ("mel", 1); ("nv", 2)].
Proof.
  split.
  - apply (bool_decide_unpack _). vm_compute. exact I.
  - unfold in_range. repeat constructor; simpl; lia.
Defined.

Lemma X6_witness :
  let df := [sample_of "ISIC_1" "nv"; sample_of "ISIC_2" "nv"; sample_of "ISIC_3" "mel"] in
  exists weights log w,
    Dataloader.compute_class_weights df [("df", 0); ("mel", 1); ("nv", 2)]
      "inverse_frequency" = Ok (weights, log)
    /\ weights !! 2%nat = Some w /\ (w == 1 # 2)%Q.
Proof.
  intros df.
  destruct (X6_class_weight_formulas df [("df", 0); ("mel", 1); ("nv", 2)]
              "inverse_frequency" small_mapping (or_introl eq_refl))
    as (weights & log & Hrun & Hval).
  destruct (Hval "nv" 2) as (w & Hw & Hinv & _).
  - right. right. left.
  - vm_compute. lia.
  - exists weights, log, w. split; [exact Hrun|]. split; [exact Hw|].
    rewrite (Hinv eq_refl). vm_compute. reflexivity.
Defined.

(** X7: on a perfectly balanced registry (every class of the mapping has
    [total / num_classes] samples) [inverse_frequency] gives every class the
    weight 1.0. *)
Theorem X7_balanced_registry_has_unit_weights :
  forall (df : list DataMerger.Sample) (class_to_idx : list (string * Z)),
    index_mapping class_to_idx ->
    (forall c idx, (c, idx) ∈ class_to_idx ->
       (0 < class_count c df)%nat
       /\ (class_count c df * length class_to_idx = length df)%nat) ->
    exists weights log,
      Dataloader.compute_class_weights df class_to_idx "inverse_frequency"
      = Ok (weights, log)
      /\ length weights = length class_to_idx
      /\ forall w, w ∈ weights -> (w == 1)%Q.
Proof.
  intros df class_to_idx Hmap Hbal.
  destruct (compute_class_weights_values df class_to_idx "inverse_frequency" Hmap) as
    (weights & log & Hrun & Hlen & Hval).
  { apply Forall_forall. intros item _. left. left. reflexivity. }
  exists weights, log. split; [exact Hrun|]. split; [exact Hlen|].
  intros w Hw. apply list_elem_of_lookup in Hw as [i Hi].
  assert (Hi' : (i < length class_to_idx)%nat) by (rewrite <- Hlen; eapply lookup_lt_Some, Hi).
  (* position [i] is the index of some class, the indices being a
     permutation of the positions *)
  destruct Hmap as [Hnd Hrange].
  assert (Hcover : Z.of_nat i ∈ map snd class_to_idx).
  { assert (Hsub : map snd class_to_idx ⊆ map Z.of_nat (seq 0 (length class_to_idx))).
    { intros z Hz. rewrite Forall_forall in Hrange. specialize (Hrange z Hz).
      unfold in_range in Hrange. apply list_elem_of_fmap. exists (Z.to_nat z).
      split; [lia|]. apply elem_of_seq. lia. }
    assert (Hperm : map snd class_to_idx ≡ₚ map Z.of_nat (seq 0 (length class_to_idx))).
    { apply submseteq_length_Permutation.
      - apply NoDup_submseteq; [exact Hnd | exact Hsub].
      - rewrite !length_map, length_seq. reflexivity. }
    rewrite Hperm. apply list_elem_of_fmap. exists i. split; [reflexivity|].
    apply elem_of_seq. lia. }
  apply list_elem_of_fmap in Hcover as ([c idx] & Hidx & Hin). cbn in Hidx. subst idx.
  specialize (Hval c (Z.of_nat i) Hin). rewrite Nat2Z.id, Hi in Hval.
  injection Hval as ->.
  destruct (Hbal c (Z.of_nat i) Hin) as [Hpos Heq].
  unfold class_weight. destruct (Nat.eqb_spec (class_count c df) 0) as [Hz|_]; [lia|].
  change ("inverse_frequency" =? "inverse_frequency")%string with true. cbn match.
  rewrite <- Nat2Z.inj_mul, <- Heq, Nat.mul_comm.
  apply Qmult_inv_r. unfold Qeq. simpl. nia.
Qed.

Lemma X7_witness :
  let df := [sample_of "ISIC_1" "nv"; sample_of "ISIC_2" "mel";
             sample_of "ISIC_3" "mel"; sample_of "ISIC_4" "nv"] in
  exists weights log,
    Dataloader.compute_class_weights df [("mel", 0); ("nv", 1)] "inverse_frequency"
    = Ok (weights, log)
    /\ length weights = 2%nat
    /\ forall w, w ∈ weights -> (w == 1)%Q.
Proof.
  intros df.
  apply (X7_balanced_registry_has_unit_weights df [("mel", 0); ("nv", 1)]).
  - split.
    + apply (bool_decide_unpack _). vm_compute. exact I.
    + unfold in_range. repeat constructor; simpl; lia.
  - intros c idx Hin. rewrite !elem_of_cons in Hin.
    destruct Hin as [[= -> ->]|[[= -> ->]|Hin]]; [| |inversion Hin];
      vm_compute; split; lia.
Defined.

Lemma beta_power_decreasing (k1 k2 : nat) :
  (k1 < k2)%nat ->
  (Dataloader.beta ^ Z.of_nat k2 < Dataloader.beta ^ Z.of_nat k1)%Q.
Proof.
  intros Hlt.
  assert (Hb0 : (0 < Dataloader.beta)%Q) by reflexivity.
  replace (Z.of_nat k2) with (Z.of_nat (k2 - k1) + Z.of_nat k1) by lia.
  rewrite Qpower_plus by (intros H; rewrite H in Hb0; discriminate).
  pose proof (beta_power_lt_1 (k2 - k1) ltac:(lia)) as H1.
  pose proof (Qpower_0_lt Dataloader.beta (Z.of_nat k1) Hb0) as H2.
  set (x := (Dataloader.beta ^ Z.of_nat (k2 - k1))%Q) in *.
  set (y := (Dataloader.beta ^ Z.of_nat k1)%Q) in *.
  nra.
Qed.

Lemma Qdiv_antitone (t x1 x2 : Q) :
  (0 < t)%Q -> (0 < x1)%Q -> (x1 < x2)%Q -> (t / x2 < t / x1)%Q.
Proof.
  intros Ht Hx1 Hx2.
  assert (Hw : (0 < t / x1)%Q) by (apply Qlt_shift_div_l; [exact Hx1 | lra]).
  assert (He : (t / x1 * x1 == t)%Q) by (field; lra).
  apply Qlt_shift_div_r; [lra|].
  set (w := (t / x1)%Q) in *. nra.
Qed.

(** X8: under either method a class never gets a smaller weight than a
    class with more samples (both having at least one).  On exact numbers
    the rarer class weighs strictly more; in floating point the two
    weights can coincide, so only the order is stated. *)
Theorem X8_rarer_class_weighs_more :
  forall (df : list DataMerger.Sample) (class_to_idx : list (string * Z)) (method : string),
    index_mapping class_to_idx ->
    valid_method method ->
    exists weights log,
      Dataloader.compute_class_weights df class_to_idx method = Ok (weights, log)
      /\ forall c1 idx1 c2 idx2 w1 w2,
           (c1, idx1) ∈ class_to_idx -> (c2, idx2) ∈ class_to_idx ->
           (0 < class_count c1 df < class_count c2 df)%nat ->
           weights !! Z.to_nat idx1 = Some w1 ->
           weights !! Z.to_nat idx2 = Some w2 ->
           (w2 <= w1)%Q.
Proof.
  intros df class_to_idx method Hmap Hmethod.
  destruct (compute_class_weights_values df class_to_idx method Hmap) as
    (weights & log & Hrun & _ & Hval).
  { apply Forall_forall. intros item _. left. exact Hmethod. }
  exists weights, log. split; [exact Hrun|].
  intros c1 idx1 c2 idx2 w1 w2 Hin1 Hin2 [Hpos Hlt] Hw1 Hw2.
  rewrite (Hval c1 idx1 Hin1) in Hw1. rewrite (Hval c2 idx2 Hin2) in Hw2.
  injection Hw1 as <-. injection Hw2 as <-.
  assert (Hdf : (0 < length df)%nat).
  { unfold class_count in Hpos. destruct df; [simpl in Hpos; lia | simpl; lia]. }
  assert (Hn : (0 < length class_to_idx)%nat).
  { destruct class_to_idx; [inversion Hin1 | simpl; lia]. }
  apply Qlt_le_weak. unfold class_weight.
  destruct (Nat.eqb_spec (class_count c1 df) 0) as [Hz|_]; [lia|].
  destruct (Nat.eqb_spec (class_count c2 df) 0) as [Hz|_]; [lia|].
  destruct Hmethod as [-> | ->].
  - change ("inverse_frequency" =? "inverse_frequency")%string with true. cbn match.
    apply Qdiv_antitone.
    + change 0%Q with (inject_Z 0). rewrite <- Zlt_Qlt. lia.
    + change 0%Q with (inject_Z 0). rewrite <- Zlt_Qlt. nia.
    + rewrite <- Zlt_Qlt. nia.
  - change ("effective_number" =? "inverse_frequency")%string with false. cbn match.
    pose proof (beta_power_decreasing _ _ Hlt) as Hdec.
    pose proof (beta_power_lt_1 _ Hpos) as H1.
    apply Qdiv_antitone; [reflexivity | lra | lra].
Qed.

Lemma X8_witness :
  let df := [sample_of "ISIC_1" "nv"; sample_of "ISIC_2" "nv"; sample_of "ISIC_3" "mel"] in
  exists weights log w1 w2,
    Dataloader.compute_class_weights df [("df", 0); ("mel", 1); ("nv", 2)]
      "effective_number" = Ok (weights, log)
    /\ weights !! 1%nat = Some w1 /\ weights !! 2%nat = Some w2 /\ (w2 <= w1)%Q.
Proof.
  intros df.
  destruct (X8_rarer_class_weighs_more df [("df", 0); ("mel", 1); ("nv", 2)]
              "effective_number" small_mapping (or_intror eq_refl))
    as (weights & log & Hrun & Hlt).
  assert (Hlen : length weights = 3%nat).
  { destruct (compute_class_weights_values df [("df", 0); ("mel", 1); ("nv", 2)]
                "effective_number" small_mapping)
      as (weights' & log' & Hrun' & Hlen' & _).
    { apply Forall_forall. intros item _. left. right. reflexivity. }
    rewrite Hrun in Hrun'. injection Hrun' as -> ->. exact Hlen'. }
  destruct weights as [|w0 [|w1 [|w2 [|w3 rest]]]]; try discriminate Hlen.
  exists [w0; w1; w2], log, w1, w2.
  split; [exact Hrun|]. split; [reflexivity|]. split; [reflexivity|].
  apply (Hlt "mel" 1 "nv" 2 w1 w2).
  - right. left.
  - right. right. left.
  - vm_compute. lia.
  - reflexivity.
  - reflexivity.
Defined.

(** The indices of a mapping cover every position of the weight vector. *)
Lemma index_mapping_cover (class_to_idx : list (string * Z)) (i : nat) :
  index_mapping class_to_idx ->
  (i < length class_to_idx)%nat ->
  exists c, (c, Z.of_nat i) ∈ class_to_idx.
Proof.
  intros [Hnd Hrange] Hi.
  assert (Hsub : map snd class_to_idx ⊆ map Z.of_nat (seq 0 (length class_to_idx))).
  { intros z Hz. rewrite Forall_forall in Hrange. specialize (Hrange z Hz).
    unfold in_range in Hrange. apply list_elem_of_fmap. exists (Z.to_nat z).
    split; [lia|]. apply elem_of_seq. lia. }
  assert (Hperm : map snd class_to_idx ≡ₚ map Z.of_nat (seq 0 (length class_to_idx))).
  { apply submseteq_length_Permutation.
    - apply NoDup_submseteq; [exact Hnd | exact Hsub].
    - rewrite !length_map, length_seq. reflexivity. }
  assert (Hcover : Z.of_nat i ∈ map snd class_to_idx).
  { rewrite Hperm. apply list_elem_of_fmap. exists i. split; [reflexivity|].
    apply elem_of_seq. lia. }
  apply list_elem_of_fmap in Hcover as ([c idx] & Hidx & Hin). cbn in Hidx. subst idx.
  exists c. exact Hin.
Qed.

(** With a method that is not supported the loop raises at the first class
    that has samples. *)
Lemma weights_loop_unknown (class_counts : gmap string nat) (total_samples num_classes : nat)
    (method : string) (items : list (string * Z)) :
  ~ valid_method method ->
  Forall (in_range num_classes) (map snd items) ->
  Exists (fun item => default 0%nat (class_counts !! fst item) <> 0%nat) items ->
  forall (weights : list Q) (log : list log_record),
    length weights = num_classes ->
    Dataloader.weights_loop class_counts total_samples num_classes method items weights log
    = Raise (ValueError "Unknown weighting method").
Proof.
  intros Hm. induction items as [|[diagnosis idx] rest IH]; intros Hrange Hex weights log Hlen.
  - inversion Hex.
  - cbn [map snd] in Hrange. apply Forall_cons in Hrange as [Hidx Hrange].
    unfold in_range in Hidx. cbn [Dataloader.weights_loop].
    destruct (Nat.eqb_spec (default 0%nat (class_counts !! diagnosis)) 0) as [Hz|Hnz].
    + rewrite np_setitem_in_range by lia. cbn [mbind Result_bind Py.bind].
      apply Exists_cons in Hex as [Hhere|Hlater]; [cbn [fst] in Hhere; contradiction|].
      apply IH; [exact Hrange | exact Hlater | rewrite length_insert; exact Hlen].
    + destruct (String.eqb_spec method "inverse_frequency") as [->|_].
      { exfalso. apply Hm. left. reflexivity. }
      destruct (String.eqb_spec method "effective_number") as [->|_].
      { exfalso. apply Hm. right. reflexivity. }
      reflexivity.
Qed.

(** X9: with a method other than the two supported ones,
    [compute_class_weights] raises a ValueError as soon as one class of the
    mapping has samples; when no class of the mapping has any, the method
    is never looked at and the result is the weight 1.0 for every class. *)
Theorem X9_unknown_method_raises_only_with_samples :
  forall (df : list DataMerger.Sample) (class_to_idx : list (string * Z)) (method : string),
    index_mapping class_to_idx ->
    ~ valid_method method ->
    ((exists c idx, (c, idx) ∈ class_to_idx /\ (0 < class_count c df)%nat) ->
       exists msg,
         Dataloader.compute_class_weights df class_to_idx method = Raise (ValueError msg))
    /\ ((forall c idx, (c, idx) ∈ class_to_idx -> class_count c df = 0%nat) ->
       exists weights log,
         Dataloader.compute_class_weights df class_to_idx method = Ok (weights, log)
         /\ length weights = length class_to_idx
         /\ forall w, w ∈ weights -> w = 1%Q).
Proof.
  intros df class_to_idx method Hmap Hm.
  assert (Hcount : forall c,
            default 0%nat (Pandas.value_counts (map DataMerger.dx df) !! c)
            = class_count c df).
  { intros c. rewrite value_counts_lookup. apply filter_map_length. }
  split.
  - intros (c & idx & Hin & Hpos). eexists.
    unfold Dataloader.compute_class_weights.
    apply weights_loop_unknown.
    + exact Hm.
    + apply Hmap.
    + apply Exists_exists. exists (c, idx). split; [exact Hin|].
      cbn [fst]. rewrite Hcount. lia.
    + apply length_replicate.
  - intros Hzero.
    destruct (compute_class_weights_values df class_to_idx method Hmap) as
      (weights & log & Hrun & Hlen & Hval).
    { apply Forall_forall. intros [c idx] Hin. right. exact (Hzero c idx Hin). }
    exists weights, log. split; [exact Hrun|]. split; [exact Hlen|].
    intros w Hw. apply list_elem_of_lookup in Hw as [i Hi].
    assert (Hi' : (i < length class_to_idx)%nat)
      by (rewrite <- Hlen; eapply lookup_lt_Some, Hi).
    destruct (index_mapping_cover class_to_idx i Hmap Hi') as [c Hin].
    specialize (Hval c (Z.of_nat i) Hin). rewrite Nat2Z.id, Hi in Hval.
    injection Hval as ->. rewrite (Hzero c (Z.of_nat i) Hin). reflexivity.
Qed.

Lemma X9_witness :
  (exists msg,
     Dataloader.compute_class_weights [sample_of "ISIC_1" "nv"] [("mel", 0); ("nv", 1)]
       "focal" = Raise (ValueError msg))
  /\ (exists weights log,
        Dataloader.compute_class_weights [sample_of "ISIC_1" "bcc"] [("mel", 0); ("nv", 1)]
          "focal" = Ok (weights, log)
        /\ length weights = 2%nat
        /\ forall w, w ∈ weights -> w = 1%Q).
Proof.
  assert (Hmap : index_mapping [("mel", 0); ("nv", 1)]).
  { split.
    - apply (bool_decide_unpack _). vm_compute. exact I.
    - unfold in_range. repeat constructor; simpl; lia. }
  assert (Hm : ~ valid_method "focal") by (intros [H|H]; discriminate H).
  split.
  - apply (X9_unknown_method_raises_only_with_samples
             [sample_of "ISIC_1" "nv"] [("mel", 0); ("nv", 1)] "focal" Hmap Hm).
    exists "nv", 1. split; [right; left | vm_compute; lia].
  - apply (X9_unknown_method_raises_only_with_samples
             [sample_of "ISIC_1" "bcc"] [("mel", 0); ("nv", 1)] "focal" Hmap Hm).
    intros c idx Hin. rewrite !elem_of_cons in Hin.
    destruct Hin as [[= -> ->]|[[= -> ->]|Hin]]; [| |inversion Hin]; reflexivity.
Defined.

Lemma class_sampling_weight_constant (c : string) (g : DataMerger.Sample -> Q) (q : Q)
    (l : list DataMerger.Sample) :
  (forall r, DataMerger.dx r = c -> g r = q) ->
  (class_sampling_weight c l (map g l) == inject_Z (Z.of_nat (class_count c l)) * q)%Q.
Proof.
  intros Hg. unfold class_sampling_weight, class_count.
  induction l as [|r l IH]; [reflexivity|]. cbn [map zip zip_with].
  destruct (decide (DataMerger.dx r = c)) as [Hc|Hc].
  - rewrite filter_cons_True by exact Hc.
    rewrite (filter_cons_True (fun s => DataMerger.dx s = c)) by exact Hc.
    cbn [map snd sumQ foldr length]. fold (sumQ (map snd
      (filter (fun p => DataMerger.dx (fst p) = c) (zip l (map g l))))).
    unfold zip in IH. rewrite IH, (Hg r Hc), Nat2Z.inj_succ. unfold Z.succ.
    rewrite inject_Z_plus. ring.
  - rewrite filter_cons_False by exact Hc.
    rewrite (filter_cons_False (fun s => DataMerger.dx s = c)) by exact Hc.
    exact IH.
Qed.

Lemma class_count_pos (c : string) (df : list DataMerger.Sample) :
  c ∈ map DataMerger.dx df -> (0 < class_count c df)%nat.
Proof.
  intros Hin. apply list_elem_of_fmap in Hin as (r & -> & Hr).
  unfold class_count.
  assert (Hf : r ∈ filter (fun s => DataMerger.dx s = DataMerger.dx r) df).
  { apply list_elem_of_filter. split; [reflexivity | exact Hr]. }
  destruct (filter _ df); [inversion Hf | simpl; lia].
Qed.

(** X10: on a non-empty table [create_weighted_sampler] never fails on the
    dictionary lookup: it returns a sampler with replacement that draws as
    many samples as there are rows, each row weighing the inverse of the
    size of its class, so that the rows of every class present weigh 1 in
    total (each class is as likely to be drawn as any other). *)
Theorem X10_sampler_balances_classes :
  forall (df : list DataMerger.Sample) (class_to_idx : list (string * Z)),
    df <> [] ->
    exists sampler,
      Dataloader.create_weighted_sampler df class_to_idx = Ok sampler
      /\ Dataloader.num_samples sampler = length df
      /\ Dataloader.replacement sampler = true
      /\ Dataloader.sampler_weights sampler
         = map (fun row =>
                  (1 / inject_Z (Z.of_nat (class_count (DataMerger.dx row) df)))%Q) df
      /\ forall c, c ∈ map DataMerger.dx df ->
           (class_sampling_weight c df (Dataloader.sampler_weights sampler) == 1)%Q.
Proof.
  intros df class_to_idx Hne. unfold Dataloader.create_weighted_sampler.
  set (g := fun row : DataMerger.Sample =>
              (1 / inject_Z (Z.of_nat (class_count (DataMerger.dx row) df)))%Q).
  assert (Hcount : forall c,
            default 0%nat (Pandas.value_counts (map DataMerger.dx df) !! c)
            = class_count c df).
  { intros c. rewrite value_counts_lookup. apply filter_map_length. }
  rewrite (mapM_Ok _ (fun d => (1 / inject_Z (Z.of_nat (class_count d df)))%Q)).
  2:{ intros d Hd. pose proof (class_count_pos d df Hd) as Hpos.
      specialize (Hcount d).
      destruct (Pandas.value_counts (map DataMerger.dx df) !! d) as [count|] eqn:E.
      - change (default 0%nat (Some count)) with count in Hcount. subst count.
        apply truediv_Ok. unfold Qeq. simpl. lia.
      - simpl in Hcount. lia. }
  cbn [mbind Result_bind Py.bind]. unfold Dataloader.WeightedRandomSampler_init.
  rewrite !length_map.
  destruct (Nat.eqb_spec (length df) 0) as [Hz|_].
  { destruct df; [congruence | discriminate Hz]. }
  eexists. split; [reflexivity|]. cbn.
  split; [reflexivity|]. split; [reflexivity|].
  rewrite map_map. fold g. split; [reflexivity|].
  intros c Hc. pose proof (class_count_pos c df Hc) as Hpos.
  rewrite (class_sampling_weight_constant c g
             (1 / inject_Z (Z.of_nat (class_count c df)))%Q).
  - field. unfold Qeq. simpl. lia.
  - intros r <-. reflexivity.
Qed.

Lemma X10_witness :
  let df := [sample_of "ISIC_1" "nv"; sample_of "ISIC_2" "nv"; sample_of "ISIC_3" "mel"] in
  exists sampler,
    Dataloader.create_weighted_sampler df [("mel", 0); ("nv", 1)] = Ok sampler
    /\ Dataloader.num_samples sampler = 3%nat
    /\ Dataloader.replacement sampler = true
    /\ Dataloader.sampler_weights sampler
       = map (fun row =>
                (1 / inject_Z (Z.of_nat (class_count (DataMerger.dx row) df)))%Q) df
    /\ forall c, c ∈ map DataMerger.dx df ->
         (class_sampling_weight c df (Dataloader.sampler_weights sampler) == 1)%Q.
Proof.
  intros df.
  apply (X10_sampler_balances_classes df [("mel", 0); ("nv", 1)]).
  discriminate.
Defined.

(** ** [EarlyStopping] *)

Lemma Qltb_false (x y : Q) : Qltb x y = false <-> (y <= x)%Q.
Proof.
  unfold Qltb. rewrite negb_false_iff. apply Qle_bool_iff.
Qed.

Section Patience.

Import Trainer.

Variables (p : Z) (d : Q) (m : string) (v : Q).

(** The object after the baseline [v] and [k] calls without improvement. *)
Let waiting (k : Z) : EarlyStopping :=
  {| patience := p; min_delta := d; mode := m; counter := k; best_value := Some v;
     should_stop := (0 <? k) && (k >=? p) |}.

Let stalls (x : Q) : Prop :=
  (m = "max" /\ (x <= v + d)%Q) \/ (m <> "max" /\ (v - d <= x)%Q).

Lemma waiting_call (k : Z) (x : Q) :
  0 <= k -> stalls x ->
  EarlyStopping_call (waiting k) x = (k + 1 >=? p, waiting (k + 1)).
Proof.
  intros Hk Hx. unfold EarlyStopping_call, waiting.
  cbn [best_value mode min_delta counter patience should_stop].
  assert (Himp : (if (m =? "max")%string then Qgtb x (v + d) else Qltb x (v - d)) = false).
  { destruct Hx as [[-> Hle]|[Hne Hle]].
    - change ("max" =? "max")%string with true. cbn match. apply Qgtb_false, Hle.
    - destruct (String.eqb_spec m "max") as [->|_]; [congruence|].
      apply Qltb_false, Hle. }
  rewrite Himp.
  assert (Hflag : (if k + 1 >=? p then true else (0 <? k) && (k >=? p)) = (k + 1 >=? p)).
  { destruct (k + 1 >=? p) eqn:E; [reflexivity|].
    assert (Hk' : (k >=? p) = false) by lia. rewrite Hk'. apply andb_false_r. }
  assert (Hflag' : (0 <? k + 1) && (k + 1 >=? p) = (k + 1 >=? p)).
  { assert (Hpos : (0 <? k + 1) = true) by lia. rewrite Hpos. reflexivity. }
  cbv zeta. rewrite Hflag, Hflag'. reflexivity.
Qed.

Lemma waiting_feed (vs : list Q) : forall k : Z,
  0 <= k -> (forall x, x ∈ vs -> stalls x) ->
  fst (EarlyStopping_feed (waiting k) vs)
  = map (fun j => Z.of_nat j + k >=? p) (seq 1 (length vs)).
Proof.
  induction vs as [|x vs IH]; intros k Hk Hall; [reflexivity|].
  cbn [EarlyStopping_feed]. rewrite waiting_call by (try lia; apply Hall; left).
  specialize (IH (k + 1) ltac:(lia) (fun y Hy => Hall y (list_elem_of_further _ _ _ Hy))).
  destruct (EarlyStopping_feed (waiting (k + 1)) vs) as [rs es'] eqn:E.
  cbn [fst] in IH |- *. rewrite IH. cbn [length seq map].
  f_equal; [f_equal; lia|].
  rewrite <- (seq_shift (length vs) 1), map_map. apply map_ext. intros j. f_equal. lia.
Qed.

Lemma first_call_waits :
  EarlyStopping_call (EarlyStopping_init (Some p) (Some d) (Some m)) v = (false, waiting 0).
Proof. reflexivity. Qed.

End Patience.

(** X11: after the first value (the baseline, always answered False), the
    k-th call in a row whose value is no better than the baseline answers
    True exactly when k has reached the patience, for every non-negative
    [min_delta]; any mode other than 'max' is treated as 'min'. *)
Theorem X11_patience_counts_calls_without_improvement :
  forall (p : Z) (d : Q) (m : string) (v : Q) (vs : list Q),
    (0 <= d)%Q ->
    (m = "max" /\ (forall x, x ∈ vs -> (x <= v)%Q))
    \/ (m <> "max" /\ (forall x, x ∈ vs -> (v <= x)%Q)) ->
    fst (Trainer.EarlyStopping_feed
           (Trainer.EarlyStopping_init (Some p) (Some d) (Some m)) (v :: vs))
    = false :: map (fun k => Z.of_nat k >=? p) (seq 1 (length vs)).
Proof.
  intros p d m v vs Hd Hstall. cbn [Trainer.EarlyStopping_feed].
  rewrite first_call_waits.
  pose proof (waiting_feed p d m v vs 0 ltac:(lia)) as Hfeed.
  destruct (Trainer.EarlyStopping_feed _ vs) as [rs es'] eqn:E.
  cbn [fst] in Hfeed |- *. rewrite Hfeed.
  - f_equal. apply map_ext. intros j. f_equal. lia.
  - intros x Hx. destruct Hstall as [[Hm Hall]|[Hm Hall]];
      [left | right]; (split; [exact Hm | specialize (Hall x Hx); lra]).
Qed.

Lemma X11_witness :
  fst (Trainer.EarlyStopping_feed
         (Trainer.EarlyStopping_init (Some 2) (Some (1 # 100)%Q) (Some "max"))
         [(70 # 100)%Q; (70 # 100)%Q; (60 # 100)%Q; (65 # 100)%Q])
  = [false; false; true; true].
Proof.
  apply (X11_patience_counts_calls_without_improvement 2 (1 # 100)%Q "max" (70 # 100)%Q
           [(70 # 100)%Q; (60 # 100)%Q; (65 # 100)%Q]).
  - vm_compute. discriminate.
  - left. split; [reflexivity|].
    intros x Hx. rewrite !elem_of_cons in Hx.
    destruct Hx as [->|[->|[->|Hx]]]; [| | |inversion Hx]; vm_compute; discriminate.
Defined.

Lemma stopped_call (es : Trainer.EarlyStopping) (x : Q) :
  Trainer.should_stop es = true -> Trainer.best_value es <> None ->
  fst (Trainer.EarlyStopping_call es x) = true
  /\ Trainer.should_stop (snd (Trainer.EarlyStopping_call es x)) = true
  /\ Trainer.best_value (snd (Trainer.EarlyStopping_call es x)) <> None.
Proof.
  intros Hstop Hbest. unfold Trainer.EarlyStopping_call.
  destruct (Trainer.best_value es) as [best|] eqn:Eb; [|congruence].
  destruct (if (Trainer.mode es =? "max")%string then _ else _); cbn.
  - rewrite Hstop. repeat split; discriminate.
  - rewrite Hstop. destruct (_ >=? _); repeat split; discriminate.
Qed.

(** X12: the stop flag is never reset: once a call has set it, every later
    call answers True, also for a value that improves on the best one. *)
Theorem X12_stop_flag_is_never_reset :
  forall (es : Trainer.EarlyStopping) (values : list Q),
    Trainer.should_stop es = true ->
    Trainer.best_value es <> None ->
    fst (Trainer.EarlyStopping_feed es values) = replicate (length values) true
    /\ Trainer.should_stop (snd (Trainer.EarlyStopping_feed es values)) = true.
Proof.
  intros es values. revert es.
  induction values as [|x values IH]; intros es Hstop Hbest.
  - split; [reflexivity | exact Hstop].
  - cbn [Trainer.EarlyStopping_feed].
    destruct (stopped_call es x Hstop Hbest) as (Hr & Hs & Hb).
    destruct (Trainer.EarlyStopping_call es x) as [r es1]. cbn [fst snd] in Hr, Hs, Hb.
    destruct (IH es1 Hs Hb) as [Hrs Hfin].
    destruct (Trainer.EarlyStopping_feed es1 values) as [rs es2]. cbn [fst snd] in *.
    subst r rs. split; [reflexivity | exact Hfin].
Qed.

Lemma X12_witness :
  let es := snd (Trainer.EarlyStopping_feed
                   (Trainer.EarlyStopping_init (Some 1) (Some 0%Q) (Some "max"))
                   [(1 # 2)%Q; (1 # 2)%Q]) in
  fst (Trainer.EarlyStopping_feed es [(9 # 10)%Q; (1 # 10)%Q]) = [true; true]
  /\ Trainer.should_stop (snd (Trainer.EarlyStopping_feed es [(9 # 10)%Q; (1 # 10)%Q])) = true.
Proof.
  intros es.
  apply (X12_stop_flag_is_never_reset es [(9 # 10)%Q; (1 # 10)%Q]).
  - reflexivity.
  - discriminate.
Defined.

(** ** [Trainer.train] *)

Lemma EarlyStopping_feed_snoc (es : Trainer.EarlyStopping) (vs : list Q) (v : Q) :
  Trainer.EarlyStopping_feed es (vs ++ [v])%list
  = (fst (Trainer.EarlyStopping_feed es vs)
       ++ [fst (Trainer.EarlyStopping_call (snd (Trainer.EarlyStopping_feed es vs)) v)],
     snd (Trainer.EarlyStopping_call (snd (Trainer.EarlyStopping_feed es vs)) v))%list.
Proof.
  revert es. induction vs as [|x vs IH]; intros es; cbn [Trainer.EarlyStopping_feed app].
  - cbn [fst snd app]. destruct (Trainer.EarlyStopping_call es v) as [r es']. reflexivity.
  - destruct (Trainer.EarlyStopping_call es x) as [r es1]. rewrite IH.
    destruct (Trainer.EarlyStopping_feed es1 vs) as [rs es2]. cbn [fst snd].
    destruct (Trainer.EarlyStopping_call es2 v) as [r' es3]. reflexivity.
Qed.

Lemma EarlyStopping_call_flag (es : Trainer.EarlyStopping) (v : Q) :
  fst (Trainer.EarlyStopping_call es v) = true ->
  Trainer.should_stop (snd (Trainer.EarlyStopping_call es v)) = true.
Proof.
  unfold Trainer.EarlyStopping_call.
  destruct (Trainer.best_value es) as [best|]; [|discriminate].
  destruct (if (Trainer.mode es =? "max")%string then _ else _); cbn; intros H; exact H.
Qed.

Lemma EarlyStopping_feed_length (vs : list Q) : forall es,
  length (fst (Trainer.EarlyStopping_feed es vs)) = length vs.
Proof.
  induction vs as [|x vs IH]; intros es; cbn [Trainer.EarlyStopping_feed]; [reflexivity|].
  destruct (Trainer.EarlyStopping_call es x) as [r es1]. specialize (IH es1).
  destruct (Trainer.EarlyStopping_feed es1 vs) as [rs es2]. cbn in *. lia.
Qed.

Section TrainState.

Import Trainer.

Variable validate : nat -> Metrics.
Variable name : string.
Variable es0 : EarlyStopping.

Let bal (e : nat) : Q := balanced_accuracy (validate e).
Let mel (e : nat) : Q := mel_sensitivity (validate e).
Let latest : string := name ++ "_latest.pth".
Let best : string := name ++ "_best.pth".

(** A write of epoch [e < k]: the file, and the payload taken from the
    epoch's metrics. *)
Definition write_ok (k : nat) (w : string * Checkpoint) : Prop :=
  (fst w = latest \/ fst w = best)
  /\ (ck_epoch (snd w) < k)%nat
  /\ ck_model_name (snd w) = name
  /\ ck_metrics (snd w) = validate (ck_epoch (snd w))
  /\ ck_val_balanced_acc (snd w) = bal (ck_epoch (snd w))
  /\ ck_val_mel_sensitivity (snd w) = mel (ck_epoch (snd w)).

(** The trainer between two iterations, [k] epochs done. *)
Record train_state (k : nat) (t : Trainer) : Prop := {
  ts_name : model_name t = name;
  ts_acc : history_val_balanced_acc t = map bal (seq 0 k);
  ts_mel : history_val_mel_sensitivity t = map mel (seq 0 k);
  ts_es : early_stopping t = snd (EarlyStopping_feed es0 (map bal (seq 0 k)));
  ts_writes : Forall (write_ok k) (saved t);
  ts_latest : match on_disk t latest with
              | None => k = 0%nat
              | Some ck => S (ck_epoch ck) = k
              end;
  ts_best : match on_disk t best with
            | None => best_val_balanced_acc t = 0%Q /\ forall e, (e < k)%nat -> (bal e <= 0)%Q
            | Some ck =>
                best_val_balanced_acc t = bal (ck_epoch ck)
                /\ (0 < best_val_balanced_acc t)%Q
                /\ (forall e, (e < k)%nat -> (bal e <= best_val_balanced_acc t)%Q)
                /\ (forall e, (e < ck_epoch ck)%nat -> (bal e < best_val_balanced_acc t)%Q)
            end
}.

Lemma latest_ne_best : latest <> best.
Proof.
  unfold latest, best. intros H. apply String.eqb_eq in H.
  rewrite append_eqb_cancel in H. discriminate H.
Qed.

Lemma write_ok_mono (k : nat) (w : string * Checkpoint) :
  write_ok k w -> write_ok (S k) w.
Proof. unfold write_ok. intros (H1 & H2 & H3). repeat split; try tauto. lia. Qed.

Lemma on_disk_app (t : Trainer) (extra : list (string * Checkpoint)) path hb hm es b :
  on_disk {| model_name := model_name t; num_epochs := num_epochs t;
             early_stopping := es; best_val_balanced_acc := b;
             history_val_balanced_acc := hb; history_val_mel_sensitivity := hm;
             saved := (saved t ++ extra)%list |} path
  = match last (map snd (filter (fun w => fst w = path) extra)) with
    | Some ck => Some ck
    | None => on_disk t path
    end.
Proof.
  unfold on_disk. cbn [saved]. rewrite filter_app, map_app.
  destruct (map snd (filter (fun w => fst w = path) extra)) as [|c l] eqn:E using rev_ind.
  - rewrite app_nil_r. reflexivity.
  - rewrite app_assoc, !last_snoc. reflexivity.
Qed.

Lemma epoch_body_state (k : nat) (t : Trainer) :
  train_state k t -> train_state (S k) (fst (epoch_body validate t k)).
Proof.
  intros [Hname Hacc Hmel Hes Hwrites Hlatest Hbest].
  pose proof latest_ne_best as Hne.
  unfold epoch_body.
  destruct (EarlyStopping_call (early_stopping t) (balanced_accuracy (validate k)))
    as [stop es'] eqn:Ecall.
  cbn [fst]. fold (bal k). fold (mel k).
  set (ck := {| ck_epoch := k; ck_model_name := model_name t;
                ck_val_balanced_acc := bal k;
                ck_val_mel_sensitivity := mel k;
                ck_metrics := validate k |}).
  assert (Hck : forall path, path = latest \/ path = best -> write_ok (S k) (path, ck)).
  { intros path Hpath. unfold write_ok. cbn. repeat split; try tauto; try lia. }
  split.
  - exact Hname.
  - cbn [history_val_balanced_acc]. rewrite Hacc, seq_S, map_app. reflexivity.
  - cbn [history_val_mel_sensitivity]. rewrite Hmel, seq_S, map_app. reflexivity.
  - cbn [early_stopping]. rewrite seq_S, map_app. cbn [map]. rewrite EarlyStopping_feed_snoc.
    cbn [snd].
    change (0 + k)%nat with k. rewrite <- Hes. unfold bal. rewrite Ecall. reflexivity.
  - cbn [saved]. apply Forall_app. split.
    + eapply Forall_impl; [exact Hwrites | apply write_ok_mono].
    + unfold _save_checkpoint, latest_path, best_path. rewrite Hname. fold latest best ck.
      destruct (Qgtb (bal k) (best_val_balanced_acc t));
        repeat constructor; apply Hck; tauto.
  - rewrite on_disk_app. unfold _save_checkpoint, latest_path, best_path.
    rewrite Hname. fold latest best ck.
    destruct (Qgtb (bal k) (best_val_balanced_acc t)).
    + rewrite filter_cons_True by reflexivity.
      rewrite filter_cons_False by (cbn; congruence). reflexivity.
    + rewrite filter_cons_True by reflexivity. reflexivity.
  - rewrite on_disk_app. unfold _save_checkpoint, latest_path, best_path.
    rewrite Hname. fold latest best ck.
    rewrite filter_cons_False by (cbn; congruence).
    cbn [best_val_balanced_acc].
    destruct (Qgtb (bal k) (best_val_balanced_acc t)) eqn:Eb.
    + apply Qgtb_true in Eb.
      rewrite filter_cons_True by reflexivity. cbn [filter map last snd ck_epoch].
      change (last [ck]) with (Some ck). cbn [ck_epoch ck].
      assert (Hold : (0 <= best_val_balanced_acc t)%Q
                     /\ forall e, (e < k)%nat -> (bal e <= best_val_balanced_acc t)%Q).
      { destruct (on_disk t best) as [ck0|].
        - destruct Hbest as (_ & Hpos & Hall & _). split; [lra | exact Hall].
        - destruct Hbest as [Hz Hall]. rewrite Hz. split; [lra | exact Hall]. }
      destruct Hold as [H0 Hall].
      split; [reflexivity|]. split; [lra|]. split.
      * intros e He. destruct (decide (e = k)) as [->|Hek]; [lra|].
        specialize (Hall e ltac:(lia)). lra.
      * intros e He. specialize (Hall e He). lra.
    + apply Qgtb_false in Eb. cbn [filter map last].
      change (last (map snd (filter (fun w : string * Checkpoint => fst w = best) [])))
        with (@None Checkpoint).
      destruct (on_disk t best) as [ck0|].
      * destruct Hbest as (Heq & Hpos & Hall & Hfirst).
        split; [exact Heq|]. split; [exact Hpos|]. split; [|exact Hfirst].
        intros e He. destruct (decide (e = k)) as [->|Hek]; [exact Eb|].
        apply Hall. lia.
      * destruct Hbest as [Hz Hall]. split; [exact Hz|].
        intros e He. destruct (decide (e = k)) as [->|Hek]; [rewrite Hz in Eb; exact Eb|].
        apply Hall. lia.
Qed.

(** The flag the early-stopping object returned in epoch [e]. *)
Let flag (e : nat) : bool :=
  fst (EarlyStopping_call (snd (EarlyStopping_feed es0 (map bal (seq 0 e)))) (bal e)).

Lemma epoch_body_flag (k : nat) (t : Trainer) :
  train_state k t -> snd (epoch_body validate t k) = flag k.
Proof.
  intros Hst. unfold epoch_body, flag. rewrite <- (ts_es _ _ Hst). unfold bal.
  destruct (EarlyStopping_call (early_stopping t) (balanced_accuracy (validate k)))
    as [stop es']. reflexivity.
Qed.

Lemma train_loop_state (m : nat) : forall (k : nat) (t : Trainer),
  train_state k t ->
  (forall e, (e < k)%nat -> flag e = false) ->
  exists k', (k <= k' <= k + m)%nat
    /\ train_state k' (train_loop validate (seq k m) t)
    /\ (forall e, (S e < k')%nat -> flag e = false)
    /\ ((k' < k + m)%nat -> (0 < k')%nat /\ flag (k' - 1) = true).
Proof.
  induction m as [|m IH]; intros k t Hst Hflags; cbn [seq train_loop].
  - exists k. split; [lia|]. split; [exact Hst|]. split; [|lia].
    intros e He. apply Hflags. lia.
  - pose proof (epoch_body_state k t Hst) as Hstep.
    pose proof (epoch_body_flag k t Hst) as Hflag.
    destruct (epoch_body validate t k) as [t' stop]. cbn [fst snd] in Hstep, Hflag.
    destruct stop.
    + exists (S k). split; [lia|]. split; [exact Hstep|]. split.
      * intros e He. apply Hflags. lia.
      * intros _. split; [lia|]. replace (S k - 1)%nat with k by lia. symmetry. exact Hflag.
    + destruct (IH (S k) t' Hstep) as (k' & Hk' & Hst' & Hpre & Hstop).
      { intros e He. destruct (decide (e = k)) as [->|Hek]; [symmetry; exact Hflag|].
        apply Hflags. lia. }
      exists k'. split; [lia|]. split; [exact Hst'|]. split; [exact Hpre|].
      intros Hlt. apply Hstop. lia.
Qed.

End TrainState.

Lemma train_state_init (validate : nat -> Trainer.Metrics) (n : nat) (p : Z) (name : string) :
  train_state validate name (Trainer.EarlyStopping_init (Some p) None (Some "max")) 0
    (Trainer.Trainer_init n p name).
Proof.
  split; try reflexivity.
  - constructor.
  - cbn. split; [reflexivity|]. intros e He. lia.
Qed.

Lemma train_final_state (validate : nat -> Trainer.Metrics) (n : nat) (p : Z) (name : string) :
  let es0 := Trainer.EarlyStopping_init (Some p) None (Some "max") in
  let t := Trainer.train validate (Trainer.Trainer_init n p name) in
  let flag := fun e =>
    fst (Trainer.EarlyStopping_call
           (snd (Trainer.EarlyStopping_feed es0
                   (map (fun e => Trainer.balanced_accuracy (validate e)) (seq 0 e))))
           (Trainer.balanced_accuracy (validate e))) in
  exists k, (k <= n)%nat
    /\ train_state validate name es0 k t
    /\ (forall e, (S e < k)%nat -> flag e = false)
    /\ ((k < n)%nat -> (0 < k)%nat /\ flag (k - 1)%nat = true).
Proof.
  intros es0 t flag.
  destruct (train_loop_state validate name es0 n 0 (Trainer.Trainer_init n p name)
              (train_state_init validate n p name)) as (k & Hk & Hst & Hpre & Hstop).
  { intros e He. lia. }
  exists k. split; [lia|]. split; [exact Hst|]. split; [exact Hpre|].
  intros Hlt. apply Hstop. lia.
Qed.

Lemma EarlyStopping_feed_lookup (es0 : Trainer.EarlyStopping) (f : nat -> Q) (k : nat) :
  forall e, (e < k)%nat ->
    fst (Trainer.EarlyStopping_feed es0 (map f (seq 0 k))) !! e
    = Some (fst (Trainer.EarlyStopping_call
                   (snd (Trainer.EarlyStopping_feed es0 (map f (seq 0 e)))) (f e))).
Proof.
  induction k as [|k IH]; intros e He; [lia|].
  rewrite seq_S, map_app. cbn [map]. rewrite EarlyStopping_feed_snoc. cbn [fst].
  change (0 + k)%nat with k.
  pose proof (EarlyStopping_feed_length (map f (seq 0 k)) es0) as Hlen.
  rewrite length_map, length_seq in Hlen.
  destruct (decide (e = k)) as [->|Hne].
  - rewrite lookup_app_r by lia. rewrite Hlen, Nat.sub_diag. reflexivity.
  - rewrite lookup_app_l by lia. apply IH. lia.
Qed.

Lemma on_disk_write (t : Trainer.Trainer) (path : string) (ck : Trainer.Checkpoint) :
  on_disk t path = Some ck -> (path, ck) ∈ Trainer.saved t.
Proof.
  unfold on_disk. intros H. apply last_Some_elem_of in H.
  apply list_elem_of_fmap in H as ([path' ck'] & Hck & Hin). cbn in Hck. subst ck'.
  apply list_elem_of_filter in Hin as [Hpath Hin]. cbn in Hpath. subst path'. exact Hin.
Qed.

(** X13: [train] appends one history entry per epoch it runs; it runs the
    epochs in order and at most [num_epochs] of them; the early-stopping
    object has seen exactly the recorded balanced accuracies and answered
    False in every epoch but the last; and when fewer than [num_epochs]
    epochs ran, its answer in the last epoch was True. *)
Theorem X13_train_stops_only_by_early_stopping :
  forall (validate : nat -> Trainer.Metrics) (n : nat) (p : Z) (name : string),
    let t := Trainer.train validate (Trainer.Trainer_init n p name) in
    let es0 := Trainer.EarlyStopping_init (Some p) None (Some "max") in
    let answers := fst (Trainer.EarlyStopping_feed es0 (Trainer.history_val_balanced_acc t)) in
    (Trainer.epochs_run t <= n)%nat
    /\ Trainer.history_val_balanced_acc t
       = map (fun e => Trainer.balanced_accuracy (validate e)) (seq 0 (Trainer.epochs_run t))
    /\ Trainer.history_val_mel_sensitivity t
       = map (fun e => Trainer.mel_sensitivity (validate e)) (seq 0 (Trainer.epochs_run t))
    /\ Trainer.early_stopping t
       = snd (Trainer.EarlyStopping_feed es0 (Trainer.history_val_balanced_acc t))
    /\ (forall e, (S e < Trainer.epochs_run t)%nat -> answers !! e = Some false)
    /\ ((Trainer.epochs_run t < n)%nat ->
        answers !! (Trainer.epochs_run t - 1)%nat = Some true
        /\ Trainer.should_stop (Trainer.early_stopping t) = true).
Proof.
  intros validate n p name t es0 answers.
  destruct (train_final_state validate n p name) as (k & Hk & Hst & Hpre & Hstop).
  fold t es0 in Hst, Hpre, Hstop.
  assert (Hrun : Trainer.epochs_run t = k).
  { unfold Trainer.epochs_run. rewrite (ts_acc _ _ _ _ _ Hst), length_map, length_seq.
    reflexivity. }
  unfold answers. rewrite Hrun, (ts_acc _ _ _ _ _ Hst).
  split; [exact Hk|]. split; [reflexivity|].
  split; [exact (ts_mel _ _ _ _ _ Hst)|].
  split; [exact (ts_es _ _ _ _ _ Hst)|]. split.
  - intros e He. rewrite EarlyStopping_feed_lookup by lia. f_equal. apply Hpre, He.
  - intros Hlt. destruct (Hstop Hlt) as [Hpos Hflag]. split.
    + rewrite EarlyStopping_feed_lookup by lia. f_equal. exact Hflag.
    + rewrite (ts_es _ _ _ _ _ Hst).
      destruct k as [|k]; [lia|]. replace (S k - 1)%nat with k in Hflag by lia.
      rewrite seq_S, map_app. cbn [map]. rewrite EarlyStopping_feed_snoc. cbn [snd].
      apply EarlyStopping_call_flag. exact Hflag.
Qed.

Lemma X13_witness :
  let validate := metrics_of [60 # 100; 60 # 100; 60 # 100; 70 # 100]%Q in
  let t := Trainer.train validate (Trainer.Trainer_init 4 2 "resnet50") in
  Trainer.epochs_run t = 3%nat
  /\ fst (Trainer.EarlyStopping_feed (Trainer.EarlyStopping_init (Some 2) None (Some "max"))
            (Trainer.history_val_balanced_acc t)) !! 2%nat = Some true
  /\ Trainer.should_stop (Trainer.early_stopping t) = true.
Proof.
  intros validate t.
  assert (Hrun : Trainer.epochs_run t = 3%nat) by (vm_compute; reflexivity).
  split; [exact Hrun|].
  destruct (X13_train_stops_only_by_early_stopping validate 4 2 "resnet50")
    as (_ & _ & _ & _ & _ & Hstop).
  fold t in Hstop. rewrite Hrun in Hstop. apply Hstop. lia.
Defined.

(** X14: the best-checkpoint file after [train].  If it was never written,
    no epoch had a balanced accuracy above 0.0 and the trainer's best value
    is still 0.0.  Otherwise it holds the metrics of the first epoch that
    reached the highest balanced accuracy of the run, and that accuracy is
    the trainer's best value. *)
Theorem X14_best_file_holds_first_maximum :
  forall (validate : nat -> Trainer.Metrics) (n : nat) (p : Z) (name : string),
    let t := Trainer.train validate (Trainer.Trainer_init n p name) in
    let bal := fun e => Trainer.balanced_accuracy (validate e) in
    match on_disk t (Trainer.best_path t) with
    | None =>
        Trainer.best_val_balanced_acc t = 0%Q
        /\ forall e, (e < Trainer.epochs_run t)%nat -> (bal e <= 0)%Q
    | Some ck =>
        (Trainer.ck_epoch ck < Trainer.epochs_run t)%nat
        /\ Trainer.ck_metrics ck = validate (Trainer.ck_epoch ck)
        /\ Trainer.ck_val_balanced_acc ck = Trainer.best_val_balanced_acc t
        /\ (0 < Trainer.best_val_balanced_acc t)%Q
        /\ (forall e, (e < Trainer.epochs_run t)%nat ->
              (bal e <= Trainer.best_val_balanced_acc t)%Q)
        /\ (forall e, (e < Trainer.ck_epoch ck)%nat ->
              (bal e < Trainer.best_val_balanced_acc t)%Q)
    end.
Proof.
  intros validate n p name t bal.
  destruct (train_final_state validate n p name) as (k & Hk & Hst & _).
  fold t in Hst.
  assert (Hrun : Trainer.epochs_run t = k).
  { unfold Trainer.epochs_run. rewrite (ts_acc _ _ _ _ _ Hst), length_map, length_seq.
    reflexivity. }
  pose proof (ts_best _ _ _ _ _ Hst) as Hbest.
  pose proof (ts_writes _ _ _ _ _ Hst) as Hwrites.
  unfold Trainer.best_path. rewrite (ts_name _ _ _ _ _ Hst), Hrun.
  destruct (on_disk t (name ++ "_best.pth")) as [ck|] eqn:Edisk; [|exact Hbest].
  apply on_disk_write in Edisk. rewrite Forall_forall in Hwrites.
  destruct (Hwrites _ Edisk) as (_ & Hlt & _ & Hmetrics & Hacc & _). cbn [fst snd] in *.
  destruct Hbest as (Heq & Hpos & Hall & Hfirst).
  split; [exact Hlt|]. split; [exact Hmetrics|].
  split; [rewrite Hacc, Heq; reflexivity|].
  split; [exact Hpos|]. split; [exact Hall | exact Hfirst].
Qed.

Lemma X14_witness :
  let validate := metrics_of [60 # 100; 65 # 100; 65 # 100; 50 # 100]%Q in
  let t := Trainer.train validate (Trainer.Trainer_init 4 5 "resnet50") in
  exists ck,
    on_disk t (Trainer.best_path t) = Some ck
    /\ Trainer.ck_epoch ck = 1%nat
    /\ Trainer.ck_val_balanced_acc ck = Trainer.best_val_balanced_acc t
    /\ forall e, (e < Trainer.epochs_run t)%nat ->
         (Trainer.balanced_accuracy (validate e) <= Trainer.best_val_balanced_acc t)%Q.
Proof.
  intros validate t.
  pose proof (X14_best_file_holds_first_maximum validate 4 5 "resnet50") as H.
  fold t in H. cbv zeta in H.
  destruct (on_disk t (Trainer.best_path t)) as [ck|] eqn:E; [|vm_compute in E; discriminate E].
  exists ck. split; [reflexivity|].
  destruct H as (_ & _ & Hacc & _ & Hall & _).
  split; [vm_compute in E; injection E as <-; reflexivity|].
  split; [exact Hacc | exact Hall].
Defined.

(** X15: [train] writes only the two checkpoint files of its model, each
    write carrying the model name and the metrics of the epoch it is
    stamped with; after the run the latest-checkpoint file holds the last
    epoch that ran (it is absent only when no epoch ran). *)
Theorem X15_latest_file_holds_last_epoch :
  forall (validate : nat -> Trainer.Metrics) (n : nat) (p : Z) (name : string),
    let t := Trainer.train validate (Trainer.Trainer_init n p name) in
    (forall path ck, (path, ck) ∈ Trainer.saved t ->
       (path = Trainer.latest_path t \/ path = Trainer.best_path t)
       /\ (Trainer.ck_epoch ck < Trainer.epochs_run t)%nat
       /\ Trainer.ck_model_name ck = name
       /\ Trainer.ck_metrics ck = validate (Trainer.ck_epoch ck)
       /\ Trainer.ck_val_balanced_acc ck
          = Trainer.balanced_accuracy (validate (Trainer.ck_epoch ck))
       /\ Trainer.ck_val_mel_sensitivity ck
          = Trainer.mel_sensitivity (validate (Trainer.ck_epoch ck)))
    /\ match on_disk t (Trainer.latest_path t) with
       | None => Trainer.epochs_run t = 0%nat
       | Some ck =>
           S (Trainer.ck_epoch ck) = Trainer.epochs_run t
           /\ Trainer.ck_metrics ck = validate (Trainer.ck_epoch ck)
       end.
Proof.
  intros validate n p name t.
  destruct (train_final_state validate n p name) as (k & Hk & Hst & _).
  fold t in Hst.
  assert (Hrun : Trainer.epochs_run t = k).
  { unfold Trainer.epochs_run. rewrite (ts_acc _ _ _ _ _ Hst), length_map, length_seq.
    reflexivity. }
  pose proof (ts_latest _ _ _ _ _ Hst) as Hlatest.
  pose proof (ts_writes _ _ _ _ _ Hst) as Hwrites. rewrite Forall_forall in Hwrites.
  unfold Trainer.latest_path, Trainer.best_path. rewrite (ts_name _ _ _ _ _ Hst), Hrun.
  split.
  - intros path ck Hin. exact (Hwrites _ Hin).
  - destruct (on_disk t (name ++ "_latest.pth")) as [ck|] eqn:Edisk; [|exact Hlatest].
    split; [exact Hlatest|].
    apply on_disk_write in Edisk.
    destruct (Hwrites _ Edisk) as (_ & _ & _ & Hmetrics & _). exact Hmetrics.
Qed.

Lemma X15_witness :
  let validate := metrics_of [60 # 100; 60 # 100; 60 # 100; 70 # 100]%Q in
  let t := Trainer.train validate (Trainer.Trainer_init 4 2 "resnet50") in
  exists ck,
    on_disk t (Trainer.latest_path t) = Some ck
    /\ Trainer.ck_epoch ck = 2%nat
    /\ Trainer.ck_metrics ck = validate 2%nat.
Proof.
  intros validate t.
  destruct (X15_latest_file_holds_last_epoch validate 4 2 "resnet50") as [_ H].
  fold t in H.
  destruct (on_disk t (Trainer.latest_path t)) as [ck|] eqn:E; [|vm_compute in H; discriminate H].
  exists ck. split; [reflexivity|]. destruct H as [Hep Hm].
  assert (Hck : Trainer.ck_epoch ck = 2%nat).
  { assert (Hrun : Trainer.epochs_run t = 3%nat) by (vm_compute; reflexivity).
    rewrite Hrun in Hep. lia. }
  split; [exact Hck|]. rewrite Hm, Hck. reflexivity.
Defined.

(** ** [MetricsCalculator] *)

Lemma list_index_spec (x : string) (l : list string) :
  match Metrics.list_index x l with
  | Some i => l !! i = Some x /\ forall j, (j < i)%nat -> l !! j <> Some x
  | None => x ∉ l
  end.
Proof.
  induction l as [|y l IH]; cbn [Metrics.list_index]; [apply not_elem_of_nil|].
  destruct (String.eqb_spec y x) as [->|Hne].
  - split; [reflexivity | intros j Hj; lia].
  - destruct (Metrics.list_index x l) as [i|]; cbn.
    + destruct IH as [Hi Hbefore]. split; [exact Hi|].
      intros [|j] Hj; cbn; [congruence | apply Hbefore; lia].
    + rewrite not_elem_of_cons. split; [congruence | exact IH].
Qed.

(** X16: [MetricsCalculator.__init__] sets [melanoma_idx] to the first
    position of ['mel'] in the class names, and to 4 when the class names
    do not contain ['mel'], whatever their number. *)
Theorem X16_melanoma_index :
  forall (class_names : list string),
    let self := Metrics.MetricsCalculator_init class_names in
    Metrics.class_names self = class_names
    /\ ("mel" ∈ class_names ->
        class_names !! Metrics.melanoma_idx self = Some "mel"
        /\ forall j, (j < Metrics.melanoma_idx self)%nat -> class_names !! j <> Some "mel")
    /\ ("mel" ∉ class_names -> Metrics.melanoma_idx self = 4%nat).
Proof.
  intros class_names self. split; [reflexivity|].
  unfold self, Metrics.MetricsCalculator_init. cbn [Metrics.melanoma_idx].
  pose proof (list_index_spec "mel" class_names) as Hspec.
  destruct (Metrics.list_index "mel" class_names) as [i|]; cbn [default].
  - split; [intros _; exact Hspec | intros Hnot].
    destruct Hspec as [Hi _]. exfalso. apply Hnot. eapply list_elem_of_lookup_2, Hi.
  - split; [intros Hin; contradiction | intros _; reflexivity].
Qed.

Lemma X16_witness :
  Metrics.melanoma_idx (Metrics.MetricsCalculator_init ["nv"; "mel"; "bcc"]) = 1%nat
  /\ Metrics.melanoma_idx (Metrics.MetricsCalculator_init ["benign"; "malignant"]) = 4%nat.
Proof.
  split.
  - destruct (X16_melanoma_index ["nv"; "mel"; "bcc"]) as (_ & Hin & _).
    reflexivity.
  - apply (X16_melanoma_index ["benign"; "malignant"]).
    apply (bool_decide_unpack _). vm_compute. exact I.
Defined.

Section ComputeOutcome.

Variable balanced_accuracy_score : list Z -> list Z -> Result Q.
Variable classification_report :
  list Z -> list Z -> list string -> Result (gmap string (gmap string Q)).
Variable roc_auc_score_ovr_macro : list Z -> list (list Q) -> Result Q.
Variable roc_auc_score : list Z -> list Q -> Result Q.

Let standard_metrics := Metrics.standard_metrics balanced_accuracy_score classification_report.
Let auc_block := Metrics.auc_block roc_auc_score_ovr_macro roc_auc_score.
Let compute :=
  Metrics.compute balanced_accuracy_score classification_report
    roc_auc_score_ovr_macro roc_auc_score.

Lemma standard_metrics_report (self : Metrics.MetricsCalculator)
    (all_preds all_labels : list Z) (metrics : gmap string Q) :
  standard_metrics self all_preds all_labels = Ok metrics ->
  exists report,
    classification_report all_labels all_preds (Metrics.class_names self) = Ok report
    /\ metrics !! "mel_sensitivity"
       = Some (default 0%Q (default ∅ (report !! "mel") !! "recall")).
Proof.
  unfold standard_metrics, Metrics.standard_metrics. intros H.
  apply bind_Ok_inv in H as (balanced_acc & _ & H).
  apply bind_Ok_inv in H as (report & Hreport & H).
  exists report. split; [exact Hreport|].
  repeat (apply bind_Ok_inv in H as [? [_ H]]).
  injection H as <-.
  rewrite lookup_insert_ne by discriminate.
  rewrite lookup_insert_ne by discriminate.
  apply lookup_insert_eq.
Qed.

Lemma auc_block_other (self : Metrics.MetricsCalculator) (all_labels : list Z)
    (all_probs : list (list Q)) (metrics : gmap string Q) (k : string) :
  k <> "auc_roc_macro" -> k <> "auc_roc_melanoma" ->
  fst (auc_block self all_labels all_probs metrics) !! k = metrics !! k.
Proof.
  intros Hk1 Hk2. unfold auc_block, Metrics.auc_block.
  destruct (roc_auc_score_ovr_macro all_labels all_probs) as [macro|e1]; cbn [fst];
    [|reflexivity].
  destruct (_ ≫= _) as [auc|e2]; cbn [fst].
  - rewrite lookup_insert_ne by congruence. apply lookup_insert_ne. congruence.
  - apply lookup_insert_ne. congruence.
Qed.

Lemma auc_block_returned (self : Metrics.MetricsCalculator) (all_labels : list Z)
    (all_probs : list (list Q)) (metrics : gmap string Q) :
  snd (auc_block self all_labels all_probs metrics) = None ->
  is_Some (fst (auc_block self all_labels all_probs metrics) !! "auc_roc_macro")
  /\ is_Some (fst (auc_block self all_labels all_probs metrics) !! "auc_roc_melanoma").
Proof.
  unfold auc_block, Metrics.auc_block.
  destruct (roc_auc_score_ovr_macro all_labels all_probs) as [macro|e1]; cbn [fst snd];
    [|discriminate].
  destruct (_ ≫= _) as [auc|e2]; cbn [fst snd]; [|discriminate].
  intros _. split.
  - rewrite lookup_insert_ne by discriminate. rewrite lookup_insert_eq. eexists. reflexivity.
  - rewrite lookup_insert_eq. eexists. reflexivity.
Qed.

(** What [compute] does once the standard block has returned [metrics0]. *)
Lemma compute_returns (self : Metrics.MetricsCalculator) (all_preds all_labels : list Z)
    (all_probs : list (list Q)) (metrics0 : gmap string Q) :
  standard_metrics self all_preds all_labels = Ok metrics0 ->
  exists metrics log sens,
    compute self all_preds all_labels all_probs = Ok (metrics, log)
    /\ is_Some (metrics !! "auc_roc_macro")
    /\ is_Some (metrics !! "auc_roc_melanoma")
    /\ (forall k, k <> "auc_roc_macro" -> k <> "auc_roc_melanoma" ->
          metrics !! k = metrics0 !! k)
    /\ metrics0 !! "mel_sensitivity" = Some sens
    /\ log = if Qltb sens (85 # 100) then [Metrics.safety_alert] else [].
Proof.
  intros Hstd.
  destruct (standard_metrics_mel_sensitivity _ _ _ _ _ _ Hstd) as [sens Hsens].
  unfold compute, Metrics.compute.
  fold standard_metrics. rewrite Hstd. cbn [mbind Result_bind Py.bind].
  fold auc_block.
  pose proof (auc_block_other self all_labels all_probs metrics0) as Hother.
  pose proof (auc_block_returned self all_labels all_probs metrics0) as Hret.
  destruct (auc_block self all_labels all_probs metrics0) as [metrics1 raised].
  cbn [fst snd] in Hother, Hret.
  destruct raised as [e|].
  - set (metrics := <["auc_roc_melanoma" := 0%Q]> (<["auc_roc_macro" := 0%Q]> metrics1)).
    assert (Hkeep : forall k, k <> "auc_roc_macro" -> k <> "auc_roc_melanoma" ->
                      metrics !! k = metrics0 !! k).
    { intros k Hk1 Hk2. unfold metrics.
      rewrite lookup_insert_ne by congruence.
      rewrite lookup_insert_ne by congruence.
      apply Hother; assumption. }
    unfold Metrics.getitem. rewrite Hkeep by discriminate. rewrite Hsens.
    cbn [mbind Result_bind Py.bind].
    eexists _, _, sens. split; [reflexivity|]. split; [|split; [|split; [exact Hkeep|]]].
    + unfold metrics. rewrite lookup_insert_ne by discriminate.
      rewrite lookup_insert_eq. eexists. reflexivity.
    + unfold metrics. rewrite lookup_insert_eq. eexists. reflexivity.
    + split; reflexivity.
  - unfold Metrics.getitem. rewrite Hother by discriminate. rewrite Hsens.
    cbn [mbind Result_bind Py.bind].
    destruct (Hret eq_refl) as [Hm1 Hm2].
    eexists _, _, sens. split; [reflexivity|].
    split; [exact Hm1|]. split; [exact Hm2|]. split; [exact Hother|].
    split; reflexivity.
Qed.

Lemma compute_raises (self : Metrics.MetricsCalculator) (all_preds all_labels : list Z)
    (all_probs : list (list Q)) (e : exn) :
  standard_metrics self all_preds all_labels = Raise e ->
  compute self all_preds all_labels all_probs = Raise e.
Proof.
  intros Hstd. unfold compute, Metrics.compute. fold standard_metrics.
  rewrite Hstd. reflexivity.
Qed.

End ComputeOutcome.

(** X17: [compute] fails only where its standard block (balanced accuracy,
    classification report, F1 entries) fails, and then with the same
    exception; otherwise it returns a dictionary that has both AUC entries,
    whatever the AUC functions do, and every other entry as the standard
    block computed it. *)
Theorem X17_compute_fails_only_in_standard_block :
  forall (balanced_accuracy_score : list Z -> list Z -> Result Q)
         (classification_report :
            list Z -> list Z -> list string -> Result (gmap string (gmap string Q)))
         (roc_auc_score_ovr_macro : list Z -> list (list Q) -> Result Q)
         (roc_auc_score : list Z -> list Q -> Result Q)
         (self : Metrics.MetricsCalculator) (all_preds all_labels : list Z)
         (all_probs : list (list Q)),
    match Metrics.standard_metrics balanced_accuracy_score classification_report
            self all_preds all_labels with
    | Raise e =>
        Metrics.compute balanced_accuracy_score classification_report
          roc_auc_score_ovr_macro roc_auc_score self all_preds all_labels all_probs
        = Raise e
    | Ok metrics0 =>
        exists metrics log,
          Metrics.compute balanced_accuracy_score classification_report
            roc_auc_score_ovr_macro roc_auc_score self all_preds all_labels all_probs
          = Ok (metrics, log)
          /\ is_Some (metrics !! "auc_roc_macro")
          /\ is_Some (metrics !! "auc_roc_melanoma")
          /\ forall k, k <> "auc_roc_macro" -> k <> "auc_roc_melanoma" ->
               metrics !! k = metrics0 !! k
    end.
Proof.
  intros bas cr ovr bin self preds labels probs.
  destruct (Metrics.standard_metrics bas cr self preds labels) as [metrics0|e] eqn:Hstd.
  - destruct (compute_returns bas cr ovr bin self preds labels probs metrics0 Hstd)
      as (metrics & log & sens & Hrun & Hm1 & Hm2 & Hkeep & _).
    exists metrics, log. repeat split; assumption.
  - apply compute_raises, Hstd.
Qed.

Lemma X17_witness :
  let self := Metrics.MetricsCalculator_init Metrics.CLASS_NAMES in
  exists metrics log,
    Metrics.compute sk_balanced_accuracy_score sk_classification_report
      sk_roc_auc_score_ovr_macro sk_roc_auc_score self batch_preds batch_labels
      (one_hot_probs 8 batch_preds)
    = Ok (metrics, log)
    /\ is_Some (metrics !! "auc_roc_macro")
    /\ is_Some (metrics !! "auc_roc_melanoma").
Proof.
  intros self.
  pose proof (X17_compute_fails_only_in_standard_block sk_balanced_accuracy_score
                sk_classification_report sk_roc_auc_score_ovr_macro sk_roc_auc_score
                self batch_preds batch_labels (one_hot_probs 8 batch_preds)) as H.
  destruct (Metrics.standard_metrics sk_balanced_accuracy_score sk_classification_report
              self batch_preds batch_labels) as [metrics0|e] eqn:Hstd;
    [|vm_compute in Hstd; discriminate Hstd].
  destruct H as (metrics & log & Hrun & Hm1 & Hm2 & _).
  exists metrics, log. split; [exact Hrun|]. split; [exact Hm1 | exact Hm2].
Defined.

(** X18: whenever [compute] returns, its [mel_sensitivity] entry is the
    recall of the report's ['mel'] entry, 0.0 when the report has no such
    entry or the entry has no recall; the safety alert is logged when that
    value is below 0.85 and nothing is logged otherwise. *)
Theorem X18_safety_alert_iff_low_sensitivity :
  forall (balanced_accuracy_score : list Z -> list Z -> Result Q)
         (classification_report :
            list Z -> list Z -> list string -> Result (gmap string (gmap string Q)))
         (roc_auc_score_ovr_macro : list Z -> list (list Q) -> Result Q)
         (roc_auc_score : list Z -> list Q -> Result Q)
         (self : Metrics.MetricsCalculator) (all_preds all_labels : list Z)
         (all_probs : list (list Q)) (metrics : gmap string Q) (log : list log_record),
    Metrics.compute balanced_accuracy_score classification_report
      roc_auc_score_ovr_macro roc_auc_score self all_preds all_labels all_probs
    = Ok (metrics, log) ->
    exists report sens,
      classification_report all_labels all_preds (Metrics.class_names self) = Ok report
      /\ sens = default 0%Q (default ∅ (report !! "mel") !! "recall")
      /\ metrics !! "mel_sensitivity" = Some sens
      /\ ((sens < 85 # 100)%Q -> log = [Metrics.safety_alert])
      /\ ((85 # 100 <= sens)%Q -> log = []).
Proof.
  intros bas cr ovr bin self preds labels probs metrics log Hrun.
  destruct (Metrics.standard_metrics bas cr self preds labels) as [metrics0|e] eqn:Hstd.
  2:{ rewrite (compute_raises bas cr ovr bin self preds labels probs e Hstd) in Hrun.
      discriminate Hrun. }
  destruct (compute_returns bas cr ovr bin self preds labels probs metrics0 Hstd)
    as (metrics' & log' & sens & Hrun' & _ & _ & Hkeep & Hsens & Hlog).
  rewrite Hrun in Hrun'. injection Hrun' as <- <-.
  destruct (standard_metrics_report bas cr self preds labels metrics0 Hstd)
    as (report & Hreport & Hrecall).
  rewrite Hsens in Hrecall. injection Hrecall as Hrecall.
  exists report, sens. split; [exact Hreport|]. split; [exact Hrecall|].
  split; [rewrite Hkeep by discriminate; exact Hsens|].
  destruct (Qltb sens (85 # 100)) eqn:E.
  - split; [intros _; exact Hlog|].
    intros Hge. apply Qltb_false in Hge. congruence.
  - apply Qltb_false in E. split; [|intros _; exact Hlog].
    intros Hlt. exfalso. apply (Qlt_not_le _ _ Hlt E).
Qed.

Lemma X18_witness :
  let self := Metrics.MetricsCalculator_init Metrics.CLASS_NAMES in
  exists metrics,
    Metrics.compute sk_balanced_accuracy_score sk_classification_report
      sk_roc_auc_score_ovr_macro sk_roc_auc_score self batch_preds batch_labels
      (one_hot_probs 8 batch_preds)
    = Ok (metrics, [Metrics.safety_alert])
    /\ metrics !! "mel_sensitivity" = Some (1 # 2)%Q.
Proof.
  intros self.
  destruct (Metrics.compute sk_balanced_accuracy_score sk_classification_report
              sk_roc_auc_score_ovr_macro sk_roc_auc_score self batch_preds batch_labels
              (one_hot_probs 8 batch_preds))
    as [[metrics log]|e] eqn:Hrun; [|vm_compute in Hrun; discriminate Hrun].
  destruct (X18_safety_alert_iff_low_sensitivity _ _ _ _ _ _ _ _ metrics log Hrun)
    as (report & sens & Hreport & Hsens & Hentry & Hlow & _).
  injection Hreport as <-.
  assert (Hval : sens = (1 # 2)%Q) by (rewrite Hsens; vm_compute; reflexivity).
  subst sens. exists metrics. split; [|exact Hentry].
  rewrite (Hlow ltac:(reflexivity)). reflexivity.
Defined.

Lemma column_out_of_range (all_probs : list (list Q)) (j : nat) :
  all_probs <> [] ->
  Forall (fun row => (length row <= j)%nat) all_probs ->
  Metrics.column all_probs j = Raise IndexError.
Proof.
  intros Hne Hshort. destruct all_probs as [|row rest]; [congruence|].
  apply Forall_cons in Hshort as [Hrow _].
  unfold Metrics.column. cbn [mapM].
  rewrite (lookup_ge_None_2 row j) by lia. reflexivity.
Qed.

(** X19: with class names that do not contain ['mel'] and number at most
    four, [melanoma_idx] falls back to 4, past the last probability column:
    on any non-empty batch whose rows have one probability per class the
    AUC block fails and [compute] reports 0.0 for both AUC entries, also
    when the macro AUC itself could be computed. *)
Theorem X19_fallback_index_zeroes_auc :
  forall (balanced_accuracy_score : list Z -> list Z -> Result Q)
         (classification_report :
            list Z -> list Z -> list string -> Result (gmap string (gmap string Q)))
         (roc_auc_score_ovr_macro : list Z -> list (list Q) -> Result Q)
         (roc_auc_score : list Z -> list Q -> Result Q)
         (class_names : list string) (all_preds all_labels : list Z)
         (all_probs : list (list Q)) (metrics0 : gmap string Q),
    "mel" ∉ class_names ->
    (length class_names <= 4)%nat ->
    all_probs <> [] ->
    Forall (fun row => length row = length class_names) all_probs ->
    Metrics.standard_metrics balanced_accuracy_score classification_report
      (Metrics.MetricsCalculator_init class_names) all_preds all_labels = Ok metrics0 ->
    exists metrics log,
      Metrics.compute balanced_accuracy_score classification_report
        roc_auc_score_ovr_macro roc_auc_score
        (Metrics.MetricsCalculator_init class_names) all_preds all_labels all_probs
      = Ok (metrics, log)
      /\ metrics !! "auc_roc_macro" = Some 0%Q
      /\ metrics !! "auc_roc_melanoma" = Some 0%Q.
Proof.
  intros bas cr ovr bin class_names preds labels probs metrics0 Hnomel Hfew Hne Hrows Hstd.
  set (self := Metrics.MetricsCalculator_init class_names) in *.
  assert (Hidx : Metrics.melanoma_idx self = 4%nat).
  { unfold self, Metrics.MetricsCalculator_init. cbn [Metrics.melanoma_idx].
    pose proof (list_index_spec "mel" class_names) as Hspec.
    destruct (Metrics.list_index "mel" class_names) as [i|]; [|reflexivity].
    destruct Hspec as [Hi _]. exfalso. apply Hnomel. eapply list_elem_of_lookup_2, Hi. }
  assert (Hcol : Metrics.column probs (Metrics.melanoma_idx self) = Raise IndexError).
  { rewrite Hidx. apply column_out_of_range; [exact Hne|].
    eapply Forall_impl; [exact Hrows|]. intros row Hrow. cbn in Hrow. lia. }
  assert (Hraised : exists e, snd (Metrics.auc_block ovr bin self labels probs metrics0) = Some e).
  { unfold Metrics.auc_block. destruct (ovr labels probs) as [macro|e].
    - rewrite Hcol. eexists. reflexivity.
    - eexists. reflexivity. }
  destruct Hraised as [e Hraised].
  destruct (compute_auc_failure bas cr ovr bin self preds labels probs metrics0 e Hstd Hraised)
    as (metrics & log & Hrun & Hm1 & Hm2 & _).
  exists metrics, log. split; [exact Hrun|]. split; [exact Hm1 | exact Hm2].
Qed.

Lemma X19_witness :
  exists metrics log,
    Metrics.compute sk_balanced_accuracy_score sk_classification_report
      sk_roc_auc_score_ovr_macro sk_roc_auc_score
      (Metrics.MetricsCalculator_init ["bcc"; "bkl"; "nv"]) [0; 1; 2] [0; 1; 2]
      (one_hot_probs 3 [0; 1; 2])
    = Ok (metrics, log)
    /\ metrics !! "auc_roc_macro" = Some 0%Q
    /\ metrics !! "auc_roc_melanoma" = Some 0%Q
    /\ sk_roc_auc_score_ovr_macro [0; 1; 2] (one_hot_probs 3 [0; 1; 2]) = Ok 1%Q.
Proof.
  assert (Hstd : exists metrics0,
    Metrics.standard_metrics sk_balanced_accuracy_score sk_classification_report
      (Metrics.MetricsCalculator_init ["bcc"; "bkl"; "nv"]) [0; 1; 2] [0; 1; 2] = Ok metrics0).
  { eexists. vm_compute. reflexivity. }
  destruct Hstd as [metrics0 Hstd].
  destruct (X19_fallback_index_zeroes_auc sk_balanced_accuracy_score sk_classification_report
              sk_roc_auc_score_ovr_macro sk_roc_auc_score ["bcc"; "bkl"; "nv"] [0; 1; 2]
              [0; 1; 2] (one_hot_probs 3 [0; 1; 2]) metrics0)
    as (metrics & log & Hrun & Hm1 & Hm2).
  - apply (bool_decide_unpack _). vm_compute. exact I.
  - simpl. lia.
  - discriminate.
  - repeat constructor.
  - exact Hstd.
  - exists metrics, log. split; [exact Hrun|]. split; [exact Hm1|]. split; [exact Hm2|].
    vm_compute. reflexivity.
Defined.

(** ** [StratifiedDataSplitter]: what the stratification guarantees *)

Section Stratification.

Local Open Scope list_scope.

Lemma picked_absent (c : string) (classes : list string) : forall ns,
  c ∉ classes -> picked c classes ns = 0.
Proof.
  induction classes as [|c' classes IH]; intros [|n ns] Hc; try reflexivity.
  apply not_elem_of_cons in Hc as [Hne Hc]. cbn [picked].
  destruct (String.eqb_spec c' c) as [->|_]; [congruence|]. rewrite IH by exact Hc. lia.
Qed.

Lemma picked_lookup (c : string) (classes : list string) : forall (ns : list Z) (i : nat) (n : Z),
  NoDup classes -> classes !! i = Some c -> ns !! i = Some n ->
  picked c classes ns = n.
Proof.
  induction classes as [|c' classes IH]; intros [|n' ns] i n Hnd Hc Hn;
    try (destruct i; discriminate).
  apply NoDup_cons in Hnd as [Hfresh Hnd]. cbn [picked].
  destruct i as [|i]; cbn in Hc, Hn.
  - injection Hc as ->. injection Hn as ->. rewrite String.eqb_refl.
    rewrite picked_absent by exact Hfresh. lia.
  - destruct (String.eqb_spec c' c) as [->|_].
    + exfalso. apply Hfresh. eapply list_elem_of_lookup_2, Hc.
    + rewrite (IH ns i n Hnd Hc Hn). lia.
Qed.

Lemma label_count_app (y : list string) (c : string) (a b : list nat) :
  label_count y c (a ++ b) = (label_count y c a + label_count y c b)%nat.
Proof. unfold label_count. rewrite filter_app, length_app. reflexivity. Qed.

Lemma label_count_Permutation (y : list string) (c : string) (a b : list nat) :
  a ≡ₚ b -> label_count y c a = label_count y c b.
Proof. intros H. unfold label_count. rewrite H. reflexivity. Qed.

Lemma label_count_same (y : list string) (c c' : string) (l : list nat) :
  (forall j, j ∈ l -> y !! j = Some c') ->
  label_count y c l = if String.eqb c' c then length l else 0%nat.
Proof.
  intros Hall. unfold label_count. induction l as [|j l IH].
  - destruct (String.eqb c' c); reflexivity.
  - specialize (IH (fun j' Hj' => Hall j' (list_elem_of_further _ _ _ Hj'))).
    pose proof (Hall j ltac:(left)) as Hj.
    destruct (String.eqb_spec c' c) as [->|Hne].
    + rewrite filter_cons_True by exact Hj. cbn. rewrite IH. reflexivity.
    + rewrite filter_cons_False by (rewrite Hj; congruence). exact IH.
Qed.

Lemma class_indices_from_label (c : string) (y : list string) : forall (k j : nat),
  j ∈ Sklearn.class_indices_from k c y -> (k <= j)%nat /\ y !! (j - k)%nat = Some c.
Proof.
  induction y as [|x y IH]; intros k j Hj; cbn in Hj; [inversion Hj|].
  assert (Hrest : j ∈ Sklearn.class_indices_from (S k) c y ->
                  (k <= j)%nat /\ (x :: y) !! (j - k)%nat = Some c).
  { intros H. destruct (IH (S k) j H) as [Hle Hy]. split; [lia|].
    replace (j - k)%nat with (S (j - S k)) by lia. exact Hy. }
  destruct (String.eqb_spec x c) as [->|_]; [|exact (Hrest Hj)].
  apply elem_of_cons in Hj as [->|Hj]; [|exact (Hrest Hj)].
  split; [lia|]. rewrite Nat.sub_diag. reflexivity.
Qed.

(** The draws of one class go to its block: after the loop the train
    positions of class [c] have grown by the entry of the class in [n_i]. *)
Lemma assign_classes_label_count (G : Sklearn.RandomState) (y : list string) (c : string) :
  lawful G ->
  forall (blocks : list (list nat * (Z * Z))) (classes : list string),
    Forall2 (fun b c' => forall j, j ∈ fst b -> y !! j = Some c') blocks classes ->
    Forall block_ok blocks ->
    forall (train test : list nat) (rng : Sklearn.rs G),
      Z.of_nat (label_count y c (fst (fst (Sklearn.assign_classes G blocks train test rng))))
      = Z.of_nat (label_count y c train)
        + picked c classes (map (fun b => fst (snd b)) blocks).
Proof.
  intros HG blocks classes Hlab.
  induction Hlab as [|[indices [n t]] c' blocks classes Hhere _ IH];
    intros Hok train test rng.
  - cbn [Sklearn.assign_classes fst map picked]. lia.
  - apply Forall_cons in Hok as [Hb Hok].
    destruct Hb as (Hn & Ht & Hlen). cbn [fst snd] in Hn, Ht, Hlen, Hhere.
    cbn [Sklearn.assign_classes].
    pose proof (permutation_law G HG rng (length indices)) as Hp.
    destruct (Sklearn.permutation G rng (length indices)) as [p rng']. cbn [fst] in Hp.
    pose proof (take_clip_Permutation indices p Hp) as Hperm.
    set (pi := Sklearn.take_clip indices p) in *.
    assert (Hpilen : length pi = length indices) by (rewrite Hperm; reflexivity).
    destruct (py_slice_split pi n t Hn Ht ltac:(lia)) as [-> ->].
    rewrite (IH Hok). rewrite label_count_app. cbn [map fst snd picked].
    rewrite (label_count_same y c c' (take (Z.to_nat n) pi)).
    + rewrite length_take. destruct (String.eqb c' c); lia.
    + intros j Hj. apply Hhere. rewrite <- Hperm.
      apply elem_of_take in Hj as (i & Hj & _). eapply list_elem_of_lookup_2, Hj.
Qed.

(** One stratified shuffle split gives every class its exact share of the
    train positions, rounded down or up. *)
Lemma stratified_shuffle_split_class (G : Sklearn.RandomState) (y : list string)
    (n_train n_test random_state : Z) (train test : list nat) (c : string) :
  lawful G ->
  n_train + n_test = Z.of_nat (length y) -> 0 < n_train ->
  Sklearn.stratified_shuffle_split G y n_train n_test random_state = Ok (train, test) ->
  c ∈ y ->
  let k := Z.of_nat (length (List.filter (fun x => String.eqb x c) y)) in
  let r := Z.of_nat (label_count y c train) in
  r = Qfloor (share (Z.of_nat (length y)) n_train k)
  \/ (r = Qfloor (share (Z.of_nat (length y)) n_train k) + 1
      /\ (inject_Z (Qfloor (share (Z.of_nat (length y)) n_train k))
          < share (Z.of_nat (length y)) n_train k)%Q).
Proof.
  intros HG Hsum Htrain Hrun Hc k r. revert Hrun. unfold Sklearn.stratified_shuffle_split.
  set (classes := Sklearn.classes_of y).
  set (cis := map (fun c => Sklearn.class_indices c y) classes).
  set (counts := map (fun ix => Z.of_nat (length ix)) cis).
  destruct (existsb _ counts); [discriminate|].
  destruct (Z.ltb_spec n_train (Z.of_nat (length classes))) as [|Htr]; [discriminate|].
  destruct (Z.ltb_spec n_test (Z.of_nat (length classes))) as [|Hte]; [discriminate|].
  assert (Hpart : concat cis ≡ₚ seq 0 (length y)).
  { apply (class_indices_partition classes y (classes_of_NoDup y)).
    intros x Hx. apply classes_of_elem, Hx. }
  assert (Htotal : Sklearn.sumZ counts = Z.of_nat (length y)).
  { unfold counts. rewrite sumZ_lengths_concat, Hpart, length_seq. reflexivity. }
  assert (Hnonneg : Forall (fun c => 0 <= c) counts).
  { unfold counts. apply Forall_forall. intros c0 Hc0.
    apply list_elem_of_fmap in Hc0 as (ix & -> & _). lia. }
  assert (Hclasses : (0 < length classes)%nat).
  { destruct y as [|x y']; [simpl in Hsum; lia|].
    assert (Hx : x ∈ classes) by (apply classes_of_elem; left).
    destruct classes; [inversion Hx | simpl; lia]. }
  destruct (approximate_mode_spec G HG counts n_train (Sklearn.seed G random_state)
              ltac:(lia)) as (Hlen_n & Hsum_n & Hpoint).
  pose proof (approximate_mode_bounds G HG counts n_train (Sklearn.seed G random_state)
                Hnonneg ltac:(lia) ltac:(lia)) as Hbounds.
  destruct (Sklearn.approximate_mode G counts n_train (Sklearn.seed G random_state))
    as [n_i rng1]. cbn [fst] in Hlen_n, Hsum_n, Hbounds, Hpoint.
  set (remaining := zip_with Z.sub counts n_i).
  assert (Hsum_r : Sklearn.sumZ remaining = n_test).
  { unfold remaining. rewrite sumZ_zip_with_sub by (symmetry; exact Hlen_n). lia. }
  rewrite <- Hsum_r. rewrite (approximate_mode_all G remaining rng1) by lia.
  assert (Hlen_c : length counts = length cis) by (unfold counts; apply length_map).
  assert (Hlen_r : length remaining = length cis).
  { unfold remaining. rewrite length_zip_with_l_eq; [exact Hlen_c | symmetry; exact Hlen_n]. }
  destruct (blocks_projections cis n_i remaining ltac:(congruence) Hlen_r)
    as (Hp1 & Hp2 & Hp3).
  assert (Hblocks : Forall block_ok (zip cis (zip n_i remaining))).
  { apply Forall_lookup. intros i [ix [n t]] Hb.
    apply lookup_zip_with_Some in Hb as (ix' & nt & Hb & Hix & Hnt).
    injection Hb as <- <-.
    apply lookup_zip_with_Some in Hnt as (n' & t' & Hnt & Hn & Ht).
    injection Hnt as <- <-.
    unfold remaining in Ht.
    apply lookup_zip_with_Some in Ht as (c0 & n'' & -> & Hc0 & Hn'').
    rewrite Hn in Hn''. injection Hn'' as <-.
    assert (Hcix : c0 = Z.of_nat (length ix)).
    { unfold counts in Hc0. rewrite list_lookup_fmap, Hix in Hc0. injection Hc0 as <-.
      reflexivity. }
    pose proof (Forall2_lookup_lr _ _ _ i c0 n Hbounds Hc0 Hn) as Hcn. simpl in Hcn.
    unfold block_ok. cbn [fst snd]. lia. }
  assert (Hlabels : Forall2 (fun b c' => forall j, j ∈ fst b -> y !! j = Some c')
                      (zip cis (zip n_i remaining)) classes).
  { apply Forall2_same_length_lookup. split.
    - rewrite <- (length_map fst), Hp1. unfold cis. apply length_map.
    - intros i b c' Hb Hc' j Hj.
      assert (Hfst : fst b = Sklearn.class_indices c' y).
      { assert (Hl : map fst (zip cis (zip n_i remaining)) !! i = Some (fst b))
          by (rewrite list_lookup_fmap, Hb; reflexivity).
        rewrite Hp1 in Hl. unfold cis in Hl. rewrite list_lookup_fmap, Hc' in Hl.
        injection Hl as <-. reflexivity. }
      rewrite Hfst in Hj. apply class_indices_from_label in Hj as [_ Hj].
      rewrite Nat.sub_0_r in Hj. exact Hj. }
  pose proof (assign_classes_label_count G y c HG _ _ Hlabels Hblocks [] [] rng1) as Hcount.
  destruct (assign_classes_spec G (zip cis (zip n_i remaining)) HG Hblocks [] [] rng1)
    as (T & S & Heq & _).
  destruct (Sklearn.assign_classes G (zip cis (zip n_i remaining)) [] [] rng1)
    as [[train0 test0] rng2]. cbn [fst] in Heq, Hcount. injection Heq as -> ->.
  cbn [app] in Hcount |- *.
  pose proof (permuted_Permutation G rng2 T HG) as HpT.
  destruct (Sklearn.permuted G rng2 T) as [train1 rng3]. cbn [fst] in HpT.
  destruct (Sklearn.permuted G rng3 S) as [test1 rng4].
  intros [= <- <-].
  rewrite Hp2 in Hcount. change (label_count y c []) with 0%nat in Hcount.
  assert (Hin : c ∈ classes) by (apply classes_of_elem, Hc).
  apply list_elem_of_lookup in Hin as [i Hi].
  assert (Hk : counts !! i = Some k).
  { unfold counts, cis. rewrite !list_lookup_fmap, Hi. cbn. f_equal. unfold k.
    unfold Sklearn.class_indices. rewrite class_indices_from_length. reflexivity. }
  destruct (lookup_lt_is_Some_2 n_i i) as [n Hn].
  { rewrite Hlen_n. eapply lookup_lt_Some, Hk. }
  assert (Hr : r = n).
  { unfold r. rewrite (label_count_Permutation y c train1 T HpT), Hcount.
    rewrite (picked_lookup c classes n_i i n (classes_of_NoDup y) Hi Hn). lia. }
  rewrite Hr. rewrite <- Htotal. exact (Hpoint i k n Hk Hn).
Qed.

Lemma iloc_class_count (df : list DataMerger.Sample) (c : string) (positions : list nat) :
  forall rows,
    Sklearn.iloc df positions = Ok rows ->
    class_count c rows = label_count (map DataMerger.dx df) c positions.
Proof.
  unfold class_count, label_count.
  induction positions as [|i positions IH]; intros rows H.
  - injection H as <-. reflexivity.
  - unfold Sklearn.iloc in H. cbn [mapM] in H.
    destruct (df !! i) as [row|] eqn:Ei; [|discriminate].
    cbn [mbind Result_bind Py.bind] in H.
    fold (Sklearn.iloc df positions) in H.
    destruct (Sklearn.iloc df positions) as [rest|e] eqn:Erest; [|discriminate].
    cbn [mbind Result_bind Py.bind mret Result_ret] in H. injection H as <-.
    specialize (IH rest eq_refl).
    assert (Hlab : map DataMerger.dx df !! i = Some (DataMerger.dx row))
      by (rewrite list_lookup_fmap, Ei; reflexivity).
    destruct (decide (DataMerger.dx row = c)) as [Hc|Hc].
    + rewrite filter_cons_True by exact Hc.
      rewrite (filter_cons_True (fun j => map DataMerger.dx df !! j = Some c))
        by (rewrite Hlab, Hc; reflexivity).
      cbn. rewrite IH. reflexivity.
    + rewrite filter_cons_False by exact Hc.
      rewrite (filter_cons_False (fun j => map DataMerger.dx df !! j = Some c))
        by (rewrite Hlab; congruence).
      exact IH.
Qed.

Lemma class_count_Permutation (c : string) (a b : list DataMerger.Sample) :
  a ≡ₚ b -> class_count c a = class_count c b.
Proof. intros H. unfold class_count. rewrite H. reflexivity. Qed.

Lemma class_count_app (c : string) (a b : list DataMerger.Sample) :
  class_count c (a ++ b) = (class_count c a + class_count c b)%nat.
Proof. unfold class_count. rewrite filter_app, length_app. reflexivity. Qed.

Lemma class_count_le (c : string) (a : list DataMerger.Sample) :
  (class_count c a <= length a)%nat.
Proof. unfold class_count. apply length_filter. Qed.

(** Rounding a share down or up stays less than one away from it. *)
Lemma rounded_share (r : Z) (s : Q) :
  r = Qfloor s \/ (r = Qfloor s + 1 /\ (inject_Z (Qfloor s) < s)%Q) ->
  (s - 1 < inject_Z r < s + 1)%Q.
Proof.
  pose proof (Qfloor_le s) as Hlo. pose proof (Qlt_floor s) as Hhi.
  intros [->|[-> Hlt]].
  - rewrite inject_Z_plus in Hhi. change (inject_Z 1) with 1%Q in Hhi. lra.
  - rewrite inject_Z_plus in Hhi |- *. change (inject_Z 1) with 1%Q in *. lra.
Qed.

(** [train_test_split] is stratified: both frames hold every class in
    proportion, up to rounding. *)
Lemma train_test_split_stratified (G : Sklearn.RandomState) (df : list DataMerger.Sample)
    (test_size : Q) (random_state : Z) (train test : list DataMerger.Sample) (c : string) :
  lawful G ->
  Sklearn.train_test_split G df test_size (map DataMerger.dx df) random_state
  = Ok (train, test) ->
  stratified c df train /\ stratified c df test.
Proof.
  intros HG Hrun.
  destruct (train_test_split_spec G df test_size (map DataMerger.dx df) random_state
              train test HG (length_map _ _) Hrun) as (Hperm & Hsize & Hpos).
  assert (Hlen : (length train + length test = length df)%nat)
    by (rewrite <- Hperm, length_app; reflexivity).
  assert (Hcnt : (class_count c train + class_count c test = class_count c df)%nat)
    by (rewrite <- (class_count_Permutation c _ _ Hperm), class_count_app; reflexivity).
  assert (Hdf : (0 < inject_Z (Z.of_nat (length df)))%Q)
    by (change 0%Q with (inject_Z 0); rewrite <- Zlt_Qlt; lia).
  assert (Htrain : stratified c df train).
  { unfold stratified. cbv zeta.
    destruct (decide (c ∈ map DataMerger.dx df)) as [Hc|Hc].
    - revert Hrun. unfold Sklearn.train_test_split, Sklearn.validate_shuffle_split.
      destruct (Qle_bool test_size 0 || Qle_bool 1 test_size)%bool; [discriminate|].
      set (n_test := Qceiling (test_size * inject_Z (Z.of_nat (length df)))) in *.
      destruct (Z.eqb_spec (Z.of_nat (length df) - n_test) 0) as [|Hne]; [discriminate|].
      cbn [mbind Result_bind Py.bind].
      destruct (Sklearn.stratified_shuffle_split G _ _ n_test random_state)
        as [[tr te]|e] eqn:Esss; [|discriminate].
      cbn [mbind Result_bind Py.bind].
      destruct (Sklearn.iloc df tr) as [train_rows|e] eqn:Etr; [|discriminate].
      cbn [mbind Result_bind Py.bind].
      destruct (Sklearn.iloc df te) as [test_rows|e] eqn:Ete; [|discriminate].
      cbn [mbind Result_bind Py.bind]. intros [= <- <-].
      pose proof (stratified_shuffle_split_class G (map DataMerger.dx df)
                    (Z.of_nat (length df) - n_test) n_test random_state tr te c HG
                    ltac:(rewrite length_map; lia) ltac:(lia) Esss Hc) as Hclass.
      cbv zeta in Hclass.
      rewrite class_count_filter, length_map in Hclass.
      rewrite <- (iloc_class_count df c tr train_rows Etr) in Hclass.
      fold (class_count c df) in Hclass.
      replace (Z.of_nat (length df) - n_test) with (Z.of_nat (length train_rows)) in Hclass
        by lia.
      apply rounded_share, Hclass.
    - assert (Hzero : class_count c df = 0%nat).
      { unfold class_count. destruct (filter _ df) as [|s l] eqn:E; [reflexivity|].
        exfalso. apply Hc.
        assert (Hs : s ∈ filter (fun s => DataMerger.dx s = c) df) by (rewrite E; left).
        apply list_elem_of_filter in Hs as [<- Hs].
        apply list_elem_of_fmap. exists s. split; [reflexivity | exact Hs]. }
      assert (Hzero' : class_count c train = 0%nat) by lia.
      rewrite Hzero, Hzero'. unfold share. cbn [Z.of_nat].
      change (inject_Z 0) with 0%Q.
      assert (He : (0 / inject_Z (Z.of_nat (length df))
                    * inject_Z (Z.of_nat (length train)) == 0)%Q) by (field; lra).
      rewrite He. split; reflexivity. }
  split; [exact Htrain|].
  unfold stratified in *. cbv zeta in *. unfold share in *.
  assert (Hc' : (inject_Z (Z.of_nat (class_count c test))
                 == inject_Z (Z.of_nat (class_count c df))
                    - inject_Z (Z.of_nat (class_count c train)))%Q).
  { rewrite <- Hcnt, Nat2Z.inj_add, inject_Z_plus. ring. }
  assert (Hl' : (inject_Z (Z.of_nat (length test))
                 == inject_Z (Z.of_nat (length df)) - inject_Z (Z.of_nat (length train)))%Q).
  { rewrite <- Hlen, Nat2Z.inj_add, inject_Z_plus. ring. }
  rewrite Hc', Hl'.
  set (k := inject_Z (Z.of_nat (class_count c df))) in *.
  set (n := inject_Z (Z.of_nat (length df))) in *.
  set (m := inject_Z (Z.of_nat (length train))) in *.
  set (r := inject_Z (Z.of_nat (class_count c train))) in *.
  assert (He : (k / n * (n - m) == k - k / n * m)%Q) by (field; lra).
  rewrite He. lra.
Qed.

End Stratification.

Lemma stratified_Permutation (c : string) (whole whole' part : list DataMerger.Sample) :
  whole ≡ₚ whole' -> stratified c whole part -> stratified c whole' part.
Proof.
  intros H. unfold stratified.
  rewrite (class_count_Permutation c whole whole' H), (Permutation_length H). tauto.
Qed.

Lemma split_data_inv (G : Sklearn.RandomState) (self : DataSplitter.StratifiedDataSplitter)
    (df train val test : list DataMerger.Sample) :
  DataSplitter.split_data G self df = Ok (train, val, test) ->
  exists temp,
    Sklearn.train_test_split G df
      (DataSplitter.val_ratio self + DataSplitter.test_ratio self)
      (map DataMerger.dx df) (DataSplitter.random_state self) = Ok (train, temp)
    /\ Sklearn.train_test_split G temp (1 # 2) (map DataMerger.dx temp)
         (DataSplitter.random_state self) = Ok (val, test).
Proof.
  unfold DataSplitter.split_data. intros H.
  destruct (Sklearn.train_test_split G df _ _ _) as [[train0 temp]|e] eqn:E1; [|discriminate].
  cbn [mbind Result_bind Py.bind] in H.
  destruct (Sklearn.train_test_split G temp _ _ _) as [[val0 test0]|e] eqn:E2; [|discriminate].
  cbn [mbind Result_bind Py.bind] in H. injection H as <- <- <-.
  exists temp. split; [reflexivity | exact E2].
Qed.

(** X20: whenever [split_data] returns, the split is stratified.  For every
    class, the number of its rows in the train set and in the hold-out
    (validation plus test) is less than one row away from the exact share
    of the class in the registry, and the validation and test sets hold
    the class in the same way relative to the hold-out. *)
Theorem X20_split_is_stratified :
  forall (G : Sklearn.RandomState) (self : DataSplitter.StratifiedDataSplitter)
         (df train val test : list DataMerger.Sample) (c : string),
    lawful G ->
    DataSplitter.split_data G self df = Ok (train, val, test) ->
    stratified c df train
    /\ stratified c df (val ++ test)%list
    /\ stratified c (val ++ test)%list val
    /\ stratified c (val ++ test)%list test.
Proof.
  intros G self df train val test c HG Hrun.
  destruct (split_data_inv G self df train val test Hrun) as (temp & H1 & H2).
  destruct (train_test_split_stratified G df _ _ train temp c HG H1) as [Htrain Htemp].
  destruct (train_test_split_stratified G temp _ _ val test c HG H2) as [Hval Htest].
  destruct (train_test_split_spec G temp _ (map DataMerger.dx temp) _ val test HG
              (length_map _ _) H2) as (Hperm & _).
  split; [exact Htrain|]. split.
  - unfold stratified in *.
    rewrite (class_count_Permutation c _ _ Hperm), (Permutation_length Hperm). exact Htemp.
  - split; (eapply stratified_Permutation; [symmetry; exact Hperm|]); assumption.
Qed.

Lemma X20_witness :
  let self := DataSplitter.mkSplitter (70 # 100) (15 # 100) (15 # 100) 42 in
  let df := (samples_of 13 "nv" ++ samples_of 7 "mel")%list in
  exists train val test,
    DataSplitter.split_data reversing_rng self df = Ok (train, val, test)
    /\ stratified "mel" df train
    /\ stratified "mel" df (val ++ test)%list.
Proof.
  intros self df.
  assert (Hrun : exists train val test,
            DataSplitter.split_data reversing_rng self df = Ok (train, val, test)).
  { eexists _, _, _. vm_compute. reflexivity. }
  destruct Hrun as (train & val & test & Hrun).
  destruct (X20_split_is_stratified reversing_rng self df train val test "mel"
              reversing_rng_lawful Hrun) as (Htrain & Hhold & _).
  exists train, val, test. split; [exact Hrun|]. split; [exact Htrain | exact Hhold].
Defined.

(** X21: [__init__] only checks that the three ratios sum to 1.  A
    splitter it accepts whose validation and test ratios sum to 0 or less,
    or to 1 or more, makes [split_data] raise a ValueError on every
    registry. *)
Theorem X21_degenerate_holdout_ratio_fails_in_split :
  forall (G : Sklearn.RandomState) (metadata_exists : bool)
         (train_ratio val_ratio test_ratio : Q) (random_state : Z)
         (self : DataSplitter.StratifiedDataSplitter) (df : list DataMerger.Sample),
    DataSplitter.StratifiedDataSplitter_init metadata_exists train_ratio val_ratio test_ratio
      random_state = Ok self ->
    (val_ratio + test_ratio <= 0)%Q \/ (1 <= val_ratio + test_ratio)%Q ->
    exists msg, DataSplitter.split_data G self df = Raise (ValueError msg).
Proof.
  intros G metadata_exists tr vr te seed self df Hinit Hbad.
  unfold DataSplitter.StratifiedDataSplitter_init in Hinit.
  destruct (negb (DataSplitter.isclose (tr + vr + te) 1)); [discriminate|].
  destruct (negb metadata_exists); [discriminate|]. injection Hinit as <-.
  unfold DataSplitter.split_data, Sklearn.train_test_split, Sklearn.validate_shuffle_split.
  cbn [DataSplitter.val_ratio DataSplitter.test_ratio].
  assert (Hcheck : (Qle_bool (vr + te) 0 || Qle_bool 1 (vr + te))%bool = true).
  { apply orb_true_iff. destruct Hbad as [H|H]; [left | right]; apply Qle_bool_iff, H. }
  rewrite Hcheck. eexists. reflexivity.
Qed.

Lemma X21_witness :
  exists self msg,
    DataSplitter.StratifiedDataSplitter_init true 1 0 0 42 = Ok self
    /\ DataSplitter.split_data reversing_rng self (samples_of 10 "nv")
       = Raise (ValueError msg).
Proof.
  exists (DataSplitter.mkSplitter 1 0 0 42).
  destruct (X21_degenerate_holdout_ratio_fails_in_split reversing_rng true 1 0 0 42
              (DataSplitter.mkSplitter 1 0 0 42) (samples_of 10 "nv") eq_refl)
    as [msg Hmsg].
  - left. vm_compute. discriminate.
  - exists msg. split; [reflexivity | exact Hmsg].
Defined.

(** X22: [__init__] checks the ratios before the file.  For proportions
    (ratios between 0 and 1) whose sum is at least 1.1e-5 away from 1 it
    raises ValueError whether or not the metadata file exists; for a sum
    within 1e-5 of 1 it raises FileNotFoundError when the file is missing
    and else returns a splitter holding its arguments.  (The tolerance of
    [np.isclose] lies between the two bounds, 1.001e-5; sums within
    rounding of it are left out.) *)
Theorem X22_init_checks_ratios_before_file :
  forall (metadata_exists : bool) (train_ratio val_ratio test_ratio : Q) (random_state : Z),
    let off := Qabs (train_ratio + val_ratio + test_ratio - 1) in
    let init := DataSplitter.StratifiedDataSplitter_init metadata_exists
                  train_ratio val_ratio test_ratio random_state in
    (0 <= train_ratio <= 1)%Q -> (0 <= val_ratio <= 1)%Q -> (0 <= test_ratio <= 1)%Q ->
    ((11 # 1000000 <= off)%Q -> exists msg, init = Raise (ValueError msg))
    /\ ((off <= 1 # 100000)%Q -> metadata_exists = false ->
        exists msg, init = Raise (FileNotFoundError msg))
    /\ ((off <= 1 # 100000)%Q -> metadata_exists = true ->
        init = Ok (DataSplitter.mkSplitter train_ratio val_ratio test_ratio random_state)).
Proof.
  intros metadata_exists tr vr te seed off init _ _ _.
  unfold init, DataSplitter.StratifiedDataSplitter_init, DataSplitter.isclose.
  fold off.
  assert (Htol : ((1 # 100000000) + (1 # 100000) * Qabs 1 == 1001 # 100000000)%Q)
    by reflexivity.
  destruct (Qle_bool off ((1 # 100000000) + (1 # 100000) * Qabs 1)) eqn:E; cbn [negb].
  - apply Qle_bool_iff in E. rewrite Htol in E. split; [|split].
    + intros Hfar. exfalso. lra.
    + intros _ ->. eexists. reflexivity.
    + intros _ ->. reflexivity.
  - assert (Hfar : ~ (off <= 1001 # 100000000)%Q).
    { intros Hle. rewrite <- Htol in Hle. apply Qle_bool_iff in Hle. congruence. }
    split; [|split].
    + intros _. eexists. reflexivity.
    + intros Hle. exfalso. apply Hfar. lra.
    + intros Hle. exfalso. apply Hfar. lra.
Qed.

Lemma X22_witness :
  (exists msg,
     DataSplitter.StratifiedDataSplitter_init false (70 # 100) (20 # 100) (20 # 100) 42
     = Raise (ValueError msg))
  /\ (exists msg,
        DataSplitter.StratifiedDataSplitter_init false (70 # 100) (15 # 100) (15 # 100) 42
        = Raise (FileNotFoundError msg))
  /\ DataSplitter.StratifiedDataSplitter_init true (70 # 100) (15 # 100) (15 # 100) 42
     = Ok (DataSplitter.mkSplitter (70 # 100) (15 # 100) (15 # 100) 42).
Proof.
  assert (H70 : (0 <= 70 # 100 <= 1)%Q) by (split; vm_compute; discriminate).
  assert (H20 : (0 <= 20 # 100 <= 1)%Q) by (split; vm_compute; discriminate).
  assert (H15 : (0 <= 15 # 100 <= 1)%Q) by (split; vm_compute; discriminate).
  split; [|split].
  - apply (X22_init_checks_ratios_before_file false (70 # 100) (20 # 100) (20 # 100) 42
             H70 H20 H20).
    vm_compute. discriminate.
  - apply (X22_init_checks_ratios_before_file false (70 # 100) (15 # 100) (15 # 100) 42
             H70 H15 H15).
    + vm_compute. discriminate.
    + reflexivity.
  - apply (X22_init_checks_ratios_before_file true (70 # 100) (15 # 100) (15 # 100) 42
             H70 H15 H15).
    + vm_compute. discriminate.
    + reflexivity.
Defined.

(** X23: what a returned split looks like: none of the three sets is
    empty, and every class that reaches the hold-out (validation plus
    test) has at least two rows there, the second stratified split
    refusing a class with a single row. *)
Theorem X23_returned_split_is_populated :
  forall (G : Sklearn.RandomState) (self : DataSplitter.StratifiedDataSplitter)
         (df train val test : list DataMerger.Sample),
    lawful G ->
    DataSplitter.split_data G self df = Ok (train, val, test) ->
    train <> [] /\ val <> [] /\ test <> []
    /\ forall c, c ∈ map DataMerger.dx (val ++ test)%list ->
         (2 <= class_count c (val ++ test)%list)%nat.
Proof.
  intros G self df train val test HG Hrun.
  destruct (split_data_inv G self df train val test Hrun) as (temp & H1 & H2).
  destruct (train_test_split_spec G df _ (map DataMerger.dx df) _ train temp HG
              (length_map _ _) H1) as (_ & _ & Htrain).
  destruct (train_test_split_spec G temp _ (map DataMerger.dx temp) _ val test HG
              (length_map _ _) H2) as (Hperm & Hsize & Hval).
  split; [intros ->; simpl in Htrain; lia|].
  split; [intros ->; simpl in Hval; lia|].
  split.
  - intros ->. cbn [length] in Hsize.
    pose proof (Qle_ceiling ((1 # 2) * inject_Z (Z.of_nat (length temp)))) as Hceil.
    rewrite <- Hsize in Hceil. change (inject_Z (Z.of_nat 0)) with 0%Q in Hceil.
    assert (Hlen : (0 < length temp)%nat).
    { rewrite <- (Permutation_length Hperm), length_app. lia. }
    assert (Hq : (0 < inject_Z (Z.of_nat (length temp)))%Q)
      by (change 0%Q with (inject_Z 0); rewrite <- Zlt_Qlt; lia).
    lra.
  - intros c Hc. rewrite (class_count_Permutation c _ _ Hperm).
    destruct (le_lt_dec 2 (class_count c temp)) as [Hok|Hfew]; [exact Hok|].
    exfalso.
    assert (Hc' : c ∈ map DataMerger.dx temp) by (rewrite <- Hperm; exact Hc).
    destruct (train_test_split_single_member G temp (1 # 2)
                (DataSplitter.random_state self) c Hc' Hfew) as [msg Hmsg].
    rewrite Hmsg in H2. discriminate H2.
Qed.

Lemma X23_witness :
  let self := DataSplitter.mkSplitter (70 # 100) (15 # 100) (15 # 100) 42 in
  let df := (samples_of 13 "nv" ++ samples_of 7 "mel")%list in
  exists train val test,
    DataSplitter.split_data reversing_rng self df = Ok (train, val, test)
    /\ train <> [] /\ val <> [] /\ test <> [].
Proof.
  intros self df.
  assert (Hrun : exists train val test,
            DataSplitter.split_data reversing_rng self df = Ok (train, val, test)).
  { eexists _, _, _. vm_compute. reflexivity. }
  destruct Hrun as (train & val & test & Hrun).
  destruct (X23_returned_split_is_populated reversing_rng self df train val test
              reversing_rng_lawful Hrun) as (H1 & H2 & H3 & _).
  exists train, val, test. split; [exact Hrun|]. split; [exact H1|]. split; assumption.
Defined.

(** ** [SkinLesionDataset] *)

Section DatasetFacts.

Import SkinLesionDataset.

Variables Image Tensor : Type.
Variable black : Image.
Variable cvtColor : Image -> Image.
Variable to_tensor : Image -> Tensor.
Variable disk : Disk Image.
Variable self : SkinLesionDataset Image Tensor.

Lemma iloc_out_of_range (rows : list DataMerger.Sample) (idx : Z) :
  idx < - Z.of_nat (length rows) \/ Z.of_nat (length rows) <= idx ->
  iloc rows idx = Raise IndexError.
Proof.
  intros Hidx. unfold iloc, Dataloader.np_index.
  destruct (Z.leb_spec 0 idx); destruct (Z.ltb_spec idx (Z.of_nat (length rows)));
    destruct (Z.leb_spec (- Z.of_nat (length rows)) idx); destruct (Z.ltb_spec idx 0);
    cbn; try reflexivity; lia.
Qed.

Lemma dict_getitem_missing (d : list (string * Z)) (key : string) :
  key ∉ map fst d -> dict_getitem d key = Raise (KeyError key).
Proof.
  intros Hkey. unfold dict_getitem.
  destruct (List.find _ d) as [item|] eqn:E; [|reflexivity].
  apply find_some in E as [Hin Heq]. apply String.eqb_eq in Heq.
  exfalso. apply Hkey. rewrite <- Heq. apply list_elem_of_fmap.
  exists item. split; [reflexivity | apply list_elem_of_In, Hin].
Qed.

Lemma _get_image_path_known (image_id source : string) :
  source = "ham10000" \/ source = "isic2019" ->
  _get_image_path self image_id source
  = Ok (mkPath (if String.eqb source "ham10000" then ham_dir self else isic_dir self)
          (image_id ++ ".jpg")).
Proof. intros [-> | ->]; reflexivity. Qed.

Lemma _get_image_path_unknown (image_id source : string) :
  source <> "ham10000" -> source <> "isic2019" ->
  _get_image_path self image_id source = Raise (ValueError ("Unknown source: " ++ source)).
Proof.
  intros H1 H2. unfold _get_image_path.
  destruct (String.eqb_spec source "ham10000"); [contradiction|].
  destruct (String.eqb_spec source "isic2019"); [contradiction|]. reflexivity.
Qed.

(** [__getitem__] on a row with a known source: a file that is missing or
    unreadable is replaced by the black image and one ERROR record. *)
Lemma getitem_known_source (idx : Z) (row : DataMerger.Sample) :
  iloc (data self) idx = Ok row ->
  DataMerger.source row = "ham10000" \/ DataMerger.source row = "isic2019" ->
  let path :=
    mkPath (if String.eqb (DataMerger.source row) "ham10000"
            then ham_dir self else isic_dir self)
      (DataMerger.image_id row ++ ".jpg") in
  let finish (image : Image) (log : list log_record) :=
    tensor ← match transform self with
             | Some transform => transform image
             | None => Ok (to_tensor image)
             end;
    label ← dict_getitem (class_to_idx self) (DataMerger.dx row);
    Ok ((tensor, label), log) in
  __getitem__ black cvtColor to_tensor disk self idx
  = match disk path with
    | Some (Some image) => finish (cvtColor image) []
    | _ => finish black [load_error (DataMerger.image_id row)]
    end.
Proof.
  intros Hrow Hsource path finish. unfold __getitem__.
  rewrite Hrow. cbn [mbind Result_bind Py.bind].
  rewrite (_get_image_path_known _ _ Hsource). cbn [mbind Result_bind Py.bind].
  fold path. unfold _load_image.
  destruct (disk path) as [[image|]|]; reflexivity.
Qed.

End DatasetFacts.

(** X24: [__getitem__] never fails because an image file is missing or
    cannot be read.  For a row in range with a known source and a class of
    the mapping, and without a transform, it returns the class index
    together with the converted image when the file is readable, and else
    the black image, logging one error. *)
Theorem X24_unreadable_image_becomes_black :
  forall (Image Tensor : Type) (black : Image) (cvtColor : Image -> Image)
         (to_tensor : Image -> Tensor) (disk : SkinLesionDataset.Disk Image)
         (self : SkinLesionDataset.SkinLesionDataset Image Tensor) (idx : Z)
         (row : DataMerger.Sample) (label : Z),
    SkinLesionDataset.iloc (SkinLesionDataset.data self) idx = Ok row ->
    DataMerger.source row = "ham10000" \/ DataMerger.source row = "isic2019" ->
    SkinLesionDataset.transform self = None ->
    SkinLesionDataset.dict_getitem (SkinLesionDataset.class_to_idx self) (DataMerger.dx row)
    = Ok label ->
    let path :=
      SkinLesionDataset.mkPath
        (if String.eqb (DataMerger.source row) "ham10000"
         then SkinLesionDataset.ham_dir self else SkinLesionDataset.isic_dir self)
        (DataMerger.image_id row ++ ".jpg") in
    SkinLesionDataset.__getitem__ black cvtColor to_tensor disk self idx
    = match disk path with
      | Some (Some image) => Ok ((to_tensor (cvtColor image), label), [])
      | _ => Ok ((to_tensor black, label),
                 [SkinLesionDataset.load_error (DataMerger.image_id row)])
      end.
Proof.
  intros Image Tensor black cvtColor to_tensor disk self idx row label
         Hrow Hsource Htransform Hlabel path.
  rewrite (getitem_known_source Image Tensor black cvtColor to_tensor disk self idx row
             Hrow Hsource).
  cbv zeta. fold path. rewrite Htransform, Hlabel.
  destruct (disk path) as [[image|]|]; reflexivity.
Qed.

Lemma X24_witness :
  let self : SkinLesionDataset.SkinLesionDataset nat nat :=
    SkinLesionDataset.mkDataset nat nat [sample_of "ISIC_1" "mel"] "ham" "isic" None
      [("mel", 4)] ∅ 1 ∅ in
  SkinLesionDataset.__getitem__ 0%nat (fun image => image) S (fun _ => None) self 0
  = Ok ((1%nat, 4), [SkinLesionDataset.load_error "ISIC_1"]).
Proof.
  intros self.
  apply (X24_unreadable_image_becomes_black nat nat 0%nat (fun image => image) S
           (fun _ => None) self 0 (sample_of "ISIC_1" "mel") 4).
  - reflexivity.
  - left. reflexivity.
  - reflexivity.
  - reflexivity.
Defined.

(** X25: the errors that do escape [__getitem__].  An index outside
    [-len, len) raises IndexError; a row whose source is neither
    [ham10000] nor [isic2019] raises ValueError, whatever the files are
    (the path is built outside the [try]); and, without a transform, a row
    of a known source whose class is not a key of the mapping raises
    KeyError. *)
Theorem X25_errors_that_escape_getitem :
  forall (Image Tensor : Type) (black : Image) (cvtColor : Image -> Image)
         (to_tensor : Image -> Tensor) (disk : SkinLesionDataset.Disk Image)
         (self : SkinLesionDataset.SkinLesionDataset Image Tensor) (idx : Z),
    let getitem := SkinLesionDataset.__getitem__ black cvtColor to_tensor disk self idx in
    let n := Z.of_nat (SkinLesionDataset.__len__ self) in
    (idx < - n \/ n <= idx -> getitem = Raise IndexError)
    /\ (forall row,
          SkinLesionDataset.iloc (SkinLesionDataset.data self) idx = Ok row ->
          DataMerger.source row <> "ham10000" -> DataMerger.source row <> "isic2019" ->
          exists msg, getitem = Raise (ValueError msg))
    /\ (forall row,
          SkinLesionDataset.iloc (SkinLesionDataset.data self) idx = Ok row ->
          DataMerger.source row = "ham10000" \/ DataMerger.source row = "isic2019" ->
          SkinLesionDataset.transform self = None ->
          DataMerger.dx row ∉ map fst (SkinLesionDataset.class_to_idx self) ->
          getitem = Raise (KeyError (DataMerger.dx row))).
Proof.
  intros Image Tensor black cvtColor to_tensor disk self idx getitem n.
  split; [|split].
  - intros Hidx. unfold getitem, SkinLesionDataset.__getitem__.
    rewrite (iloc_out_of_range _ _ Hidx). reflexivity.
  - intros row Hrow H1 H2. unfold getitem, SkinLesionDataset.__getitem__.
    rewrite Hrow. cbn [mbind Result_bind Py.bind].
    rewrite (_get_image_path_unknown Image Tensor self _ _ H1 H2).
    eexists. reflexivity.
  - intros row Hrow Hsource Htransform Hkey. unfold getitem.
    rewrite (getitem_known_source Image Tensor black cvtColor to_tensor disk self idx row
               Hrow Hsource).
    cbv zeta. rewrite Htransform, (dict_getitem_missing _ _ Hkey).
    destruct (disk _) as [[image|]|]; reflexivity.
Qed.

Lemma X25_witness :
  let self : SkinLesionDataset.SkinLesionDataset nat nat :=
    SkinLesionDataset.mkDataset nat nat
      [DataMerger.mkSample "ISIC_1" "mel" "pad_ufes"] "ham" "isic" None
      [("mel", 4)] ∅ 1 ∅ in
  let getitem := SkinLesionDataset.__getitem__ 0%nat (fun image => image) S
                   (fun _ => Some (Some 7%nat)) self in
  getitem 1 = Raise IndexError
  /\ exists msg, getitem 0 = Raise (ValueError msg).
Proof.
  intros self getitem.
  destruct (X25_errors_that_escape_getitem nat nat 0%nat (fun image => image) S
              (fun _ => Some (Some 7%nat)) self 1) as (Hrange & _).
  destruct (X25_errors_that_escape_getitem nat nat 0%nat (fun image => image) S
              (fun _ => Some (Some 7%nat)) self 0) as (_ & Hsource & _).
  split.
  - apply Hrange. right. vm_compute. discriminate.
  - apply (Hsource (DataMerger.mkSample "ISIC_1" "mel" "pad_ufes")).
    + reflexivity.
    + discriminate.
    + discriminate.
Defined.

(** X26: what [__init__] checks.  A missing CSV file raises
    FileNotFoundError, and with the file present a missing mapping raises
    ValueError; missing image directories never raise, each one only logs
    a warning.  The dataset built has one entry per CSV row and as many
    classes as the mapping has items. *)
Theorem X26_init_never_fails_on_directories :
  forall (Image Tensor : Type) (csv : option (list DataMerger.Sample))
         (dir_exists : string -> bool) (ham_dir isic_dir : string)
         (transform : option (Image -> Result Tensor))
         (class_to_idx : option (list (string * Z))),
    let init := SkinLesionDataset.SkinLesionDataset_init (Tensor := Tensor) csv dir_exists
                  ham_dir isic_dir transform class_to_idx in
    match csv, class_to_idx with
    | None, _ => exists msg, init = Raise (FileNotFoundError msg)
    | Some _, None => exists msg, init = Raise (ValueError msg)
    | Some rows, Some mapping =>
        exists self log,
          init = Ok (self, log)
          /\ SkinLesionDataset.__len__ self = length rows
          /\ SkinLesionDataset.num_classes self = length mapping
          /\ SkinLesionDataset.class_to_idx self = mapping
          /\ Forall (fun r => lvl r = WARNING) log
          /\ length log
             = ((if dir_exists ham_dir then 0 else 1)
                + (if dir_exists isic_dir then 0 else 1))%nat
    end.
Proof.
  intros Image Tensor csv dir_exists ham_dir isic_dir transform class_to_idx init.
  unfold init, SkinLesionDataset.SkinLesionDataset_init.
  destruct csv as [rows|]; [|eexists; reflexivity].
  destruct class_to_idx as [mapping|]; [|eexists; reflexivity].
  eexists _, _. split; [reflexivity|]. repeat split.
  - unfold SkinLesionDataset._validate_directories.
    destruct (dir_exists ham_dir), (dir_exists isic_dir); repeat constructor.
  - unfold SkinLesionDataset._validate_directories.
    destruct (dir_exists ham_dir), (dir_exists isic_dir); reflexivity.
Qed.

Lemma X26_witness :
  exists self log,
    SkinLesionDataset.SkinLesionDataset_init (Image := nat) (Tensor := nat)
      (Some [sample_of "ISIC_1" "mel"]) (fun _ => false) "ham" "isic" None
      (Some [("mel", 4)]) = Ok (self, log)
    /\ SkinLesionDataset.__len__ self = 1%nat
    /\ length log = 2%nat.
Proof.
  destruct (X26_init_never_fails_on_directories nat nat (Some [sample_of "ISIC_1" "mel"])
              (fun _ => false) "ham" "isic" None (Some [("mel", 4)]))
    as (self & log & Hinit & Hlen & _ & _ & _ & Hlog).
  exists self, log. split; [exact Hinit|]. split; [exact Hlen | exact Hlog].
Defined.

(** X27: [get_sample_info] agrees with [__getitem__].  Whenever it returns
    for an index, [__getitem__] (without a transform) returns for that
    index with the same label; and when it reports that the file does not
    exist, [__getitem__] yields the black image and logs the error. *)
Theorem X27_sample_info_agrees_with_getitem :
  forall (Image Tensor : Type) (black : Image) (cvtColor : Image -> Image)
         (to_tensor : Image -> Tensor) (disk : SkinLesionDataset.Disk Image)
         (self : SkinLesionDataset.SkinLesionDataset Image Tensor) (idx : Z)
         (info : SkinLesionDataset.SampleInfo),
    SkinLesionDataset.get_sample_info disk self idx = Ok info ->
    SkinLesionDataset.transform self = None ->
    exists tensor log,
      SkinLesionDataset.__getitem__ black cvtColor to_tensor disk self idx
      = Ok ((tensor, SkinLesionDataset.info_label_idx info), log)
      /\ (SkinLesionDataset.info_exists info = false ->
          tensor = to_tensor black
          /\ log = [SkinLesionDataset.load_error (SkinLesionDataset.info_image_id info)]).
Proof.
  intros Image Tensor black cvtColor to_tensor disk self idx info Hinfo Htransform.
  unfold SkinLesionDataset.get_sample_info in Hinfo.
  apply bind_Ok_inv in Hinfo as (row & Hrow & Hinfo).
  apply bind_Ok_inv in Hinfo as (path & Hpath & Hinfo).
  apply bind_Ok_inv in Hinfo as (label & Hlabel & Hinfo).
  injection Hinfo as <-. cbn [SkinLesionDataset.info_label_idx
    SkinLesionDataset.info_exists SkinLesionDataset.info_image_id].
  unfold SkinLesionDataset.__getitem__.
  rewrite Hrow. cbn [mbind Result_bind Py.bind].
  rewrite Hpath. cbn [mbind Result_bind Py.bind].
  unfold SkinLesionDataset._load_image. rewrite Htransform.
  destruct (disk path) as [[image|]|] eqn:Edisk; cbn [mbind Result_bind Py.bind fst snd];
    rewrite Hlabel; cbn [mbind Result_bind Py.bind];
    eexists _, _; (split; [reflexivity|]).
  - intros Hex. apply bool_decide_eq_false in Hex. exfalso. apply Hex. eexists. reflexivity.
  - intros _. split; reflexivity.
  - intros _. split; reflexivity.
Qed.

Lemma X27_witness :
  let self : SkinLesionDataset.SkinLesionDataset nat nat :=
    SkinLesionDataset.mkDataset nat nat [sample_of "ISIC_1" "mel"] "ham" "isic" None
      [("mel", 4)] ∅ 1 ∅ in
  exists tensor log,
    SkinLesionDataset.__getitem__ 0%nat (fun image => image) S (fun _ => None) self (-1)
    = Ok ((tensor, 4), log)
    /\ tensor = 1%nat.
Proof.
  intros self.
  destruct (X27_sample_info_agrees_with_getitem nat nat 0%nat (fun image => image) S
              (fun _ => None) self (-1)
              (SkinLesionDataset.mkSampleInfo (-1) "ISIC_1" "mel" 4 "ham10000"
                 (SkinLesionDataset.mkPath "ham" "ISIC_1.jpg") false)
              eq_refl eq_refl) as (tensor & log & Hrun & Hmissing).
  exists tensor, log. split; [exact Hrun|]. apply Hmissing. reflexivity.
Defined.

Lemma inverse_dict_lookup (items : list (string * Z)) : forall (d : gmap Z string) (k : string) (v : Z),
  NoDup (map snd items) ->
  foldl (fun d item => insert (snd item) (fst item) d) d items !! v = Some k <->
  (k, v) ∈ items \/ ((v ∉ map snd items) /\ d !! v = Some k).
Proof.
  induction items as [|[k' v'] items IH]; intros d k v Hnd; cbn [foldl map snd fst].
  - split; [intros H; right; split; [apply not_elem_of_nil | exact H]|].
    intros [H|[_ H]]; [inversion H | exact H].
  - apply NoDup_cons in Hnd as [Hfresh Hnd]. rewrite (IH _ k v Hnd).
    rewrite elem_of_cons, not_elem_of_cons. split.
    + intros [Hin|[Hnot Hd]]; [left; right; exact Hin|].
      destruct (decide (v = v')) as [->|Hne].
      * rewrite lookup_insert_eq in Hd. injection Hd as ->. left. left. reflexivity.
      * rewrite lookup_insert_ne in Hd by congruence. right. split; [split; assumption | exact Hd].
    + intros [[Heq|Hin]|[[Hne Hnot] Hd]].
      * injection Heq as -> ->. right. split; [exact Hfresh | apply lookup_insert_eq].
      * left. exact Hin.
      * right. split; [exact Hnot|]. rewrite lookup_insert_ne by congruence. exact Hd.
Qed.

(** X28: for a mapping with distinct indices, the [idx_to_class]
    dictionary that [__init__] builds is its inverse. *)
Theorem X28_idx_to_class_inverts_the_mapping :
  forall (Image Tensor : Type) (csv : option (list DataMerger.Sample))
         (dir_exists : string -> bool) (ham_dir isic_dir : string)
         (transform : option (Image -> Result Tensor))
         (mapping : list (string * Z))
         (self : SkinLesionDataset.SkinLesionDataset Image Tensor) (log : list log_record),
    SkinLesionDataset.SkinLesionDataset_init csv dir_exists ham_dir isic_dir transform
      (Some mapping) = Ok (self, log) ->
    NoDup (map snd mapping) ->
    forall (k : string) (v : Z),
      SkinLesionDataset.idx_to_class self !! v = Some k <-> (k, v) ∈ mapping.
Proof.
  intros Image Tensor csv dir_exists ham_dir isic_dir transform mapping self log Hinit Hnd k v.
  unfold SkinLesionDataset.SkinLesionDataset_init in Hinit.
  destruct csv as [rows|]; [|discriminate]. injection Hinit as <- _.
  cbn [SkinLesionDataset.idx_to_class].
  rewrite (inverse_dict_lookup mapping ∅ k v Hnd). split.
  - intros [H|[_ H]]; [exact H | rewrite lookup_empty in H; discriminate].
  - intros H. left. exact H.
Qed.

Lemma X28_witness :
  exists self log,
    SkinLesionDataset.SkinLesionDataset_init (Image := nat) (Tensor := nat)
      (Some [sample_of "ISIC_1" "mel"]) (fun _ => true) "ham" "isic" None
      (Some [("mel", 4); ("nv", 5)]) = Ok (self, log)
    /\ SkinLesionDataset.idx_to_class self !! 5 = Some "nv".
Proof.
  eexists _, _. split; [reflexivity|].
  apply (X28_idx_to_class_inverts_the_mapping nat nat (Some [sample_of "ISIC_1" "mel"])
           (fun _ => true) "ham" "isic" None [("mel", 4); ("nv", 5)] _ [] eq_refl).
  - apply (bool_decide_unpack _). vm_compute. exact I.
  - right. left.
Defined.

